(** * cash-school backend: token lifecycle, credential checks and audit trail

    A shallow embedding of the authentication / authorisation core of the
    backend (app/core/security.py, app/routers/auth.py, app/routers/users.py,
    app/routers/transactions.py, app/services/audit_service.py and
    app/schemas/schemas.py) together with the properties the specification
    states about it.

    Conventions.
    - Python dictionaries with string keys are [gmap string jvalue].
    - A Python call that may raise is a [result]: [Ok v] or [Raise e].
    - Code that talks to the database session runs in the monad [M], which
      threads the session and keeps it when an exception travels.
    - Instants are whole seconds since the epoch, as the token library
      writes them into the [exp] claim.
    - A string is the UTF-8 encoding of a Python string; [Py.code_points]
      reads its characters, which is what [len], the length bounds of the
      schemas and the character tests work on. *)

From stdpp Require Import base option list gmap strings.
From Stdlib Require Import ZArith Lia DecimalString DecimalPos Ascii String.

Open Scope string_scope.
Open Scope Z_scope.

(** ** Python values and exceptions *)

Module Py.

(** What a handler can raise: FastAPI's HTTPException (status code, detail,
    headers) or any other Python exception, kept as class name and message. *)
Inductive exn : Type :=
| HTTPException (status_code : Z) (detail : string)
                (headers : list (string * string))
| PyExc (cls : string) (msg : string).

Inductive result (A : Type) : Type :=
| Ok (a : A)
| Raise (e : exn).
Arguments Ok {A} a.
Arguments Raise {A} e.

Definition rbind {A B} (r : result A) (k : A -> result B) : result B :=
  match r with
  | Ok a => k a
  | Raise e => Raise e
  end.

(** Values that occur in token claims and in audit snapshots.  Null, floats,
    arrays and nested objects do not occur in the dictionaries this code
    builds and are left out. *)
Inductive jvalue : Type :=
| JStr (s : string)
| JInt (z : Z)
| JBool (b : bool).

#[global] Instance jvalue_eq_dec : EqDecision jvalue.
Proof. solve_decision. Defined.

#[global] Instance exn_eq_dec : EqDecision exn.
Proof. solve_decision. Defined.

(** [str(n)] for an integer. *)
Definition str_of_int (n : Z) : string :=
  NilZero.string_of_int (Z.to_int n).

(** The characters [int] strips from a string of ASCII characters: tab to
    carriage return, and the blank.  (The separators 28 to 31 are blanks for
    [str.strip], not for [int].) *)
Definition is_space (c : ascii) : bool :=
  let n := nat_of_ascii c in
  ((9 <=? n)%nat && (n <=? 13)%nat) || (n =? 32)%nat.

Definition is_digit (c : ascii) : bool :=
  let n := nat_of_ascii c in (48 <=? n)%nat && (n <=? 57)%nat.

Definition digit_val (c : ascii) : Z := Z.of_nat (nat_of_ascii c) - 48.

Fixpoint lstrip (s : string) : string :=
  match s with
  | String c s' => if is_space c then lstrip s' else s
  | EmptyString => EmptyString
  end.

Fixpoint string_rev_onto (s acc : string) : string :=
  match s with
  | String c s' => string_rev_onto s' (String c acc)
  | EmptyString => acc
  end.

Definition strip (s : string) : string :=
  string_rev_onto (lstrip (string_rev_onto (lstrip s) "")) "".

(** Digits of a decimal literal; a single underscore may stand between two
    digits.  [prev] tells whether the previous character was a digit. *)
Fixpoint digits_from (s : string) (acc : Z) (prev : bool) : option Z :=
  match s with
  | EmptyString => if prev then Some acc else None
  | String c s' =>
      if is_digit c then digits_from s' (10 * acc + digit_val c) true
      else if (Ascii.eqb c "_") && prev then
             match s' with
             | String d _ => if is_digit d then digits_from s' acc false
                             else None
             | EmptyString => None
             end
           else None
  end.

(** [int(s)] for a string: surrounding blanks, an optional sign, decimal
    digits.  [None] is Python's ValueError.  The digits and blanks are the
    ASCII ones: a string with a character beyond ASCII is read as no number
    here, while Python also reads the decimal digits and the blanks of other
    scripts. *)
Definition int_of_str (s : string) : option Z :=
  match strip s with
  | String "-" t => option_map Z.opp (digits_from t 0 false)
  | String "+" t => digits_from t 0 false
  | t => digits_from t 0 false
  end.

(** [int(v)] on a claim value. *)
Definition int (v : jvalue) : result Z :=
  match v with
  | JInt z => Ok z
  | JBool b => Ok (if b then 1 else 0)
  | JStr s =>
      match int_of_str s with
      | Some z => Ok z
      | None => Raise (PyExc "ValueError" "invalid literal for int() with base 10")
      end
  end.

(** A Python [str] is a sequence of code points.  The strings of this
    development are their UTF-8 encodings, and [code_points] reads the code
    points back: one for a byte below 128, one for each well-formed sequence
    of two, three or four bytes.  A byte that starts no well-formed sequence
    stands for itself; no Python string encodes to such bytes. *)
Definition byte (c : ascii) : Z := Z.of_nat (nat_of_ascii c).

Definition continuation (c : ascii) : bool :=
  (128 <=? byte c) && (byte c <? 192).

Fixpoint code_points (s : string) : list Z :=
  match s with
  | EmptyString => []
  | String c0 s1 =>
      let b0 := byte c0 in
      let alone := b0 :: code_points s1 in
      if b0 <? 192 then alone
      else if b0 <? 224 then
        match s1 with
        | String c1 s2 =>
            if continuation c1
            then ((b0 - 192) * 64 + (byte c1 - 128)) :: code_points s2
            else alone
        | _ => alone
        end
      else if b0 <? 240 then
        match s1 with
        | String c1 (String c2 s3) =>
            if continuation c1 && continuation c2
            then ((b0 - 224) * 4096 + (byte c1 - 128) * 64 + (byte c2 - 128))
                 :: code_points s3
            else alone
        | _ => alone
        end
      else if b0 <? 248 then
        match s1 with
        | String c1 (String c2 (String c3 s4)) =>
            if continuation c1 && continuation c2 && continuation c3
            then ((b0 - 240) * 262144 + (byte c1 - 128) * 4096
                  + (byte c2 - 128) * 64 + (byte c3 - 128))
                 :: code_points s4
            else alone
        | _ => alone
        end
      else alone
  end.

(** [len(s)]: the number of code points. *)
Definition len (s : string) : Z := Z.of_nat (List.length (code_points s)).

(** [[f(x) for x in xs]] where [f] may raise: the first exception ends the
    comprehension. *)
Fixpoint map_result {A B} (f : A -> result B) (xs : list A)
  : result (list B) :=
  match xs with
  | [] => Ok []
  | x :: xs' =>
      rbind (f x) (fun y => rbind (map_result f xs') (fun ys => Ok (y :: ys)))
  end.

End Py.
Export Py.

(** ** Configuration (app/core/config.py) *)

Class Settings : Type := {
  SECRET_KEY : string;
  ALGORITHM : string;
  ACCESS_TOKEN_EXPIRE_MINUTES : Z;
  REFRESH_TOKEN_EXPIRE_DAYS : Z
}.

(** The field defaults of the [Settings] class. *)
Definition default_settings : Settings := {|
  SECRET_KEY := "your-super-secret-key-change-this-in-production";
  ALGORITHM := "HS256";
  ACCESS_TOKEN_EXPIRE_MINUTES := 30;
  REFRESH_TOKEN_EXPIRE_DAYS := 7
|}.

(** ** Primitives of the libraries the code calls

    The keyed hash behind the token signature and the bcrypt functions are not
    part of the repository; the development is parametric in them. *)

Class Primitives : Type := {
  (** signature of a claims set under an algorithm and a key *)
  hmac : string -> string -> gmap string jvalue -> string;
  (** the bcrypt handler on a digest it has identified: [None] when it
      cannot parse the digest (a ValueError), else the comparison *)
  bcrypt_verify : string -> string -> option bool;
  (** bcrypt digest of a password under a salt *)
  bcrypt_hashpw : string -> string -> string
}.

(** ** Character properties

    [str.isupper], [str.islower] and [str.isdigit] on one character follow
    the Unicode database the interpreter carries: the derived properties
    Uppercase and Lowercase, and the numeric types Digit and Decimal.  On
    ASCII they are the three ranges written out in [Schemas]; beyond ASCII
    the database is not part of the repository and the development is
    parametric in it. *)

Class UnicodeData : Type := {
  Uppercase : Z -> bool;
  Lowercase : Z -> bool;
  Digit : Z -> bool
}.

(** ** The token library (jose.jwt), as far as this code drives it *)

Module Jose.

Abbreviation claims := (gmap string jvalue).

(** A compact token after splitting and decoding its three segments, or a
    string that does not decode that far. *)
Inductive token : Type :=
| Jws (alg : string) (payload : claims) (signature : string)
| Garbage (raw : string).

Definition JWTError (msg : string) : exn := PyExc "JWTError" msg.

(** The shared-secret algorithms. *)
Definition hmac_algorithms : list string := ["HS256"; "HS384"; "HS512"].

Definition is_hmac_alg (alg : string) : bool :=
  bool_decide (alg ∈ hmac_algorithms).

Section WithPrimitives.
Context `{Primitives}.

(** [jwt.encode(claims, key, algorithm=alg)]; a datetime under [exp] has
    already been turned into its epoch seconds. *)
Definition encode (c : claims) (key alg : string) : result token :=
  if is_hmac_alg alg then Ok (Jws alg c (hmac alg key c))
  else Raise (PyExc "JWSError" "Algorithm not supported").

Definition is_str (v : jvalue) : bool :=
  match v with JStr _ => true | _ => false end.

Definition claim_int (c : claims) (k : string) (msg : string)
  : result (option Z) :=
  match c !! k with
  | None => Ok None
  | Some v =>
      match Py.int v with
      | Ok z => Ok (Some z)
      | Raise _ => Raise (JWTError msg)
      end
  end.

Definition validate_iat (c : claims) : result unit :=
  rbind (claim_int c "iat" "Issued At claim (iat) must be an integer.")
        (fun _ => Ok tt).

Definition validate_nbf (now : Z) (c : claims) : result unit :=
  rbind (claim_int c "nbf" "Not Before claim (nbf) must be an integer.")
        (fun o => match o with
                  | Some nbf =>
                      if now <? nbf
                      then Raise (JWTError "The token is not yet valid (nbf)")
                      else Ok tt
                  | None => Ok tt
                  end).

(** No leeway is passed by the caller: a token is refused as soon as its
    [exp] second lies before the current one. *)
Definition validate_exp (now : Z) (c : claims) : result unit :=
  rbind (claim_int c "exp" "Expiration Time claim (exp) must be an integer.")
        (fun o => match o with
                  | Some exp =>
                      if exp <? now
                      then Raise (JWTError "Signature has expired.")
                      else Ok tt
                  | None => Ok tt
                  end).

(** The caller passes no audience, so any [aud] claim is refused. *)
Definition validate_aud (c : claims) : result unit :=
  match c !! "aud" with
  | None => Ok tt
  | Some _ => Raise (JWTError "Invalid audience")
  end.

Definition validate_str (c : claims) (k msg : string) : result unit :=
  match c !! k with
  | None => Ok tt
  | Some v => if is_str v then Ok tt else Raise (JWTError msg)
  end.

(** The caller passes no access token to compare an [at_hash] with. *)
Definition validate_at_hash (c : claims) : result unit :=
  match c !! "at_hash" with
  | None => Ok tt
  | Some _ =>
      Raise (JWTError "No access_token provided to compare against at_hash claim.")
  end.

Definition validate_claims (now : Z) (c : claims) : result unit :=
  rbind (validate_iat c) (fun _ =>
  rbind (validate_nbf now c) (fun _ =>
  rbind (validate_exp now c) (fun _ =>
  rbind (validate_aud c) (fun _ =>
  rbind (validate_str c "sub" "Subject must be a string.") (fun _ =>
  rbind (validate_str c "jti" "JWT ID must be a string.") (fun _ =>
  validate_at_hash c)))))).

(** [jwt.decode(token, key, algorithms=algs)] at instant [now]. Every
    failure is a JWTError (or one of its subclasses). *)
Definition decode (now : Z) (t : token) (key : string)
           (algs : list string) : result claims :=
  match t with
  | Garbage _ => Raise (JWTError "Error decoding token headers.")
  | Jws alg c sig =>
      if negb (bool_decide (alg ∈ algs))
      then Raise (JWTError "The specified alg value is not allowed")
      else if negb (is_hmac_alg alg)
      then Raise (JWTError "Algorithm not supported")
      else if negb (String.eqb sig (hmac alg key c))
      then Raise (JWTError "Signature verification failed.")
      else rbind (validate_claims now c) (fun _ => Ok c)
  end.

End WithPrimitives.

End Jose.

(** ** The password library (passlib.context.CryptContext) *)

Module Passlib.

Fixpoint starts_with (p s : string) : bool :=
  match p, s with
  | EmptyString, _ => true
  | String a p', String b s' => Ascii.eqb a b && starts_with p' s'
  | String _ _, EmptyString => false
  end.

(** The identifiers by which the bcrypt handler recognises a digest. *)
Definition bcrypt_idents : list string :=
  ["$2$"; "$2a$"; "$2x$"; "$2y$"; "$2b$"].

Definition bcrypt_identify (digest : string) : bool :=
  existsb (fun p => starts_with p digest) bcrypt_idents.

Section WithPrimitives.
Context `{Primitives}.

(** [CryptContext(schemes=["bcrypt"]).verify(secret, digest)]: a digest no
    scheme of the context identifies raises UnknownHashError; a digest
    the handler identifies but cannot parse raises ValueError. *)
Definition context_verify (secret digest : string) : result bool :=
  if bcrypt_identify digest then
    match bcrypt_verify secret digest with
    | Some b => Ok b
    | None => Raise (PyExc "ValueError" "malformed bcrypt hash")
    end
  else Raise (PyExc "UnknownHashError" "hash could not be identified").

(** [CryptContext.hash(secret)] with the salt it drew. *)
Definition context_hash (salt secret : string) : string :=
  bcrypt_hashpw salt secret.

End WithPrimitives.

End Passlib.

(** ** app/models/models.py: enumerations and rows *)

Module Models.

Inductive UserRole : Type := ADMIN | VIEWER.

Definition UserRole_value (r : UserRole) : string :=
  match r with ADMIN => "admin" | VIEWER => "viewer" end.

Inductive TransactionType : Type := debit | credit.

Definition TransactionType_value (t : TransactionType) : string :=
  match t with debit => "debit" | credit => "credit" end.

Inductive ActionType : Type := CREATE | UPDATE | DELETE | LOGIN | LOGOUT.

Definition ActionType_value (a : ActionType) : string :=
  match a with
  | CREATE => "CREATE" | UPDATE => "UPDATE" | DELETE => "DELETE"
  | LOGIN => "LOGIN" | LOGOUT => "LOGOUT"
  end.

(** [ActionType(s)]: the member whose value is [s], or a ValueError. *)
Definition ActionType_of_value (s : string) : result ActionType :=
  if String.eqb s "CREATE" then Ok CREATE
  else if String.eqb s "UPDATE" then Ok UPDATE
  else if String.eqb s "DELETE" then Ok DELETE
  else if String.eqb s "LOGIN" then Ok LOGIN
  else if String.eqb s "LOGOUT" then Ok LOGOUT
  else Raise (PyExc "ValueError" "not a valid ActionType").

(** [TransactionType.<name>]: the member declared under that name; the
    class declares [debit] and [credit], any other name is an
    AttributeError. *)
Definition TransactionType_member (name : string) : result TransactionType :=
  if String.eqb name "debit" then Ok debit
  else if String.eqb name "credit" then Ok credit
  else Raise (PyExc "AttributeError" name).

#[global] Instance UserRole_eq_dec : EqDecision UserRole.
Proof. solve_decision. Defined.

(** The [role] attribute of a [User] object.  The column is a plain
    [String(20)]: a row read from it carries bare text.  The schemas assign
    [UserRole] members (a [str] subclass) to the attribute, so an object
    built from a request carries a member until its row has been written and
    read back.  Both compare equal to the same string; only a member has
    [.value]. *)
Inductive role_attr : Type :=
| RoleMember (r : UserRole)
| RoleText (s : string).

Definition role_str (a : role_attr) : string :=
  match a with RoleMember r => UserRole_value r | RoleText s => s end.

(** [a.value] *)
Definition role_value (a : role_attr) : result string :=
  match a with
  | RoleMember r => Ok (UserRole_value r)
  | RoleText _ =>
      Raise (PyExc "AttributeError" "'str' object has no attribute 'value'")
  end.

Module User.
Record t : Type := mk {
  id : Z;
  username : string;
  email : string;
  password_hash : string;
  full_name : string;
  role : role_attr;
  is_active : bool;
  created_at : Z;
  updated_at : Z
}.
End User.

(** [amount] is the amount in the unit the [DECIMAL(10, 2)] column keeps.
    A request amount that the column would round or refuse has no
    counterpart here; the statements about amounts speak of the stored row
    and of the response built from it. *)
Module FinancialRecord.
Record t : Type := mk {
  id : Z;
  amount : Z;
  description : string;
  transaction_type : string;
  created_by : Z;
  created_at : Z;
  updated_at : Z;
  is_deleted : bool
}.
End FinancialRecord.

Module AuditLog.
Record t : Type := mk {
  id : Z;
  user_id : Z;
  action_type : string;
  table_name : string;
  record_id : option Z;
  old_values : option (gmap string jvalue);
  new_values : option (gmap string jvalue);
  ip_address : option string;
  user_agent : option string;
  created_at : Z
}.
End AuditLog.

End Models.
Export Models.

(** ** The database session *)

Module Session.

(** The three tables with their primary-key sequences. *)
Record Db : Type := mkDb {
  users : list User.t;
  financial_records : list FinancialRecord.t;
  audit_logs : list AuditLog.t;
  users_seq : Z;
  financial_records_seq : Z;
  audit_logs_seq : Z
}.

(** A session over the store: [durable] is what has been committed,
    [working] is the session's view with its pending changes, [commits] lists
    the states written by each commit, oldest first.  The store's own
    constraints (unique columns, foreign keys, the length of a string column,
    the precision of [DECIMAL(10, 2)]) are not modelled: a commit always goes
    through. *)
Record t : Type := mk {
  durable : Db;
  working : Db;
  commits : list Db
}.

(** The session a request starts with ([get_db]). *)
Definition open (db : Db) : t := mk db db [].

(** Computations over the session that may raise; the session survives an
    exception, so that an [except] clause can roll it back. *)
Definition M (A : Type) : Type := t -> result A * t.

Definition ret {A} (a : A) : M A := fun s => (Ok a, s).

Definition bind {A B} (m : M A) (k : A -> M B) : M B :=
  fun s => match m s with
           | (Ok a, s') => k a s'
           | (Raise e, s') => (Raise e, s')
           end.

Definition raise {A} (e : exn) : M A := fun s => (Raise e, s).

Definition lift {A} (r : result A) : M A := fun s => (r, s).

(** [try: body  except Exception as e: handler e] *)
Definition try_except {A} (body : M A) (handler : exn -> M A) : M A :=
  fun s => match body s with
           | (Ok a, s') => (Ok a, s')
           | (Raise e, s') => handler e s'
           end.

Definition get_working : M Db := fun s => (Ok (working s), s).

Definition set_working (db : Db) : M unit :=
  fun s => (Ok tt, mk (durable s) db (commits s)).

(** [await db.commit()] *)
Definition commit : M unit :=
  fun s => (Ok tt, mk (working s) (working s) (commits s ++ [working s])).

(** [await db.rollback()] *)
Definition rollback : M unit :=
  fun s => (Ok tt, mk (durable s) (durable s) (commits s)).

End Session.

#[global] Instance session_ret : MRet Session.M := @Session.ret.
#[global] Instance session_bind : MBind Session.M := fun A B k m => Session.bind m k.

(** ** app/schemas/schemas.py: request and response models *)

Module Schemas.

Definition in_range (lo hi : Z) (c : Z) : bool := (lo <=? c) && (c <=? hi).

(** [c.isupper()], [c.islower()], [c.isdigit()] on one character, given by
    its code point: the ASCII ranges, and beyond ASCII the property of the
    Unicode database. *)
Definition isupper `{UnicodeData} (c : Z) : bool :=
  if c <? 128 then in_range 65 90 c else Uppercase c.

Definition islower `{UnicodeData} (c : Z) : bool :=
  if c <? 128 then in_range 97 122 c else Lowercase c.

Definition isdigit `{UnicodeData} (c : Z) : bool :=
  if c <? 128 then in_range 48 57 c else Digit c.

(** [any(p(c) for c in v)]: the characters of a string are its code
    points. *)
Definition any (p : Z -> bool) (v : string) : bool :=
  existsb p (Py.code_points v).

(** [len(v)], also what [min_length] and [max_length] count. *)
Definition len (v : string) : Z := Py.len v.

Definition ValueError (msg : string) : exn := PyExc "ValueError" msg.

(** [UserCreate.validate_password(cls, v)] *)
Definition validate_password `{UnicodeData} (v : string) : result string :=
  if len v <? 8
  then Raise (ValueError "Password must be at least 8 characters long")
  else if negb (any isupper v)
  then Raise (ValueError "Password must contain at least one uppercase letter")
  else if negb (any islower v)
  then Raise (ValueError "Password must contain at least one lowercase letter")
  else if negb (any isdigit v)
  then Raise (ValueError "Password must contain at least one digit")
  else Ok v.

(** A string field declared with [Field(min_length=lo, max_length=hi)]. *)
Definition constrained_str (lo hi : Z) (v : string) : result string :=
  if len v <? lo
  then Raise (PyExc "ValidationError" "String should have at least min_length characters")
  else if hi <? len v
  then Raise (PyExc "ValidationError" "String should have at most max_length characters")
  else Ok v.

(** A field validator runs after the field's own constraints; what it raises
    reaches the caller as a validation error. *)
Definition after_validator (r : result string) : result string :=
  match r with
  | Ok v => Ok v
  | Raise (PyExc _ msg) => Raise (PyExc "ValidationError" msg)
  | Raise e => Raise e
  end.

(** The [password] field of [UserCreate]:
    [Field(..., min_length=8, max_length=100)] with [validate_password]. *)
Definition UserCreate_password `{UnicodeData} (v : string) : result string :=
  rbind (constrained_str 8 100 v) (fun v => after_validator (validate_password v)).

Module UserCreate.
Record t : Type := mk {
  username : string;
  email : string;
  full_name : string;
  role : UserRole;
  is_active : bool;
  password : string
}.
End UserCreate.

Module UserUpdate.
Record t : Type := mk {
  username : option string;
  email : option string;
  full_name : option string;
  role : option UserRole;
  is_active : option bool
}.
(** The model declares no [password] field, so reading the attribute
    raises. *)
Definition password (u : t) : result string :=
  Raise (PyExc "AttributeError" "'UserUpdate' object has no attribute 'password'").
End UserUpdate.

Module UserResponse.
Record t : Type := mk {
  id : Z;
  username : string;
  email : string;
  full_name : string;
  role : UserRole;
  is_active : bool;
  created_at : Z;
  updated_at : Z
}.

Definition role_of_attr (a : role_attr) : result UserRole :=
  match a with
  | RoleMember r => Ok r
  | RoleText s =>
      if String.eqb s "admin" then Ok ADMIN
      else if String.eqb s "viewer" then Ok VIEWER
      else Raise (PyExc "ValidationError" "Input should be 'admin' or 'viewer'")
  end.

(** [UserResponse.model_validate(user)] on a [User] object, with the length
    bounds of [UserBase]; the syntax check of the e-mail type is left out. *)
Definition model_validate (u : User.t) : result t :=
  rbind (constrained_str 3 50 (User.username u)) (fun _ =>
  rbind (constrained_str 1 100 (User.full_name u)) (fun _ =>
  rbind (role_of_attr (User.role u)) (fun r =>
  Ok (mk (User.id u) (User.username u) (User.email u) (User.full_name u) r
         (User.is_active u) (User.created_at u) (User.updated_at u))))).
End UserResponse.

Module LoginRequest.
Record t : Type := mk { username : string; password : string }.
End LoginRequest.

Module PasswordChangeRequest.
Record t : Type := mk { current_password : string; new_password : string }.
End PasswordChangeRequest.

Module FinancialRecordCreate.
Record t : Type := mk {
  amount : Z;
  description : string;
  transaction_type : TransactionType
}.
End FinancialRecordCreate.

Module FinancialRecordUpdate.
Record t : Type := mk {
  amount : option Z;
  description : option string;
  transaction_type : option TransactionType
}.
End FinancialRecordUpdate.

Module FinancialRecordResponse.
Record t : Type := mk {
  id : Z;
  amount : Z;
  description : string;
  transaction_type : TransactionType;
  created_by : Z;
  created_at : Z;
  updated_at : Z;
  is_deleted : bool;
  created_by_user : UserResponse.t
}.

Definition type_of_text (s : string) : result TransactionType :=
  if String.eqb s "debit" then Ok debit
  else if String.eqb s "credit" then Ok credit
  else Raise (PyExc "ValidationError" "Input should be 'debit' or 'credit'").

(** [FinancialRecordResponse.model_validate(record)]; [owner] is the loaded
    [created_by_user] relationship. *)
Definition model_validate (r : FinancialRecord.t) (owner : option User.t)
  : result t :=
  if negb (0 <? FinancialRecord.amount r)
  then Raise (PyExc "ValidationError" "Input should be greater than 0")
  else
  rbind (constrained_str 1 500 (FinancialRecord.description r)) (fun _ =>
  rbind (type_of_text (FinancialRecord.transaction_type r)) (fun ty =>
  match owner with
  | None => Raise (PyExc "ValidationError" "Input should be a valid dictionary or object")
  | Some u =>
      rbind (UserResponse.model_validate u) (fun ur =>
      Ok (mk (FinancialRecord.id r) (FinancialRecord.amount r)
             (FinancialRecord.description r) ty
             (FinancialRecord.created_by r) (FinancialRecord.created_at r)
             (FinancialRecord.updated_at r) (FinancialRecord.is_deleted r) ur))
  end)).
End FinancialRecordResponse.

Module Token.
Record t : Type := mk {
  access_token : Jose.token;
  refresh_token : Jose.token;
  token_type : string;
  expires_in : Z;
  user : UserResponse.t
}.
End Token.

Module BalanceResponse.
Record t : Type := mk {
  balance : Z;
  total_credits : Z;
  total_debits : Z
}.
End BalanceResponse.

(** [PasswordChangeRequest.validate_new_password(cls, v)]; the value is a
    string, never [None]. *)
Definition validate_new_password `{UnicodeData} (v : string)
  : result string :=
  if len v <? 8
  then Raise (ValueError "Password must be at least 8 characters long")
  else if negb (any isupper v)
  then Raise (ValueError "Password must contain at least one uppercase letter")
  else if negb (any islower v)
  then Raise (ValueError "Password must contain at least one lowercase letter")
  else if negb (any isdigit v)
  then Raise (ValueError "Password must contain at least one digit")
  else Ok v.

(** The [new_password] field of [PasswordChangeRequest]:
    [Field(..., min_length=8, max_length=100)] with its validator. *)
Definition PasswordChangeRequest_new_password `{UnicodeData} (v : string)
  : result string :=
  rbind (constrained_str 8 100 v)
        (fun v => after_validator (validate_new_password v)).

(** The paging part of [FinancialRecordFilters] and [AuditLogFilters]. *)
Module Filters.
Record t : Type := mk {
  page : Z;       (* [Field(1, ge=1)] *)
  size : Z;       (* [Field(10, ge=1, le=100)] *)
  per_page : Z    (* [Field(default=10, ge=1, le=100)] *)
}.
Definition skip (f : t) : Z := (page f - 1) * per_page f.
Definition limit (f : t) : Z := per_page f.
End Filters.

(** [(total + limit - 1) // limit if total > 0 else 0], the page count of
    [get_transactions]. *)
Definition page_count (total limit : Z) : Z :=
  if 0 <? total then (total + limit - 1) / limit else 0.

(** [(total + limit - 1) // limit], the page count of [get_audit_logs] and of
    the public listing. *)
Definition page_count_unguarded (total limit : Z) : Z :=
  (total + limit - 1) / limit.

End Schemas.

(** ** What the handlers read from the HTTP request *)

Module Request.
Record t : Type := mk {
  client_host : option string;   (* [request.client.host], if there is a client *)
  user_agent : option string     (* the [user-agent] header, if sent *)
}.
End Request.

(** ** Queries and writes through the session *)

Module Orm.

Import Session.

Definition MultipleResultsFound : exn :=
  PyExc "MultipleResultsFound" "Multiple rows were found when one or none was required".

Definition NoResultFound : exn :=
  PyExc "NoResultFound" "No row was found when one was required".

(** [result.scalar_one_or_none()] *)
Definition scalar_one_or_none {A} (rows : list A) : M (option A) :=
  match rows with
  | [] => mret None
  | [x] => mret (Some x)
  | _ => raise MultipleResultsFound
  end.

(** [result.scalar_one()] *)
Definition scalar_one {A} (rows : list A) : M A :=
  match rows with
  | [] => raise NoResultFound
  | [x] => mret x
  | _ => raise MultipleResultsFound
  end.

(** [await db.execute(select(User).where(p))] *)
Definition select_users (p : User.t -> bool) : M (list User.t) :=
  db ← get_working; mret (filter (λ u, p u = true) (users db)).

Definition select_records (p : FinancialRecord.t -> bool)
  : M (list FinancialRecord.t) :=
  db ← get_working; mret (filter (λ r, p r = true) (financial_records db)).

Definition replace_user (u : User.t) (rows : list User.t) : list User.t :=
  map (λ r, if User.id r =? User.id u then u else r) rows.

Definition replace_record (x : FinancialRecord.t)
           (rows : list FinancialRecord.t) : list FinancialRecord.t :=
  map (λ r, if FinancialRecord.id r =? FinancialRecord.id x then x else r) rows.

(** Attribute assignments on a loaded [User]: the row with the object's
    primary key takes the object's state in the session's view. *)
Definition store_user (u : User.t) : M unit :=
  db ← get_working;
  set_working (mkDb (replace_user u (users db)) (financial_records db)
                    (audit_logs db) (users_seq db) (financial_records_seq db)
                    (audit_logs_seq db)).

Definition store_record (x : FinancialRecord.t) : M unit :=
  db ← get_working;
  set_working (mkDb (users db) (replace_record x (financial_records db))
                    (audit_logs db) (users_seq db) (financial_records_seq db)
                    (audit_logs_seq db)).

(** What the [String(20)] column keeps of a role attribute, and gives back
    when the row is read: the text, never a member of [UserRole]. *)
Definition role_column (a : role_attr) : role_attr := RoleText (role_str a).

(** A [User] object after its attributes have been read from its row. *)
Definition reloaded (u : User.t) : User.t :=
  User.mk (User.id u) (User.username u) (User.email u) (User.password_hash u)
          (User.full_name u) (role_column (User.role u)) (User.is_active u)
          (User.created_at u) (User.updated_at u).

(** [db.add(obj)] for a new row: the primary key comes from the table's
    sequence and the server-side defaults are filled in; the role is written
    to its column as text.  The result is the key, by which the object is
    found again. *)
Definition add_user (now : Z) (u : User.t) : M Z :=
  db ← get_working;
  let k := users_seq db + 1 in
  let row := User.mk k (User.username u) (User.email u) (User.password_hash u)
                     (User.full_name u) (role_column (User.role u))
                     (User.is_active u) now now in
  set_working (mkDb (users db ++ [row]) (financial_records db) (audit_logs db)
                    k (financial_records_seq db) (audit_logs_seq db));;
  mret k.

Definition add_record (now : Z) (x : FinancialRecord.t) : M Z :=
  db ← get_working;
  let k := financial_records_seq db + 1 in
  let row := FinancialRecord.mk k (FinancialRecord.amount x)
               (FinancialRecord.description x)
               (FinancialRecord.transaction_type x)
               (FinancialRecord.created_by x) now now
               (FinancialRecord.is_deleted x) in
  set_working (mkDb (users db) (financial_records db ++ [row]) (audit_logs db)
                    (users_seq db) k (audit_logs_seq db));;
  mret k.

Definition add_audit_log (now : Z) (a : AuditLog.t) : M Z :=
  db ← get_working;
  let k := audit_logs_seq db + 1 in
  let row := AuditLog.mk k (AuditLog.user_id a) (AuditLog.action_type a)
               (AuditLog.table_name a) (AuditLog.record_id a)
               (AuditLog.old_values a) (AuditLog.new_values a)
               (AuditLog.ip_address a) (AuditLog.user_agent a) now in
  set_working (mkDb (users db) (financial_records db) (audit_logs db ++ [row])
                    (users_seq db) (financial_records_seq db) k);;
  mret k.

Definition InvalidRequestError : exn :=
  PyExc "InvalidRequestError" "Could not refresh instance".

(** [await db.refresh(obj)]: the object's attributes are read again from
    its row as the session sees it, the role as the text its column holds. *)
Definition refresh_user (k : Z) : M User.t :=
  db ← get_working;
  match filter (λ u, (User.id u =? k) = true) (users db) with
  | u :: _ => mret (reloaded u)
  | [] => raise InvalidRequestError
  end.

Definition refresh_record (k : Z) : M FinancialRecord.t :=
  db ← get_working;
  match filter (λ r, (FinancialRecord.id r =? k) = true) (financial_records db) with
  | r :: _ => mret r
  | [] => raise InvalidRequestError
  end.

Definition refresh_audit_log (k : Z) : M AuditLog.t :=
  db ← get_working;
  match filter (λ a, (AuditLog.id a =? k) = true) (audit_logs db) with
  | a :: _ => mret a
  | [] => raise InvalidRequestError
  end.

End Orm.

(** ** app/services/audit_service.py *)

Module AuditService.

Import Session Orm.

(** [AuditService(db).log_action(...)], run at instant [now]. *)
Definition log_action (now : Z) (user_id : Z) (action_type : string)
           (table_name : string) (record_id : option Z)
           (old_values new_values : option (gmap string jvalue))
           (ip_address user_agent : option string) : M AuditLog.t :=
  let audit_log :=
    AuditLog.mk 0 user_id action_type table_name record_id old_values
                new_values ip_address user_agent 0 in
  k ← add_audit_log now audit_log;
  commit;;
  refresh_audit_log k.

(** The standalone [log_audit(db, ...)]; the handlers of the transactions
    router pass the action type as a string. *)
Definition log_audit (now : Z) (user_id : Z) (action_type : string)
           (table_name : string) (record_id : option Z)
           (old_values new_values : option (gmap string jvalue))
           (ip_address user_agent : option string) : M AuditLog.t :=
  action ← lift (ActionType_of_value action_type);
  let audit_log :=
    AuditLog.mk 0 user_id (ActionType_value action) table_name record_id
                old_values new_values ip_address user_agent 0 in
  k ← add_audit_log now audit_log;
  commit;;
  refresh_audit_log k.

End AuditService.

(** ** app/core/security.py: tokens and passwords *)

Module Security.

Import Jose Session Orm.

Section WithEnvironment.
Context `{Settings} `{Primitives}.

(** [create_access_token(data, expires_delta)] called at instant [now].
    [expires_delta] is a number of seconds; a zero delta is falsy and
    selects the configured lifetime. *)
Definition create_access_token (now : Z) (data : claims)
           (expires_delta : option Z) : result token :=
  let to_encode := data in
  let expire :=
    match expires_delta with
    | Some d => if d =? 0 then now + ACCESS_TOKEN_EXPIRE_MINUTES * 60
                else now + d
    | None => now + ACCESS_TOKEN_EXPIRE_MINUTES * 60
    end in
  let to_encode :=
    <["type" := JStr "access"]> (<["exp" := JInt expire]> to_encode) in
  encode to_encode SECRET_KEY ALGORITHM.

(** [create_refresh_token(data)] called at instant [now]. *)
Definition create_refresh_token (now : Z) (data : claims) : result token :=
  let to_encode := data in
  let expire := now + REFRESH_TOKEN_EXPIRE_DAYS * 86400 in
  let to_encode :=
    <["type" := JStr "refresh"]> (<["exp" := JInt expire]> to_encode) in
  encode to_encode SECRET_KEY ALGORITHM.

(** [verify_token(token, token_type)] at instant [now]: [None] for a
    token that does not decode or carries another type. *)
Definition verify_token (now : Z) (t : token) (token_type : string)
  : option claims :=
  match decode now t SECRET_KEY [ALGORITHM] with
  | Ok payload =>
      if negb (bool_decide (payload !! "type" = Some (JStr token_type)))
      then None
      else Some payload
  | Raise _ => None
  end.

(** [verify_password(plain_password, hashed_password)]. *)
Definition verify_password (plain_password hashed_password : string)
  : result bool :=
  Passlib.context_verify plain_password hashed_password.

(** [get_password_hash(password)], with the salt the library drew. *)
Definition get_password_hash (salt password : string) : string :=
  Passlib.context_hash salt password.

Definition credentials_exception : exn :=
  HTTPException 401 "Could not validate credentials"
                [("WWW-Authenticate", "Bearer")].

(** The dependency [get_current_user(credentials, db)] of this module (the
    transactions router uses it); [credentials] is the bearer token. *)
Definition get_current_user (now : Z) (credentials : token) : M User.t :=
  try_except
    (let token := credentials in
     match verify_token now token "access" with
     | None => raise credentials_exception
     | Some payload =>
         match payload !! "sub" with
         | None => raise credentials_exception
         | Some user_id =>
             user_id ← try_except (lift (Py.int user_id))
                        (λ e, match e with
                              | PyExc cls _ =>
                                  if bool_decide (cls ∈ ["ValueError"; "TypeError"])
                                  then raise credentials_exception
                                  else raise e
                              | _ => raise e
                              end);
             rows ← select_users (λ u, User.id u =? user_id);
             user ← scalar_one_or_none rows;
             match user with
             | None => raise credentials_exception
             | Some user =>
                 if negb (User.is_active user)
                 then raise (HTTPException 401 "Inactive user" [])
                 else mret user
             end
         end
     end)
    (λ e, raise credentials_exception).

End WithEnvironment.

End Security.


(** ** app/routers/auth.py *)

Module Auth.

Import Jose Session Orm Schemas.

Module LoginResponse.
Record t : Type := mk {
  access_token : token;
  refresh_token : token;
  token_type : string;
  expires_in : Z;
  user : gmap string jvalue
}.
End LoginResponse.

Section WithEnvironment.
Context `{Settings} `{Primitives}.

(** The dependency [get_current_user(credentials, db)] of this module (the
    auth, users and audit routers use it). *)
Definition get_current_user (now : Z) (credentials : token) : M User.t :=
  let token := credentials in
  match Security.verify_token now token "access" with
  | None =>
      raise (HTTPException 401 "Invalid or expired token"
                           [("WWW-Authenticate", "Bearer")])
  | Some payload =>
      match payload !! "sub" with
      | None => raise (HTTPException 401 "Invalid token payload" [])
      | Some user_id =>
          user_id ← lift (Py.int user_id);
          rows ← select_users (λ u, User.id u =? user_id);
          user ← scalar_one_or_none rows;
          match user with
          | None => raise (HTTPException 401 "User not found or inactive" [])
          | Some user =>
              if negb (User.is_active user)
              then raise (HTTPException 401 "User not found or inactive" [])
              else mret user
          end
      end
  end.

(** [login(request, login_data, db)] at instant [now]. *)
Definition login (now : Z) (request : Request.t) (login_data : LoginRequest.t)
  : M LoginResponse.t :=
  rows ← select_users
           (λ u, String.eqb (User.username u) (LoginRequest.username login_data));
  user ← scalar_one_or_none rows;
  let unauthorized :=
    HTTPException 401 "Incorrect username or password" [] in
  match user with
  | None => raise unauthorized
  | Some user =>
      if negb (User.is_active user) then raise unauthorized
      else
        ok ← lift (Security.verify_password (LoginRequest.password login_data)
                                            (User.password_hash user));
        if negb ok then raise unauthorized
        else
          let data : gmap string jvalue :=
            <["username" := JStr (User.username user)]>
              (<["sub" := JStr (Py.str_of_int (User.id user))]> ∅) in
          access_token ← lift (Security.create_access_token now data None);
          refresh_token ← lift (Security.create_refresh_token now data);
          AuditService.log_action now (User.id user) (ActionType_value LOGIN)
            "users" (Some (User.id user)) None None
            (Request.client_host request) (Request.user_agent request);;
          mret (LoginResponse.mk access_token refresh_token "bearer" (30 * 60)
                  (list_to_map
                     [("id", JInt (User.id user));
                      ("username", JStr (User.username user));
                      ("email", JStr (User.email user));
                      ("full_name", JStr (User.full_name user));
                      ("role", JStr (role_str (User.role user)));
                      ("is_active", JBool (User.is_active user));
                      ("created_at", JInt (User.created_at user));
                      ("updated_at", JInt (User.updated_at user))]))
  end.

(** [get_admin_user(current_user)] *)
Definition get_admin_user (current_user : User.t) : M User.t :=
  if negb (String.eqb (role_str (User.role current_user)) "admin")
  then raise (HTTPException 403 "Admin access required" [])
  else mret current_user.

Definition set_password_hash (u : User.t) (h : string) (now : Z) : User.t :=
  User.mk (User.id u) (User.username u) (User.email u) h (User.full_name u)
          (User.role u) (User.is_active u) (User.created_at u) now.

(** [change_password(request, password_data, current_user, db)]; [salt] is
    the salt the hashing draws. *)
Definition change_password (now : Z) (salt : string) (request : Request.t)
           (password_data : PasswordChangeRequest.t) (current_user : User.t)
  : M string :=
  ok ← lift (Security.verify_password
               (PasswordChangeRequest.current_password password_data)
               (User.password_hash current_user));
  if negb ok
  then raise (HTTPException 400 "Current password is incorrect" [])
  else
    let new_password_hash :=
      Security.get_password_hash salt
        (PasswordChangeRequest.new_password password_data) in
    let current_user := set_password_hash current_user new_password_hash now in
    store_user current_user;;
    commit;;
    current_user ← refresh_user (User.id current_user);
    AuditService.log_action now (User.id current_user) (ActionType_value UPDATE)
      "users" (Some (User.id current_user)) None
      (Some (list_to_map [("password_changed", JBool true)]))
      (Request.client_host request) (Request.user_agent request);;
    mret "Password changed successfully".

Definition profile_values (u : User.t) : gmap string jvalue :=
  list_to_map [("username", JStr (User.username u));
               ("email", JStr (User.email u));
               ("full_name", JStr (User.full_name u))].

Definition set_username (u : User.t) (v : string) : User.t :=
  User.mk (User.id u) v (User.email u) (User.password_hash u)
          (User.full_name u) (User.role u) (User.is_active u)
          (User.created_at u) (User.updated_at u).

Definition set_email (u : User.t) (v : string) : User.t :=
  User.mk (User.id u) (User.username u) v (User.password_hash u)
          (User.full_name u) (User.role u) (User.is_active u)
          (User.created_at u) (User.updated_at u).

Definition set_full_name (u : User.t) (v : string) : User.t :=
  User.mk (User.id u) (User.username u) (User.email u) (User.password_hash u)
          v (User.role u) (User.is_active u)
          (User.created_at u) (User.updated_at u).

Definition set_updated_at (u : User.t) (v : Z) : User.t :=
  User.mk (User.id u) (User.username u) (User.email u) (User.password_hash u)
          (User.full_name u) (User.role u) (User.is_active u)
          (User.created_at u) v.

(** [update_profile(request, profile_data, current_user, db)] *)
Definition update_profile (now : Z) (request : Request.t)
           (profile_data : UserUpdate.t) (current_user : User.t)
  : M UserResponse.t :=
  let old_values := profile_values current_user in
  current_user ←
    match UserUpdate.username profile_data with
    | Some name =>
        rows ← select_users
                 (λ u, String.eqb (User.username u) name
                       && negb (User.id u =? User.id current_user));
        existing_user ← scalar_one_or_none rows;
        match existing_user with
        | Some _ => raise (HTTPException 400 "Username already exists" [])
        | None =>
            let current_user := set_username current_user name in
            store_user current_user;; mret current_user
        end
    | None => mret current_user
    end;
  current_user ←
    match UserUpdate.email profile_data with
    | Some addr =>
        rows ← select_users
                 (λ u, String.eqb (User.email u) addr
                       && negb (User.id u =? User.id current_user));
        existing_user ← scalar_one_or_none rows;
        match existing_user with
        | Some _ => raise (HTTPException 400 "Email already exists" [])
        | None =>
            let current_user := set_email current_user addr in
            store_user current_user;; mret current_user
        end
    | None => mret current_user
    end;
  let current_user :=
    match UserUpdate.full_name profile_data with
    | Some v => set_full_name current_user v
    | None => current_user
    end in
  let current_user := set_updated_at current_user now in
  store_user current_user;;
  commit;;
  current_user ← refresh_user (User.id current_user);
  let new_values := profile_values current_user in
  AuditService.log_action now (User.id current_user) (ActionType_value UPDATE)
    "users" (Some (User.id current_user)) (Some old_values) (Some new_values)
    (Request.client_host request) (Request.user_agent request);;
  lift (UserResponse.model_validate current_user).

(** [refresh_token(refresh_data, db)] at instant [now]; [refresh_data] is
    the token of the request body. *)
Definition refresh_token (now : Z) (refresh_data : token) : M Token.t :=
  match Security.verify_token now refresh_data "refresh" with
  | None => raise (HTTPException 401 "Invalid or expired refresh token" [])
  | Some payload =>
      match payload !! "sub" with
      | None => raise (HTTPException 401 "Invalid token payload" [])
      | Some user_id =>
          user_id ← lift (Py.int user_id);
          rows ← select_users (λ u, User.id u =? user_id);
          user ← scalar_one_or_none rows;
          match user with
          | None => raise (HTTPException 401 "User not found or inactive" [])
          | Some user =>
              if negb (User.is_active user)
              then raise (HTTPException 401 "User not found or inactive" [])
              else
                let data : gmap string jvalue :=
                  <["username" := JStr (User.username user)]>
                    (<["sub" := JStr (Py.str_of_int (User.id user))]> ∅) in
                access_token ← lift (Security.create_access_token now data None);
                new_refresh_token ← lift (Security.create_refresh_token now data);
                user ← lift (UserResponse.model_validate user);
                mret (Token.mk access_token new_refresh_token "bearer"
                               (30 * 60) user)
          end
      end
  end.

(** [get_current_user_info(current_user)] *)
Definition get_current_user_info (current_user : User.t) : M UserResponse.t :=
  lift (UserResponse.model_validate current_user).

(** [logout(request, current_user, db)] at instant [now]. *)
Definition logout (now : Z) (request : Request.t) (current_user : User.t)
  : M string :=
  AuditService.log_action now (User.id current_user) (ActionType_value LOGOUT)
    "users" (Some (User.id current_user)) None None
    (Request.client_host request) (Request.user_agent request);;
  mret "Successfully logged out".

End WithEnvironment.

End Auth.

(** ** app/routers/users.py *)

Module Users.

Import Session Orm Schemas.

Section WithEnvironment.
Context `{Settings} `{Primitives}.

(** [x if request.client else "unknown"] and
    [request.headers.get("user-agent", "unknown")] *)
Definition or_unknown (o : option string) : option string :=
  match o with Some v => Some v | None => Some "unknown" end.

Definition user_values (u : User.t) (role_text : string)
  : gmap string jvalue :=
  list_to_map [("username", JStr (User.username u));
               ("email", JStr (User.email u));
               ("full_name", JStr (User.full_name u));
               ("role", JStr role_text);
               ("is_active", JBool (User.is_active u))].

(** The [except HTTPException: raise / except Exception as e: ...] tail the
    three handlers share, with the handler's own message prefix. *)
Definition on_error {A} (prefix : string) (e : exn) : M A :=
  match e with
  | HTTPException _ _ _ => raise e
  | PyExc _ msg => rollback;; raise (HTTPException 500 (prefix ++ msg) [])
  end.

(** [create_user(user_data, request, current_user, db)] *)
Definition create_user (now : Z) (salt : string) (user_data : UserCreate.t)
           (request : Request.t) (current_user : User.t) : M UserResponse.t :=
  try_except
    (rows ← select_users
              (λ u, String.eqb (User.username u) (UserCreate.username user_data)
                    || String.eqb (User.email u) (UserCreate.email user_data));
     existing_user ← scalar_one_or_none rows;
     match existing_user with
     | Some existing_user =>
         if String.eqb (User.username existing_user)
                       (UserCreate.username user_data)
         then raise (HTTPException 400 "Username already exists" [])
         else raise (HTTPException 400 "Email already exists" [])
     | None =>
         let hashed_password :=
           Security.get_password_hash salt (UserCreate.password user_data) in
         let new_user :=
           User.mk 0 (UserCreate.username user_data)
                   (UserCreate.email user_data) hashed_password
                   (UserCreate.full_name user_data)
                   (RoleMember (UserCreate.role user_data))
                   (UserCreate.is_active user_data) 0 0 in
         k ← add_user now new_user;
         commit;;
         new_user ← refresh_user k;
         role_text ← lift (role_value (User.role new_user));
         AuditService.log_action now (User.id current_user) "CREATE" "users"
           (Some (User.id new_user)) None
           (Some (user_values new_user role_text))
           (or_unknown (Request.client_host request))
           (or_unknown (Request.user_agent request));;
         lift (UserResponse.model_validate new_user)
     end)
    (on_error "Error creating user: ").

(** [if s:] for an optional string *)
Definition truthy (o : option string) : bool :=
  match o with
  | Some s => negb (String.eqb s "")
  | None => false
  end.

Definition matches (o : option string) (v : string) : bool :=
  match o with Some s => String.eqb v s | None => false end.

Definition set_role (u : User.t) (r : role_attr) : User.t :=
  User.mk (User.id u) (User.username u) (User.email u) (User.password_hash u)
          (User.full_name u) r (User.is_active u)
          (User.created_at u) (User.updated_at u).

Definition set_is_active (u : User.t) (b : bool) : User.t :=
  User.mk (User.id u) (User.username u) (User.email u) (User.password_hash u)
          (User.full_name u) (User.role u) b
          (User.created_at u) (User.updated_at u).

Definition assign {A} (o : option A) (set : User.t -> A -> User.t)
           (u : User.t) : User.t :=
  match o with Some v => set u v | None => u end.

(** [update_user(user_id, user_data, request, current_user, db)] *)
Definition update_user (now : Z) (salt : string) (user_id : Z)
           (user_data : UserUpdate.t) (request : Request.t)
           (current_user : User.t) : M UserResponse.t :=
  try_except
    (rows ← select_users (λ u, User.id u =? user_id);
     user ← scalar_one_or_none rows;
     match user with
     | None => raise (HTTPException 404 "User not found" [])
     | Some user =>
         (if truthy (UserUpdate.username user_data)
             || truthy (UserUpdate.email user_data)
          then
            rows ← select_users
                     (λ u, negb (User.id u =? user_id)
                           && ((truthy (UserUpdate.username user_data)
                                && matches (UserUpdate.username user_data)
                                           (User.username u))
                               || (truthy (UserUpdate.email user_data)
                                   && matches (UserUpdate.email user_data)
                                              (User.email u))));
            existing_user ← scalar_one_or_none rows;
            match existing_user with
            | Some existing_user =>
                if matches (UserUpdate.username user_data)
                           (User.username existing_user)
                then raise (HTTPException 400 "Username already exists" [])
                else raise (HTTPException 400 "Email already exists" [])
            | None => mret tt
            end
          else mret tt);;
         old_role ← lift (role_value (User.role user));
         let old_values := user_values user old_role in
         let user := assign (UserUpdate.username user_data) Auth.set_username user in
         let user := assign (UserUpdate.email user_data) Auth.set_email user in
         let user := assign (UserUpdate.full_name user_data) Auth.set_full_name user in
         let user := assign (option_map RoleMember (UserUpdate.role user_data))
                            set_role user in
         let user := assign (UserUpdate.is_active user_data) set_is_active user in
         store_user user;;
         password ← lift (UserUpdate.password user_data);
         let user :=
           if negb (String.eqb password "")
           then Auth.set_password_hash user
                  (Security.get_password_hash salt password)
                  (User.updated_at user)
           else user in
         let user := Auth.set_updated_at user now in
         store_user user;;
         commit;;
         user ← refresh_user (User.id user);
         new_role ← lift (role_value (User.role user));
         AuditService.log_action now (User.id current_user) "UPDATE" "users"
           (Some (User.id user)) (Some old_values)
           (Some (user_values user new_role))
           (or_unknown (Request.client_host request))
           (or_unknown (Request.user_agent request));;
         lift (UserResponse.model_validate user)
     end)
    (on_error "Error updating user: ").

(** [delete_user(user_id, request, current_user, db)] *)
Definition delete_user (now : Z) (user_id : Z) (request : Request.t)
           (current_user : User.t) : M string :=
  try_except
    (if user_id =? User.id current_user
     then raise (HTTPException 400 "Cannot delete your own account" [])
     else
       rows ← select_users (λ u, User.id u =? user_id);
       user ← scalar_one_or_none rows;
       match user with
       | None => raise (HTTPException 404 "User not found" [])
       | Some user =>
           old_role ← lift (role_value (User.role user));
           let old_values := user_values user old_role in
           let user := set_is_active user false in
           let user := Auth.set_updated_at user now in
           store_user user;;
           commit;;
           AuditService.log_action now (User.id current_user) "DELETE" "users"
             (Some (User.id user)) (Some old_values)
             (Some (list_to_map [("is_active", JBool false)]))
             (or_unknown (Request.client_host request))
             (or_unknown (Request.user_agent request));;
           mret "User deactivated successfully"
       end)
    (on_error "Error deleting user: ").

(** [get_users(current_user, db)] *)
Definition get_users (current_user : User.t) : M (list UserResponse.t) :=
  users ← select_users (λ _, true);
  lift (Py.map_result UserResponse.model_validate users).

(** [get_user(user_id, current_user, db)] *)
Definition get_user (user_id : Z) (current_user : User.t)
  : M UserResponse.t :=
  rows ← select_users (λ u, User.id u =? user_id);
  user ← scalar_one_or_none rows;
  match user with
  | None => raise (HTTPException 404 "User not found" [])
  | Some user => lift (UserResponse.model_validate user)
  end.

End WithEnvironment.

End Users.

(** ** app/routers/transactions.py *)

Module Transactions.

Import Session Orm Schemas.

Section WithEnvironment.
Context `{Settings} `{Primitives}.

Definition admin_required : exn := HTTPException 403 "Admin access required" [].

Definition is_admin (u : User.t) : bool :=
  String.eqb (role_str (User.role u)) "admin".

(** The [created_by_user] relationship of a record, loaded with it. *)
Definition created_by_user (r : FinancialRecord.t) : M (option User.t) :=
  rows ← select_users (λ u, User.id u =? FinancialRecord.created_by r);
  mret (head rows).

(** [float(amount)] in an audit snapshot is kept as the number itself, in
    the unit of the column. *)
Definition record_values (amount : Z) (description ty : string)
  : gmap string jvalue :=
  list_to_map [("amount", JInt amount);
               ("description", JStr description);
               ("transaction_type", JStr ty)].

(** The [except Exception] clause of [create_transaction] catches every
    exception, HTTPException included. *)
Definition fail_500 {A} (detail : string) (e : exn) : M A :=
  rollback;; raise (HTTPException 500 detail []).

(** The [except HTTPException: raise / except Exception as e: ...] tail of
    [update_transaction] and [delete_transaction]. *)
Definition on_error {A} (detail : string) (e : exn) : M A :=
  match e with
  | HTTPException _ _ _ => raise e
  | PyExc _ _ => rollback;; raise (HTTPException 500 detail [])
  end.

(** [create_transaction(transaction, db, current_user)] *)
Definition create_transaction (now : Z) (transaction : FinancialRecordCreate.t)
           (current_user : User.t) : M FinancialRecordResponse.t :=
  if negb (is_admin current_user) then raise admin_required
  else
    try_except
      (let db_record :=
         FinancialRecord.mk 0 (FinancialRecordCreate.amount transaction)
           (FinancialRecordCreate.description transaction)
           (TransactionType_value
              (FinancialRecordCreate.transaction_type transaction))
           (User.id current_user) 0 0 false in
       k ← add_record now db_record;
       commit;;
       db_record ← refresh_record k;
       rows ← select_records
                (λ r, FinancialRecord.id r =? FinancialRecord.id db_record);
       db_record ← scalar_one rows;
       owner ← created_by_user db_record;
       AuditService.log_audit now (User.id current_user) "CREATE"
         "financial_records" (Some (FinancialRecord.id db_record)) None
         (Some (record_values
                  (FinancialRecordCreate.amount transaction)
                  (FinancialRecordCreate.description transaction)
                  (TransactionType_value
                     (FinancialRecordCreate.transaction_type transaction))))
         None None;;
       lift (FinancialRecordResponse.model_validate db_record owner))
      (fail_500 "Failed to create transaction").

Definition set_amount (r : FinancialRecord.t) (v : Z) : FinancialRecord.t :=
  FinancialRecord.mk (FinancialRecord.id r) v (FinancialRecord.description r)
    (FinancialRecord.transaction_type r) (FinancialRecord.created_by r)
    (FinancialRecord.created_at r) (FinancialRecord.updated_at r)
    (FinancialRecord.is_deleted r).

Definition set_description (r : FinancialRecord.t) (v : string)
  : FinancialRecord.t :=
  FinancialRecord.mk (FinancialRecord.id r) (FinancialRecord.amount r) v
    (FinancialRecord.transaction_type r) (FinancialRecord.created_by r)
    (FinancialRecord.created_at r) (FinancialRecord.updated_at r)
    (FinancialRecord.is_deleted r).

Definition set_transaction_type (r : FinancialRecord.t) (v : string)
  : FinancialRecord.t :=
  FinancialRecord.mk (FinancialRecord.id r) (FinancialRecord.amount r)
    (FinancialRecord.description r) v (FinancialRecord.created_by r)
    (FinancialRecord.created_at r) (FinancialRecord.updated_at r)
    (FinancialRecord.is_deleted r).

Definition set_is_deleted (r : FinancialRecord.t) (v : bool)
  : FinancialRecord.t :=
  FinancialRecord.mk (FinancialRecord.id r) (FinancialRecord.amount r)
    (FinancialRecord.description r) (FinancialRecord.transaction_type r)
    (FinancialRecord.created_by r) (FinancialRecord.created_at r)
    (FinancialRecord.updated_at r) v.

Definition set_updated_at (r : FinancialRecord.t) (v : Z)
  : FinancialRecord.t :=
  FinancialRecord.mk (FinancialRecord.id r) (FinancialRecord.amount r)
    (FinancialRecord.description r) (FinancialRecord.transaction_type r)
    (FinancialRecord.created_by r) (FinancialRecord.created_at r) v
    (FinancialRecord.is_deleted r).

Definition assign {A} (o : option A)
           (set : FinancialRecord.t -> A -> FinancialRecord.t)
           (r : FinancialRecord.t) : FinancialRecord.t :=
  match o with Some v => set r v | None => r end.

Definition values_of (r : FinancialRecord.t) : gmap string jvalue :=
  record_values (FinancialRecord.amount r) (FinancialRecord.description r)
                (FinancialRecord.transaction_type r).

(** [update_transaction(record_id, transaction, db, current_user)] *)
Definition update_transaction (now : Z) (record_id : Z)
           (transaction : FinancialRecordUpdate.t) (current_user : User.t)
  : M FinancialRecordResponse.t :=
  if negb (is_admin current_user) then raise admin_required
  else
    try_except
      (rows ← select_records
                (λ r, (FinancialRecord.id r =? record_id)
                      && negb (FinancialRecord.is_deleted r));
       db_record ← scalar_one_or_none rows;
       match db_record with
       | None => raise (HTTPException 404 "Transaction not found" [])
       | Some db_record =>
           owner ← created_by_user db_record;
           let old_values := values_of db_record in
           let db_record :=
             assign (FinancialRecordUpdate.amount transaction)
                    set_amount db_record in
           let db_record :=
             assign (FinancialRecordUpdate.description transaction)
                    set_description db_record in
           let db_record :=
             assign (option_map TransactionType_value
                       (FinancialRecordUpdate.transaction_type transaction))
                    set_transaction_type db_record in
           let db_record := set_updated_at db_record now in
           store_record db_record;;
           commit;;
           db_record ← refresh_record (FinancialRecord.id db_record);
           let new_values := values_of db_record in
           AuditService.log_audit now (User.id current_user) "UPDATE"
             "financial_records" (Some (FinancialRecord.id db_record))
             (Some old_values) (Some new_values) None None;;
           lift (FinancialRecordResponse.model_validate db_record owner)
       end)
      (on_error "Failed to update transaction").

(** [delete_transaction(record_id, db, current_user)] *)
Definition delete_transaction (now : Z) (record_id : Z)
           (current_user : User.t) : M string :=
  if negb (is_admin current_user) then raise admin_required
  else
    try_except
      (rows ← select_records
                (λ r, (FinancialRecord.id r =? record_id)
                      && negb (FinancialRecord.is_deleted r));
       db_record ← scalar_one_or_none rows;
       match db_record with
       | None => raise (HTTPException 404 "Transaction not found" [])
       | Some db_record =>
           let old_values :=
             <["is_deleted" := JBool false]> (values_of db_record) in
           let db_record := set_is_deleted db_record true in
           let db_record := set_updated_at db_record now in
           store_record db_record;;
           commit;;
           AuditService.log_audit now (User.id current_user) "DELETE"
             "financial_records" (Some (FinancialRecord.id db_record))
             (Some old_values)
             (Some (list_to_map [("is_deleted", JBool true)]))
             None None;;
           mret "Transaction deleted successfully"
       end)
      (on_error "Failed to delete transaction").

(** [select(func.coalesce(func.sum(FinancialRecord.amount), 0)).where(p)]
    followed by [.scalar()] *)
Definition sum_amounts (p : FinancialRecord.t -> bool) : M Z :=
  rows ← select_records p;
  mret (foldr (λ r acc, FinancialRecord.amount r + acc) 0 rows).

(** [get_balance(db, current_user)] *)
Definition get_balance (current_user : User.t) : M BalanceResponse.t :=
  try_except
    (total_credits ←
       sum_amounts (λ r, String.eqb (FinancialRecord.transaction_type r)
                                    (TransactionType_value credit)
                         && negb (FinancialRecord.is_deleted r));
     total_debits ←
       sum_amounts (λ r, String.eqb (FinancialRecord.transaction_type r)
                                    (TransactionType_value debit)
                         && negb (FinancialRecord.is_deleted r));
     let balance := total_credits - total_debits in
     mret (BalanceResponse.mk balance total_credits total_debits))
    (λ e, raise (HTTPException 500 "Failed to calculate balance" [])).

End WithEnvironment.

End Transactions.

(** ** The mutating endpoints: dependencies, then the handler *)

Module Endpoints.

Import Jose Session Schemas.

(** The state-changing operations on users and financial records, each with
    what the route reads from the request. *)
Inductive operation : Type :=
| CreateUser (salt : string) (user_data : UserCreate.t) (request : Request.t)
| UpdateUser (salt : string) (user_id : Z) (user_data : UserUpdate.t)
             (request : Request.t)
| DeleteUser (user_id : Z) (request : Request.t)
| ChangePassword (salt : string) (request : Request.t)
                 (password_data : PasswordChangeRequest.t)
| UpdateProfile (request : Request.t) (profile_data : UserUpdate.t)
| CreateTransaction (transaction : FinancialRecordCreate.t)
| UpdateTransaction (record_id : Z) (transaction : FinancialRecordUpdate.t)
| DeleteTransaction (record_id : Z).

Inductive response : Type :=
| UserBody (u : UserResponse.t)
| RecordBody (r : FinancialRecordResponse.t)
| MessageBody (message : string).

Section WithEnvironment.
Context `{Settings} `{Primitives}.

(** The [Depends(...)] chain of each route: the users router asks for
    [get_admin_user] over the auth router's [get_current_user], the auth
    router for its own [get_current_user], the transactions router for the
    one in app/core/security.py. *)
Definition authenticate (op : operation) (now : Z) (credentials : token)
  : M User.t :=
  match op with
  | CreateUser _ _ _ | UpdateUser _ _ _ _ | DeleteUser _ _ =>
      current_user ← Auth.get_current_user now credentials;
      Auth.get_admin_user current_user
  | ChangePassword _ _ _ | UpdateProfile _ _ =>
      Auth.get_current_user now credentials
  | CreateTransaction _ | UpdateTransaction _ _ | DeleteTransaction _ =>
      Security.get_current_user now credentials
  end.

Definition handle (op : operation) (now : Z) (current_user : User.t)
  : M response :=
  match op with
  | CreateUser salt user_data request =>
      r ← Users.create_user now salt user_data request current_user;
      mret (UserBody r)
  | UpdateUser salt user_id user_data request =>
      r ← Users.update_user now salt user_id user_data request current_user;
      mret (UserBody r)
  | DeleteUser user_id request =>
      m ← Users.delete_user now user_id request current_user;
      mret (MessageBody m)
  | ChangePassword salt request password_data =>
      m ← Auth.change_password now salt request password_data current_user;
      mret (MessageBody m)
  | UpdateProfile request profile_data =>
      r ← Auth.update_profile now request profile_data current_user;
      mret (UserBody r)
  | CreateTransaction transaction =>
      r ← Transactions.create_transaction now transaction current_user;
      mret (RecordBody r)
  | UpdateTransaction record_id transaction =>
      r ← Transactions.update_transaction now record_id transaction current_user;
      mret (RecordBody r)
  | DeleteTransaction record_id =>
      m ← Transactions.delete_transaction now record_id current_user;
      mret (MessageBody m)
  end.

(** One request against the store [db], in a session of its own. *)
Definition serve (op : operation) (now : Z) (credentials : token) (db : Db)
  : result response * Session.t :=
  (current_user ← authenticate op now credentials;
   handle op now current_user) (Session.open db).

End WithEnvironment.

End Endpoints.

(** ** app/routers/public.py *)

Module Public.

Import Session Orm Schemas.

(** [x or 0] on a number. *)
Definition or_zero (x : Z) : Z := if x =? 0 then 0 else x.

(** [get_public_balance(db)]: the two queries are built from
    [TransactionType.CREDIT] and [TransactionType.DEBIT] before anything is
    executed. *)
Definition get_public_balance : M BalanceResponse.t :=
  credit_member ← lift (TransactionType_member "CREDIT");
  debit_member ← lift (TransactionType_member "DEBIT");
  credit_result ←
    Transactions.sum_amounts
      (λ r, String.eqb (FinancialRecord.transaction_type r)
                       (TransactionType_value credit_member)
            && negb (FinancialRecord.is_deleted r));
  debit_result ←
    Transactions.sum_amounts
      (λ r, String.eqb (FinancialRecord.transaction_type r)
                       (TransactionType_value debit_member)
            && negb (FinancialRecord.is_deleted r));
  let total_credits := or_zero credit_result in
  let total_debits := or_zero debit_result in
  let balance := total_credits - total_debits in
  mret (BalanceResponse.mk balance total_credits total_debits).

End Public.

(** ** app/main.py: the routes of the application *)

Module Main.

Import Jose Session Schemas.

(** The routes modelled here, each with what it reads from the request
    besides the bearer credentials. *)
Inductive route : Type :=
| PostLogin (request : Request.t) (login_data : LoginRequest.t)
| PostRefresh (refresh_data : token)
| GetMe
| PostLogout (request : Request.t)
| Mutation (op : Endpoints.operation)
| GetUsers
| GetUser (user_id : Z)
| GetBalance
| GetPublicBalance.

Inductive body : Type :=
| LoginBody (r : Auth.LoginResponse.t)
| TokenBody (r : Token.t)
| UserBody (r : UserResponse.t)
| UsersBody (r : list UserResponse.t)
| MessageBody (message : string)
| BalanceBody (r : BalanceResponse.t)
| MutationBody (r : Endpoints.response).

Section WithEnvironment.
Context `{Settings} `{Primitives}.

(** A route run in the session [s]: its dependencies, then its handler. *)
Definition dispatch (r : route) (now : Z) (credentials : token)
  : M body :=
  match r with
  | PostLogin request login_data =>
      x ← Auth.login now request login_data; mret (LoginBody x)
  | PostRefresh refresh_data =>
      x ← Auth.refresh_token now refresh_data; mret (TokenBody x)
  | GetMe =>
      current_user ← Auth.get_current_user now credentials;
      x ← Auth.get_current_user_info current_user; mret (UserBody x)
  | PostLogout request =>
      current_user ← Auth.get_current_user now credentials;
      x ← Auth.logout now request current_user; mret (MessageBody x)
  | Mutation op =>
      current_user ← Endpoints.authenticate op now credentials;
      x ← Endpoints.handle op now current_user; mret (MutationBody x)
  | GetUsers =>
      current_user ← Auth.get_current_user now credentials;
      current_user ← Auth.get_admin_user current_user;
      x ← Users.get_users current_user; mret (UsersBody x)
  | GetUser user_id =>
      current_user ← Auth.get_current_user now credentials;
      current_user ← Auth.get_admin_user current_user;
      x ← Users.get_user user_id current_user; mret (UserBody x)
  | GetBalance =>
      current_user ← Security.get_current_user now credentials;
      x ← Transactions.get_balance current_user; mret (BalanceBody x)
  | GetPublicBalance =>
      x ← Public.get_public_balance; mret (BalanceBody x)
  end.

(** One request against the store [db], in a session of its own. *)
Definition call (r : route) (now : Z) (credentials : token) (db : Db)
  : result body * Session.t :=
  dispatch r now credentials (Session.open db).

End WithEnvironment.

End Main.

(** ** An instance of the primitives, to run the model on concrete inputs *)

Definition reference_primitives : Primitives := {|
  hmac := λ alg key c,
    alg ++ ":" ++ key ++ ":" ++ Py.str_of_int (Z.of_nat (size c));
  bcrypt_verify := λ secret digest, Some (String.eqb digest ("$2b$" ++ secret));
  bcrypt_hashpw := λ salt secret, "$2b$" ++ secret
|}.

(** The character properties of the code points 128 to 255, as the Unicode
    database gives them; no property is recorded here for a code point
    beyond. *)
Definition latin1_data : UnicodeData := {|
  Uppercase := λ c, Schemas.in_range 192 214 c || Schemas.in_range 216 222 c;
  Lowercase := λ c,
    (c =? 170) || (c =? 181) || (c =? 186)
    || Schemas.in_range 223 246 c || Schemas.in_range 248 255 c;
  Digit := λ c, (c =? 178) || (c =? 179) || (c =? 185)
|}.

(** * Vocabulary of the statements *)

(** The claims a token carries, if it decodes at all. *)
Definition token_claims (t : Jose.token) : option (gmap string jvalue) :=
  match t with
  | Jose.Jws _ c _ => Some c
  | Jose.Garbage _ => None
  end.

(** The [type] claim embedded in a token. *)
Definition type_claim (t : Jose.token) : option jvalue :=
  c ← token_claims t; c !! "type".

(** The claims other than [exp] that the decoder checks, on the caller's
    dictionary: [iat] and [nbf] read as integers with [nbf] not in the future,
    [sub] and [jti] strings, no [aud] and no [at_hash]. *)
Definition registered_claims_ok `{Primitives} (now : Z) (d : gmap string jvalue)
  : bool :=
  match Jose.validate_iat d, Jose.validate_nbf now d, Jose.validate_aud d,
        Jose.validate_str d "sub" "Subject must be a string.",
        Jose.validate_str d "jti" "JWT ID must be a string.",
        Jose.validate_at_hash d with
  | Ok _, Ok _, Ok _, Ok _, Ok _, Ok _ => true
  | _, _, _, _, _, _ => false
  end.

(** The password policy in the specification's words.  A character is a
    code point; the letters and digits are A to Z, a to z and 0 to 9, and
    beyond ASCII the characters the Unicode database gives the property. *)
Definition uppercase_letter `{UnicodeData} (c : Z) : Prop :=
  65 <= c <= 90 \/ (128 <= c /\ Uppercase c = true).

Definition lowercase_letter `{UnicodeData} (c : Z) : Prop :=
  97 <= c <= 122 \/ (128 <= c /\ Lowercase c = true).

Definition decimal_digit `{UnicodeData} (c : Z) : Prop :=
  48 <= c <= 57 \/ (128 <= c /\ Digit c = true).

(** The number of characters of a string. *)
Definition characters (v : string) : nat := List.length (Py.code_points v).

Definition contains (P : Z -> Prop) (v : string) : Prop :=
  exists c, In c (Py.code_points v) /\ P c.

Definition meets_policy `{UnicodeData} (v : string) : Prop :=
  (8 <= characters v)%nat
  /\ contains uppercase_letter v
  /\ contains lowercase_letter v
  /\ contains decimal_digit v.

(** The rows of the users table under a username, as the session sees it. *)
Definition users_named (name : string) (s : Session.t) : list User.t :=
  filter (λ u, User.username u = name) (Session.users (Session.working s)).

(** The three ways a login attempt fails on the credentials: nobody has the
    username, the account is inactive, or the password does not match the
    stored digest. *)
Inductive login_failure `{Primitives} (s : Session.t)
          (login_data : Schemas.LoginRequest.t) : Prop :=
| unknown_username :
    users_named (Schemas.LoginRequest.username login_data) s = [] ->
    login_failure s login_data
| inactive_account (u : User.t) :
    users_named (Schemas.LoginRequest.username login_data) s = [u] ->
    User.is_active u = false ->
    login_failure s login_data
| wrong_password (u : User.t) :
    users_named (Schemas.LoginRequest.username login_data) s = [u] ->
    User.is_active u = true ->
    Security.verify_password (Schemas.LoginRequest.password login_data)
                             (User.password_hash u) = Ok false ->
    login_failure s login_data.

(** [n] login attempts in a row on one session: the responses, oldest first,
    and the session they leave. *)
Fixpoint login_attempts `{Settings} `{Primitives} (n : nat) (now : Z)
         (request : Request.t) (login_data : Schemas.LoginRequest.t)
         (s : Session.t) : list (result Auth.LoginResponse.t) * Session.t :=
  match n with
  | O => ([], s)
  | S n' =>
      let (r, s1) := Auth.login now request login_data s in
      let (rs, s2) := login_attempts n' now request login_data s1 in
      (r :: rs, s2)
  end.

Definition incorrect_username_or_password : exn :=
  HTTPException 401 "Incorrect username or password" [].

(** A small store to run the model on: an administrator, an active viewer
    and a deactivated viewer, with digests of the reference primitives. *)
Definition root_user : User.t :=
  User.mk 1 "root" "root@example.org" "$2b$Root-pw-1" "Root Admin"
          (RoleText "admin") true 10 10.

Definition alice : User.t :=
  User.mk 2 "alice" "alice@example.org" "$2b$Alice-pw-1" "Alice"
          (RoleText "viewer") true 20 20.

Definition bob : User.t :=
  User.mk 3 "bob" "bob@example.org" "$2b$Bob-pw-1" "Bob"
          (RoleText "viewer") false 30 30.

Definition sample_db : Session.Db :=
  Session.mkDb [root_user; alice; bob] [] [] 3 0 0.

Definition browser : Request.t :=
  Request.mk (Some "127.0.0.1") (Some "Mozilla/5.0").

(** The store after one more audit row. *)
Definition append_audit (db : Session.Db) (a : AuditLog.t) : Session.Db :=
  Session.mkDb (Session.users db) (Session.financial_records db)
               (Session.audit_logs db ++ [a]) (Session.users_seq db)
               (Session.financial_records_seq db) (AuditLog.id a).

(** The session after a commit of the view [w]. *)
Definition committed (s : Session.t) (w : Session.Db) : Session.t :=
  Session.mk w w (Session.commits s ++ [w]).

(** The claims dictionary [login] signs for a user. *)
Definition login_data_of (u : User.t) : gmap string jvalue :=
  <["username" := JStr (User.username u)]>
    (<["sub" := JStr (Py.str_of_int (User.id u))]> ∅).

(** The access token the default settings and the reference primitives issue
    for a user at instant 900. *)
Definition sample_token (u : User.t) : Jose.token :=
  match @Security.create_access_token default_settings reference_primitives
          900 (login_data_of u) None with
  | Ok t => t
  | Raise _ => Jose.Garbage ""
  end.

(** The rows a primary-key lookup returns. *)
Definition users_with_id (k : Z) (s : Session.t) : list User.t :=
  filter (λ u, (User.id u =? k) = true) (Session.users (Session.working s)).

(** Both dependencies, case by case. *)
Inductive lookup_case `{Settings} `{Primitives} (now : Z)
          (credentials : Jose.token) (s : Session.t)
  : result User.t -> result User.t -> Prop :=
| bad_token :
    Security.verify_token now credentials "access" = None ->
    lookup_case now credentials s
      (Raise Security.credentials_exception)
      (Raise (HTTPException 401 "Invalid or expired token"
                            [("WWW-Authenticate", "Bearer")]))
| no_subject payload :
    Security.verify_token now credentials "access" = Some payload ->
    payload !! "sub" = None ->
    lookup_case now credentials s
      (Raise Security.credentials_exception)
      (Raise (HTTPException 401 "Invalid token payload" []))
| subject_not_a_number payload v e :
    Security.verify_token now credentials "access" = Some payload ->
    payload !! "sub" = Some v ->
    Py.int v = Raise e ->
    lookup_case now credentials s
      (Raise Security.credentials_exception) (Raise e)
| no_such_user payload v k :
    Security.verify_token now credentials "access" = Some payload ->
    payload !! "sub" = Some v ->
    Py.int v = Ok k ->
    users_with_id k s = [] ->
    lookup_case now credentials s
      (Raise Security.credentials_exception)
      (Raise (HTTPException 401 "User not found or inactive" []))
| several_users payload v k u1 u2 rest :
    Security.verify_token now credentials "access" = Some payload ->
    payload !! "sub" = Some v ->
    Py.int v = Ok k ->
    users_with_id k s = u1 :: u2 :: rest ->
    lookup_case now credentials s
      (Raise Security.credentials_exception)
      (Raise Orm.MultipleResultsFound)
| inactive_user payload v k u :
    Security.verify_token now credentials "access" = Some payload ->
    payload !! "sub" = Some v ->
    Py.int v = Ok k ->
    users_with_id k s = [u] ->
    User.is_active u = false ->
    lookup_case now credentials s
      (Raise Security.credentials_exception)
      (Raise (HTTPException 401 "User not found or inactive" []))
| active_user payload v k u :
    Security.verify_token now credentials "access" = Some payload ->
    payload !! "sub" = Some v ->
    Py.int v = Ok k ->
    users_with_id k s = [u] ->
    User.is_active u = true ->
    lookup_case now credentials s (Ok u) (Ok u).

(** The session whose view has become [w]. *)
Definition with_working (s : Session.t) (w : Session.Db) : Session.t :=
  Session.mk (Session.durable s) w (Session.commits s).

Definition put_users (db : Session.Db) (rows : list User.t) : Session.Db :=
  Session.mkDb rows (Session.financial_records db) (Session.audit_logs db)
               (Session.users_seq db) (Session.financial_records_seq db)
               (Session.audit_logs_seq db).

Definition put_records (db : Session.Db) (rows : list FinancialRecord.t)
  : Session.Db :=
  Session.mkDb (Session.users db) rows (Session.audit_logs db)
               (Session.users_seq db) (Session.financial_records_seq db)
               (Session.audit_logs_seq db).

(** What an audit row is compared with: the public fields of a user row and
    the fields of a financial record. *)
Definition user_snapshot (u : User.t) : gmap string jvalue :=
  Users.user_values u (role_str (User.role u)).

Definition record_snapshot (r : FinancialRecord.t) : gmap string jvalue :=
  <["is_deleted" := JBool (FinancialRecord.is_deleted r)]>
    (Transactions.values_of r).

(** The new values of an audit row describe the user row [target] of the
    store [db]. *)
Definition user_reflected (target : Z) (db : Session.Db)
           (nv : gmap string jvalue) : Prop :=
  exists row, row ∈ Session.users db /\ User.id row = target
              /\ nv ⊆ user_snapshot row.

Definition record_reflected (target : Z) (db : Session.Db)
           (nv : gmap string jvalue) : Prop :=
  exists row, row ∈ Session.financial_records db
              /\ FinancialRecord.id row = target
              /\ nv ⊆ record_snapshot row.

(** A password change records a marker only; the row of the store carries
    the new digest. *)
Definition password_rotated (digest : string) (target : Z) (db : Session.Db)
           (nv : gmap string jvalue) : Prop :=
  nv = <["password_changed" := JBool true]> ∅
  /\ exists row, row ∈ Session.users db /\ User.id row = target
                 /\ User.password_hash row = digest.

(** From session [s] to session [s']: one commit of a store [db1] that
    holds no new audit row, then one commit that adds the single audit row
    [a], with the given actor, action, table and target, whose new values
    satisfy [post] on [db1]. *)
Definition audited_once (s s' : Session.t) (actor : Z) (action : ActionType)
           (table : string) (target : Z)
           (post : Session.Db -> gmap string jvalue -> Prop) : Prop :=
  exists (db1 : Session.Db) (a : AuditLog.t) (nv : gmap string jvalue),
    s' = committed (committed s db1) (append_audit db1 a)
    /\ Session.audit_logs db1 = Session.audit_logs (Session.working s)
    /\ AuditLog.user_id a = actor
    /\ AuditLog.action_type a = ActionType_value action
    /\ AuditLog.table_name a = table
    /\ AuditLog.record_id a = Some target
    /\ AuditLog.new_values a = Some nv
    /\ post db1 nv.

(** A step of [update_profile] that may check a field for a duplicate and
    store the caller's row keeps the row's key, the commits and the audit
    table. *)
Definition profile_step_ok (current_user : User.t) (s : Session.t)
           (cu1 : User.t) (s1 : Session.t) : Prop :=
  User.id cu1 = User.id current_user
  /\ Session.commits s1 = Session.commits s
  /\ Session.audit_logs (Session.working s1)
     = Session.audit_logs (Session.working s).

(** The action, table and target an audit row must carry for an operation.
    The target of a creation is the key of the created row, which the
    response reports; of an update or deletion by key, that key; of a
    password change or profile update, the caller's own key. *)
Definition action_of (op : Endpoints.operation) : ActionType :=
  match op with
  | Endpoints.CreateUser _ _ _ | Endpoints.CreateTransaction _ => CREATE
  | Endpoints.UpdateUser _ _ _ _ | Endpoints.ChangePassword _ _ _
  | Endpoints.UpdateProfile _ _ | Endpoints.UpdateTransaction _ _ => UPDATE
  | Endpoints.DeleteUser _ _ | Endpoints.DeleteTransaction _ => DELETE
  end.

Definition table_of (op : Endpoints.operation) : string :=
  match op with
  | Endpoints.CreateUser _ _ _ | Endpoints.UpdateUser _ _ _ _
  | Endpoints.DeleteUser _ _ | Endpoints.ChangePassword _ _ _
  | Endpoints.UpdateProfile _ _ => "users"
  | Endpoints.CreateTransaction _ | Endpoints.UpdateTransaction _ _
  | Endpoints.DeleteTransaction _ => "financial_records"
  end.

Definition target_of (op : Endpoints.operation) (caller : User.t)
           (resp : Endpoints.response) : option Z :=
  match op, resp with
  | Endpoints.CreateUser _ _ _, Endpoints.UserBody u =>
      Some (Schemas.UserResponse.id u)
  | Endpoints.CreateTransaction _, Endpoints.RecordBody r =>
      Some (Schemas.FinancialRecordResponse.id r)
  | Endpoints.UpdateUser _ user_id _ _, _ => Some user_id
  | Endpoints.DeleteUser user_id _, _ => Some user_id
  | Endpoints.ChangePassword _ _ _, _ => Some (User.id caller)
  | Endpoints.UpdateProfile _ _, _ => Some (User.id caller)
  | Endpoints.UpdateTransaction record_id _, _ => Some record_id
  | Endpoints.DeleteTransaction record_id, _ => Some record_id
  | _, _ => None
  end.

(** The audit row of a created transaction carries the values of the
    request, and the store holds a row under the key of the target. *)
Definition request_recorded (transaction : Schemas.FinancialRecordCreate.t)
           (target : Z) (db : Session.Db) (nv : gmap string jvalue) : Prop :=
  nv = Transactions.record_values
         (Schemas.FinancialRecordCreate.amount transaction)
         (Schemas.FinancialRecordCreate.description transaction)
         (TransactionType_value
            (Schemas.FinancialRecordCreate.transaction_type transaction))
  /\ exists row, row ∈ Session.financial_records db
                 /\ FinancialRecord.id row = target.

(** What the new values of the audit row say about the committed store. *)
Definition post_of `{Settings} `{Primitives} (op : Endpoints.operation)
           (target : Z) : Session.Db -> gmap string jvalue -> Prop :=
  match op with
  | Endpoints.ChangePassword salt _ password_data =>
      password_rotated
        (Security.get_password_hash salt
           (Schemas.PasswordChangeRequest.new_password password_data)) target
  | Endpoints.CreateUser _ _ _ | Endpoints.UpdateUser _ _ _ _
  | Endpoints.DeleteUser _ _ | Endpoints.UpdateProfile _ _ =>
      user_reflected target
  | Endpoints.CreateTransaction transaction =>
      request_recorded transaction target
  | Endpoints.UpdateTransaction _ _ | Endpoints.DeleteTransaction _ =>
      record_reflected target
  end.

(** [db'] holds every audit row of [db], unchanged and in place, and the
    keys of the users and of the financial records of [db], in place: rows
    are added at the end and never taken away. *)
Definition grows (db db' : Session.Db) : Prop :=
  Session.audit_logs db `prefix_of` Session.audit_logs db'
  /\ (User.id <$> Session.users db) `prefix_of` (User.id <$> Session.users db')
  /\ (FinancialRecord.id <$> Session.financial_records db)
     `prefix_of` (FinancialRecord.id <$> Session.financial_records db').

(** Both the committed store and the view of a session have grown out of
    [db0]. *)
Definition keeps (db0 : Session.Db) (s : Session.t) : Prop :=
  grows db0 (Session.durable s) /\ grows db0 (Session.working s).

(** A computation that, however it ends, leaves a session that has grown out
    of [db0] if it found one. *)
Definition preserves {A} (m : Session.M A) : Prop :=
  forall db0 s r s', keeps db0 s -> m s = (r, s') -> keeps db0 s'.

(** No character of the string is one that [int] strips. *)
Fixpoint no_space (s : string) : bool :=
  match s with
  | EmptyString => true
  | String c s' => negb (Py.is_space c) && no_space s'
  end.

(** The audit row a login of user [u] writes into a store whose audit
    sequence stands at [seq]. *)
Definition login_row (now : Z) (request : Request.t) (u : User.t) (seq : Z)
  : AuditLog.t :=
  AuditLog.mk (seq + 1) (User.id u) "LOGIN" "users" (Some (User.id u))
              None None (Request.client_host request)
              (Request.user_agent request) now.

(** The audit row a logout of user [u] writes. *)
Definition logout_row (now : Z) (request : Request.t) (u : User.t) (seq : Z)
  : AuditLog.t :=
  AuditLog.mk (seq + 1) (User.id u) "LOGOUT" "users" (Some (User.id u))
              None None (Request.client_host request)
              (Request.user_agent request) now.

(** A computation that leaves the session exactly as it found it, whatever
    it returns or raises. *)
Definition read_only {A} (m : Session.M A) : Prop :=
  forall s, snd (m s) = s.

(** The routes whose handlers only query: the GET routes modelled here and
    the token refresh. *)
Definition queries_only (r : Main.route) : bool :=
  match r with
  | Main.PostRefresh _ | Main.GetMe | Main.GetUsers | Main.GetUser _
  | Main.GetBalance | Main.GetPublicBalance => true
  | Main.PostLogin _ _ | Main.PostLogout _ | Main.Mutation _ => false
  end.

(** The answer of the refresh route to a token it does not accept. *)
Definition invalid_refresh_token : exn :=
  HTTPException 401 "Invalid or expired refresh token" [].

(** The rows a balance query sums for a transaction type: the rows of that
    type that are not marked deleted. *)
Definition counts_as (ty : TransactionType) (r : FinancialRecord.t) : bool :=
  String.eqb (FinancialRecord.transaction_type r) (TransactionType_value ty)
  && negb (FinancialRecord.is_deleted r).

Definition total (ty : TransactionType) (rows : list FinancialRecord.t) : Z :=
  foldr (λ r acc, FinancialRecord.amount r + acc) 0
        (filter (λ r, counts_as ty r = true) rows).

(** What a row contributes to the total of a transaction type. *)
Definition share (ty : TransactionType) (r : FinancialRecord.t) : Z :=
  if counts_as ty r then FinancialRecord.amount r else 0.

(** The live row under a key: the condition of the lookups of
    [update_transaction] and [delete_transaction]. *)
Definition live (k : Z) (r : FinancialRecord.t) : bool :=
  (FinancialRecord.id r =? k) && negb (FinancialRecord.is_deleted r).

Definition transaction_not_found : exn :=
  HTTPException 404 "Transaction not found" [].

(** The sample store with two live records and one deleted record. *)
Definition bake_sale : FinancialRecord.t :=
  FinancialRecord.mk 1 1500 "Bake sale" "credit" 1 40 40 false.

Definition chalk : FinancialRecord.t :=
  FinancialRecord.mk 2 400 "Chalk" "debit" 1 50 50 false.

Definition refund : FinancialRecord.t :=
  FinancialRecord.mk 3 250 "Refund" "credit" 1 60 70 true.

Definition ledger_db : Session.Db :=
  Session.mkDb [root_user; alice; bob] [bake_sale; chalk; refund] [] 3 3 0.

(** The routes reserved to administrators: the users router and the three
    mutations of the transactions router. *)
Definition admin_only (r : Main.route) : bool :=
  match r with
  | Main.GetUsers | Main.GetUser _ => true
  | Main.Mutation op =>
      match op with
      | Endpoints.CreateUser _ _ _ | Endpoints.UpdateUser _ _ _ _
      | Endpoints.DeleteUser _ _ | Endpoints.CreateTransaction _
      | Endpoints.UpdateTransaction _ _ | Endpoints.DeleteTransaction _ => true
      | Endpoints.ChangePassword _ _ _ | Endpoints.UpdateProfile _ _ => false
      end
  | _ => false
  end.

Definition admin_access_required : exn :=
  HTTPException 403 "Admin access required" [].

Definition user_not_found_or_inactive : exn :=
  HTTPException 401 "User not found or inactive" [].

(** The row [create_user] inserts for a request: the key from the
    sequence, the digest of the password, the role as text. *)
Definition created_row `{Primitives} (now : Z) (salt : string)
           (user_data : Schemas.UserCreate.t) (db : Session.Db) : User.t :=
  User.mk (Session.users_seq db + 1)
          (Schemas.UserCreate.username user_data)
          (Schemas.UserCreate.email user_data)
          (Security.get_password_hash salt
             (Schemas.UserCreate.password user_data))
          (Schemas.UserCreate.full_name user_data)
          (RoleText (UserRole_value (Schemas.UserCreate.role user_data)))
          (Schemas.UserCreate.is_active user_data) now now.

(** The store with one more user. *)
Definition append_user (db : Session.Db) (u : User.t) : Session.Db :=
  Session.mkDb (Session.users db ++ [u]) (Session.financial_records db)
               (Session.audit_logs db) (User.id u)
               (Session.financial_records_seq db) (Session.audit_logs_seq db).

(** What the handlers of the users router answer when they read [.value]
    on a role that is text. *)
Definition role_has_no_value (prefix : string) : exn :=
  HTTPException 500 (prefix ++ "'str' object has no attribute 'value'") [].

(** The condition of [update_user]'s lookup for another user with the
    requested name or e-mail. *)
Definition update_clashes (user_id : Z) (user_data : Schemas.UserUpdate.t)
           (u : User.t) : bool :=
  negb (User.id u =? user_id)
  && ((Users.truthy (Schemas.UserUpdate.username user_data)
       && Users.matches (Schemas.UserUpdate.username user_data)
                        (User.username u))
      || (Users.truthy (Schemas.UserUpdate.email user_data)
          && Users.matches (Schemas.UserUpdate.email user_data)
                           (User.email u))).

(** The sample store with one more active account, whose stored digest is
    not a bcrypt digest. *)
Definition legacy : User.t :=
  User.mk 4 "legacy" "legacy@example.org" "plain:Legacy-pw-1" "Legacy"
          (RoleText "viewer") true 40 40.

Definition legacy_db : Session.Db :=
  Session.mkDb [root_user; alice; bob; legacy] [] [] 4 0 0.

(** The row [cu] stands where the row [u] stood: same key, role, active
    flag, digest and creation instant. *)
Definition same_standing (u cu : User.t) : Prop :=
  User.id cu = User.id u
  /\ User.role cu = User.role u
  /\ User.is_active cu = User.is_active u
  /\ User.password_hash cu = User.password_hash u
  /\ User.created_at cu = User.created_at u.

(** The users of session [s] differ from those of the store [db] at most in
    the rows under the key of [u]. *)
Definition same_but_for (u : User.t) (db : Session.Db) (s : Session.t)
  : Prop :=
  forall c, User.id c = User.id u ->
    Orm.replace_user c (Session.users (Session.working s))
    = Orm.replace_user c (Session.users db).

(** The condition of [create_user]'s lookup for an existing user. *)
Definition name_or_email_taken (user_data : Schemas.UserCreate.t)
           (u : User.t) : bool :=
  String.eqb (User.username u) (Schemas.UserCreate.username user_data)
  || String.eqb (User.email u) (Schemas.UserCreate.email user_data).

Definition current_password_is_incorrect : exn :=
  HTTPException 400 "Current password is incorrect" [].

(** The routes of the users router among the mutations: their dependency
    is [get_admin_user]. *)
Definition users_router (op : Endpoints.operation) : bool :=
  match op with
  | Endpoints.CreateUser _ _ _ | Endpoints.UpdateUser _ _ _ _
  | Endpoints.DeleteUser _ _ => true
  | _ => false
  end.

(** * Properties *)

(** ** Tokens *)

Section TokenProperties.
Context `{Settings} `{Primitives}.

Import Jose Security.

Lemma verify_token_Some now t ty payload :
  verify_token now t ty = Some payload ->
  decode now t SECRET_KEY [ALGORITHM] = Ok payload
  /\ payload !! "type" = Some (JStr ty).
Proof.
  unfold verify_token.
  destruct (decode now t SECRET_KEY [ALGORITHM]) as [p|e]; [|discriminate].
  case_bool_decide as Hty; simpl; [|discriminate].
  intros [= ->]. auto.
Qed.

Lemma decode_Ok now t key algs payload :
  decode now t key algs = Ok payload ->
  exists alg sig, t = Jws alg payload sig
    /\ sig = hmac alg key payload
    /\ validate_claims now payload = Ok tt.
Proof.
  destruct t as [alg c sig|raw]; simpl; [|discriminate].
  destruct (negb (bool_decide (alg ∈ algs))); [discriminate|].
  destruct (negb (is_hmac_alg alg)); [discriminate|].
  destruct (String.eqb_spec sig (hmac alg key c)) as [->|]; simpl; [|discriminate].
  destruct (validate_claims now c) as [[]|e] eqn:E; simpl; [|discriminate].
  intros [= <-]. eauto.
Qed.

Lemma verify_token_wrong_type now t ty :
  type_claim t ≠ Some (JStr ty) -> verify_token now t ty = None.
Proof.
  intros Hty.
  destruct (verify_token now t ty) as [payload|] eqn:E; [|reflexivity].
  apply verify_token_Some in E as [Hd Hp].
  apply decode_Ok in Hd as (alg & sig & -> & _).
  unfold type_claim in Hty. simpl in Hty. congruence.
Qed.

Lemma encode_Ok c key alg t :
  encode c key alg = Ok t -> t = Jws alg c (hmac alg key c) /\ is_hmac_alg alg = true.
Proof.
  unfold encode. destruct (is_hmac_alg alg); [|discriminate].
  intros [= <-]. auto.
Qed.

Lemma access_token_claims now0 d delta t :
  create_access_token now0 d delta = Ok t ->
  exists e, token_claims t = Some (<["type" := JStr "access"]> (<["exp" := JInt e]> d)).
Proof.
  unfold create_access_token. intros E%encode_Ok. destruct E as [-> _].
  simpl. eauto.
Qed.

Lemma refresh_token_claims now0 d t :
  create_refresh_token now0 d = Ok t ->
  token_claims t =
    Some (<["type" := JStr "refresh"]>
            (<["exp" := JInt (now0 + REFRESH_TOKEN_EXPIRE_DAYS * 86400)]> d)).
Proof.
  unfold create_refresh_token. intros E%encode_Ok. destruct E as [-> _].
  reflexivity.
Qed.

End TokenProperties.

(** C2. [verify_token] returns no claims for a token whose [type] claim is
    not the expected type; in particular a token issued by
    [create_refresh_token] never verifies as "access" and a token issued by
    [create_access_token] never verifies as "refresh", whatever the instant
    and the data. *)
Theorem cross_type_rejection `{Settings} `{Primitives} :
  (forall now t ty,
      type_claim t ≠ Some (JStr ty) -> Security.verify_token now t ty = None)
  /\ (forall now0 d t now,
         Security.create_refresh_token now0 d = Ok t ->
         Security.verify_token now t "access" = None)
  /\ (forall now0 d delta t now,
         Security.create_access_token now0 d delta = Ok t ->
         Security.verify_token now t "refresh" = None).
Proof.
  split; [|split].
  - intros. by apply verify_token_wrong_type.
  - intros now0 d t now E. apply verify_token_wrong_type.
    apply refresh_token_claims in E. unfold type_claim. rewrite E. simpl.
    rewrite lookup_insert_eq. discriminate.
  - intros now0 d delta t now E. apply verify_token_wrong_type.
    apply access_token_claims in E as [e E]. unfold type_claim. rewrite E. simpl.
    rewrite lookup_insert_eq. discriminate.
Qed.

Section ExpiryProperties.
Context `{Settings} `{Primitives}.

Import Jose Security.

Lemma validate_exp_past now c v e :
  c !! "exp" = Some v -> Py.int v = Ok e -> e < now ->
  validate_exp now c = Raise (JWTError "Signature has expired.").
Proof.
  intros Hc Hv Hlt. unfold validate_exp, claim_int. rewrite Hc, Hv. simpl.
  destruct (Z.ltb_spec e now); [reflexivity|lia].
Qed.

Lemma validate_claims_past now c v e :
  c !! "exp" = Some v -> Py.int v = Ok e -> e < now ->
  exists err, validate_claims now c = Raise err.
Proof.
  intros Hc Hv Hlt. unfold validate_claims.
  destruct (validate_iat c) as [[]|e1]; simpl; [|eauto].
  destruct (validate_nbf now c) as [[]|e2]; simpl; [|eauto].
  rewrite (validate_exp_past now c v e) by assumption. simpl. eauto.
Qed.

Lemma verify_token_expired now alg sig c v e ty :
  c !! "exp" = Some v -> Py.int v = Ok e -> e < now ->
  verify_token now (Jws alg c sig) ty = None.
Proof.
  intros Hc Hv Hlt.
  destruct (verify_token now (Jws alg c sig) ty) as [p|] eqn:E; [|reflexivity].
  apply verify_token_Some in E as [Hd _].
  apply decode_Ok in Hd as (alg' & sig' & [= <- <- <-] & _ & Hval).
  destruct (validate_claims_past now c v e Hc Hv Hlt) as [err Herr].
  congruence.
Qed.

End ExpiryProperties.

(** C3. A token whose [exp] claim lies before the current instant is never
    verified: [verify_token] returns no claims for it whatever its signature
    (the correct one included), its algorithm and the expected type, from the
    first second after [exp] on. *)
Theorem expired_token_rejected `{Settings} `{Primitives}
        (now : Z) (alg sig : string) (c : gmap string jvalue)
        (v : jvalue) (e : Z) (ty : string) :
  c !! "exp" = Some v -> Py.int v = Ok e -> e < now ->
  Security.verify_token now (Jose.Jws alg c sig) ty = None.
Proof. apply verify_token_expired. Qed.

(** The access token of subject "1" issued at instant 1000 under the default
    settings, correctly signed, checked one second after its expiry against
    its own type. *)
Lemma expired_token_rejected_witness :
  let c : gmap string jvalue :=
    <["type" := JStr "access"]> (<["exp" := JInt 2800]> (<["sub" := JStr "1"]> ∅)) in
  let sig := @hmac reference_primitives "HS256" (@SECRET_KEY default_settings) c in
  @Security.verify_token default_settings reference_primitives 2800
     (Jose.Jws "HS256" c sig) "access" = Some c
  /\ @Security.verify_token default_settings reference_primitives 2801
       (Jose.Jws "HS256" c sig) "access" = None.
Proof.
  split.
  - vm_compute. reflexivity.
  - apply (@expired_token_rejected default_settings reference_primitives
             2801 "HS256" _ _ (JInt 2800) 2800 "access").
    + vm_compute. reflexivity.
    + reflexivity.
    + lia.
Defined.

(** The access token of subject "1" and the refresh token of the same data,
    each checked against the other type. *)
Lemma cross_type_rejection_witness :
  let d : gmap string jvalue := <["sub" := JStr "1"]> ∅ in
  (exists t,
      @Security.create_refresh_token default_settings reference_primitives
         1000 d = Ok t
      /\ @Security.verify_token default_settings reference_primitives
           1000 t "refresh"
         = Some (<["type" := JStr "refresh"]> (<["exp" := JInt 605800]> d))
      /\ @Security.verify_token default_settings reference_primitives
           1000 t "access" = None)
  /\ (exists t,
         @Security.create_access_token default_settings reference_primitives
            1000 d None = Ok t
         /\ @Security.verify_token default_settings reference_primitives
              1000 t "refresh" = None).
Proof.
  pose proof (@cross_type_rejection default_settings reference_primitives)
    as (_ & Hr & Ha).
  split.
  - eexists. split; [reflexivity|]. split; [vm_compute; reflexivity|].
    apply (Hr 1000 (<["sub" := JStr "1"]> ∅) _ 1000). reflexivity.
  - eexists. split; [reflexivity|].
    apply (Ha 1000 (<["sub" := JStr "1"]> ∅) None _ 1000). reflexivity.
Defined.

Section RoundTrip.
Context `{Settings} `{Primitives}.

Import Jose Security.

Lemma validate_claims_issued now e ty d :
  registered_claims_ok now d = true -> now <= e ->
  validate_claims now (<["type" := JStr ty]> (<["exp" := JInt e]> d)) = Ok tt.
Proof.
  intros Hok Hle. unfold registered_claims_ok in Hok.
  set (c := <["type" := JStr ty]> (<["exp" := JInt e]> d)).
  assert (Hc : forall k, k ≠ "type" -> k ≠ "exp" -> c !! k = d !! k).
  { intros k H1 H2. unfold c. by rewrite !lookup_insert_ne. }
  assert (Hexp : c !! "exp" = Some (JInt e)).
  { unfold c. rewrite lookup_insert_ne by done. by rewrite lookup_insert_eq. }
  assert (Hiat : validate_iat c = validate_iat d).
  { unfold validate_iat, claim_int. by rewrite (Hc "iat"). }
  assert (Hnbf : validate_nbf now c = validate_nbf now d).
  { unfold validate_nbf, claim_int. by rewrite (Hc "nbf"). }
  assert (Haud : validate_aud c = validate_aud d).
  { unfold validate_aud. by rewrite (Hc "aud"). }
  assert (Hsub : forall m, validate_str c "sub" m = validate_str d "sub" m).
  { intros m. unfold validate_str. by rewrite (Hc "sub"). }
  assert (Hjti : forall m, validate_str c "jti" m = validate_str d "jti" m).
  { intros m. unfold validate_str. by rewrite (Hc "jti"). }
  assert (Hat : validate_at_hash c = validate_at_hash d).
  { unfold validate_at_hash. by rewrite (Hc "at_hash"). }
  assert (Hx : validate_exp now c = Ok tt).
  { unfold validate_exp, claim_int. rewrite Hexp. simpl.
    destruct (Z.ltb_spec e now); [lia|reflexivity]. }
  unfold validate_claims. rewrite Hiat, Hnbf, Hx, Haud, Hsub, Hjti, Hat.
  destruct (validate_iat d) as [[]|]; [|discriminate].
  destruct (validate_nbf now d) as [[]|]; [|discriminate].
  destruct (validate_aud d) as [[]|]; [|discriminate].
  destruct (validate_str d "sub" _) as [[]|]; [|discriminate].
  destruct (validate_str d "jti" _) as [[]|]; [|discriminate].
  destruct (validate_at_hash d) as [[]|]; [|discriminate].
  reflexivity.
Qed.

Lemma verify_issued now e ty d :
  is_hmac_alg ALGORITHM = true ->
  registered_claims_ok now d = true -> now <= e ->
  let c := <["type" := JStr ty]> (<["exp" := JInt e]> d) in
  verify_token now (Jws ALGORITHM c (hmac ALGORITHM SECRET_KEY c)) ty = Some c.
Proof.
  intros Halg Hok Hle c. unfold verify_token, decode.
  rewrite bool_decide_eq_true_2 by set_solver. simpl.
  rewrite Halg. simpl. rewrite String.eqb_refl. simpl.
  unfold c at 1. rewrite validate_claims_issued by assumption. simpl.
  rewrite bool_decide_eq_true_2; [reflexivity|].
  unfold c. by rewrite lookup_insert_eq.
Qed.

Lemma verify_token_type now t ty payload :
  verify_token now t ty = Some payload -> type_claim t = Some (JStr ty).
Proof.
  intros E. apply verify_token_Some in E as [Hd Hp].
  apply decode_Ok in Hd as (alg & sig & -> & _). exact Hp.
Qed.

End RoundTrip.

(** C9, as stated, fails: the dictionary [{"sub": 1}] (an integer subject)
    gives an access token that does not verify as "access" even at the instant
    of issue, because the decoder refuses a subject that is not a string. *)
Lemma round_trip_fails_on_integer_subject :
  let d : gmap string jvalue := <["sub" := JInt 1]> ∅ in
  exists t,
    @Security.create_access_token default_settings reference_primitives
       1000 d None = Ok t
    /\ @Security.verify_token default_settings reference_primitives
         1000 t "access" = None.
Proof. eexists. split; [reflexivity|]. vm_compute. reflexivity. Qed.

(** C9, amended. The issuing function alone fixes a token's [type] and [exp]
    claims, over whatever the caller's dictionary holds under these keys; a
    token of [create_access_token] verifies under no expected type but
    "access" and one of [create_refresh_token] under none but "refresh"; and
    when the configured algorithm is a shared-secret one and the caller's other
    registered claims pass the decoder's checks, verification with the
    token's own type up to the expiry instant returns the caller's dictionary
    with exactly these two keys overwritten. *)
Theorem issuer_fixes_type_and_expiry `{Settings} `{Primitives} :
  (forall now0 d t,
      Security.create_access_token now0 d None = Ok t ->
      token_claims t =
        Some (<["type" := JStr "access"]>
                (<["exp" := JInt (now0 + ACCESS_TOKEN_EXPIRE_MINUTES * 60)]> d)))
  /\ (forall now0 d t,
         Security.create_refresh_token now0 d = Ok t ->
         token_claims t =
           Some (<["type" := JStr "refresh"]>
                   (<["exp" := JInt (now0 + REFRESH_TOKEN_EXPIRE_DAYS * 86400)]> d)))
  /\ (forall now0 d delta t now ty payload,
         Security.create_access_token now0 d delta = Ok t ->
         Security.verify_token now t ty = Some payload -> ty = "access")
  /\ (forall now0 d t now ty payload,
         Security.create_refresh_token now0 d = Ok t ->
         Security.verify_token now t ty = Some payload -> ty = "refresh")
  /\ (forall now0 d now,
         Jose.is_hmac_alg ALGORITHM = true ->
         registered_claims_ok now d = true ->
         now <= now0 + ACCESS_TOKEN_EXPIRE_MINUTES * 60 ->
         exists t payload,
           Security.create_access_token now0 d None = Ok t
           /\ Security.verify_token now t "access" = Some payload
           /\ payload =
                <["type" := JStr "access"]>
                  (<["exp" := JInt (now0 + ACCESS_TOKEN_EXPIRE_MINUTES * 60)]> d)
           /\ forall k, k ≠ "type" -> k ≠ "exp" -> payload !! k = d !! k)
  /\ (forall now0 d now,
         Jose.is_hmac_alg ALGORITHM = true ->
         registered_claims_ok now d = true ->
         now <= now0 + REFRESH_TOKEN_EXPIRE_DAYS * 86400 ->
         exists t payload,
           Security.create_refresh_token now0 d = Ok t
           /\ Security.verify_token now t "refresh" = Some payload
           /\ payload =
                <["type" := JStr "refresh"]>
                  (<["exp" := JInt (now0 + REFRESH_TOKEN_EXPIRE_DAYS * 86400)]> d)
           /\ forall k, k ≠ "type" -> k ≠ "exp" -> payload !! k = d !! k).
Proof.
  repeat split.
  - intros now0 d t E. unfold Security.create_access_token in E.
    apply encode_Ok in E as [-> _]. reflexivity.
  - intros now0 d t E. by apply refresh_token_claims.
  - intros now0 d delta t now ty payload E V.
    apply access_token_claims in E as [e E].
    apply verify_token_type in V. unfold type_claim in V. rewrite E in V.
    simpl in V. rewrite lookup_insert_eq in V. congruence.
  - intros now0 d t now ty payload E V.
    apply refresh_token_claims in E.
    apply verify_token_type in V. unfold type_claim in V. rewrite E in V.
    simpl in V. rewrite lookup_insert_eq in V. congruence.
  - intros now0 d now Halg Hok Hle.
    eexists _, _. split; [|split; [|split; [reflexivity|]]].
    + unfold Security.create_access_token, Jose.encode. rewrite Halg.
      reflexivity.
    + by apply verify_issued.
    + intros k H1 H2. by rewrite !lookup_insert_ne.
  - intros now0 d now Halg Hok Hle.
    eexists _, _. split; [|split; [|split; [reflexivity|]]].
    + unfold Security.create_refresh_token, Jose.encode. rewrite Halg.
      reflexivity.
    + by apply verify_issued.
    + intros k H1 H2. by rewrite !lookup_insert_ne.
Qed.

(** A caller's dictionary that already holds [type] and [exp]: issued as an
    access token at instant 1000 under the default settings and verified at
    the last second of its life, it comes back with the issuer's [type] and
    [exp] and the caller's subject. *)
Lemma issuer_fixes_type_and_expiry_witness :
  let d : gmap string jvalue :=
    <["type" := JStr "refresh"]> (<["exp" := JInt 5]> (<["sub" := JStr "1"]> ∅)) in
  exists t payload,
    @Security.create_access_token default_settings reference_primitives
       1000 d None = Ok t
    /\ @Security.verify_token default_settings reference_primitives
         2800 t "access" = Some payload
    /\ payload = <["type" := JStr "access"]> (<["exp" := JInt (1000 + 30 * 60)]> d)
    /\ forall k, k ≠ "type" -> k ≠ "exp" -> payload !! k = d !! k.
Proof.
  intros d.
  pose proof (@issuer_fixes_type_and_expiry default_settings reference_primitives)
    as (_ & _ & _ & _ & Hrt & _).
  apply (Hrt 1000 d 2800).
  - reflexivity.
  - vm_compute. reflexivity.
  - simpl. lia.
Defined.

(** ** Passwords *)

(** C8, as stated, fails: on a digest that is not in the format of the
    context's scheme, [verify_password] raises instead of returning false. *)
Lemma verify_password_raises_on_unknown_digest :
  @Security.verify_password reference_primitives "secret" "not-a-hash"
  = Raise (PyExc "UnknownHashError" "hash could not be identified").
Proof. reflexivity. Qed.

(** C8, amended. [verify_password] hands back what the password context
    does and catches nothing: it returns a boolean exactly for a digest that
    carries a bcrypt identifier and that the bcrypt handler parses, and the
    boolean is the handler's comparison; for a digest without a bcrypt
    identifier it raises UnknownHashError, for one the handler cannot parse
    it raises ValueError. *)
Theorem verify_password_total_on_bcrypt_digests `{Primitives}
        (plain_password hashed_password : string) :
  (forall b,
      Security.verify_password plain_password hashed_password = Ok b
      <-> Passlib.bcrypt_identify hashed_password = true
          /\ bcrypt_verify plain_password hashed_password = Some b)
  /\ (Passlib.bcrypt_identify hashed_password = false
      <-> Security.verify_password plain_password hashed_password
          = Raise (PyExc "UnknownHashError" "hash could not be identified"))
  /\ (Passlib.bcrypt_identify hashed_password = true
      /\ bcrypt_verify plain_password hashed_password = None
      <-> Security.verify_password plain_password hashed_password
          = Raise (PyExc "ValueError" "malformed bcrypt hash")).
Proof.
  unfold Security.verify_password, Passlib.context_verify.
  destruct (Passlib.bcrypt_identify hashed_password);
    destruct (bcrypt_verify plain_password hashed_password) as [b'|];
    repeat split; try (intros [? ?]); intros; try discriminate;
    try congruence; auto.
Qed.

Section PasswordPolicy.
Context `{UnicodeData}.

Lemma in_range_spec lo hi c :
  Schemas.in_range lo hi c = true <-> lo <= c <= hi.
Proof.
  unfold Schemas.in_range. rewrite andb_true_iff, !Z.leb_le. tauto.
Qed.

Lemma isupper_spec c : Schemas.isupper c = true <-> uppercase_letter c.
Proof.
  unfold Schemas.isupper, uppercase_letter.
  destruct (Z.ltb_spec c 128); [rewrite in_range_spec|]; intuition lia.
Qed.

Lemma islower_spec c : Schemas.islower c = true <-> lowercase_letter c.
Proof.
  unfold Schemas.islower, lowercase_letter.
  destruct (Z.ltb_spec c 128); [rewrite in_range_spec|]; intuition lia.
Qed.

Lemma isdigit_spec c : Schemas.isdigit c = true <-> decimal_digit c.
Proof.
  unfold Schemas.isdigit, decimal_digit.
  destruct (Z.ltb_spec c 128); [rewrite in_range_spec|]; intuition lia.
Qed.

Lemma any_contains p (P : Z -> Prop) v :
  (forall c, p c = true <-> P c) ->
  Schemas.any p v = true <-> contains P v.
Proof.
  intros Hp. unfold Schemas.any, contains. rewrite existsb_exists.
  split; intros (c & Hin & Hc); exists c; split; try assumption;
    by apply Hp.
Qed.

Lemma len_characters v : Schemas.len v = Z.of_nat (characters v).
Proof. reflexivity. Qed.

Lemma validate_password_Ok v r :
  Schemas.validate_password v = Ok r ->
  r = v /\ (Schemas.len v <? 8) = false /\ Schemas.any Schemas.isupper v = true
  /\ Schemas.any Schemas.islower v = true /\ Schemas.any Schemas.isdigit v = true.
Proof.
  unfold Schemas.validate_password.
  destruct (Schemas.len v <? 8); [discriminate|].
  destruct (Schemas.any Schemas.isupper v); [|discriminate].
  destruct (Schemas.any Schemas.islower v); [|discriminate].
  destruct (Schemas.any Schemas.isdigit v); [|discriminate].
  simpl. intros [= <-]. auto.
Qed.

Lemma validate_password_accepts v :
  Schemas.validate_password v = Ok v <-> meets_policy v.
Proof.
  unfold meets_policy.
  rewrite <- (any_contains Schemas.isupper uppercase_letter)
    by apply isupper_spec.
  rewrite <- (any_contains Schemas.islower lowercase_letter)
    by apply islower_spec.
  rewrite <- (any_contains Schemas.isdigit decimal_digit)
    by apply isdigit_spec.
  split.
  - intros (_ & Hl & Hu & Hw & Hd)%validate_password_Ok.
    repeat split; try assumption.
    apply Z.ltb_ge in Hl. rewrite len_characters in Hl. lia.
  - intros (Hl & Hu & Hw & Hd). unfold Schemas.validate_password.
    rewrite Hu, Hw, Hd. simpl.
    destruct (Z.ltb_spec (Schemas.len v) 8) as [Hlt|]; [|reflexivity].
    rewrite len_characters in Hlt. lia.
Qed.

End PasswordPolicy.

(** C7. The password validator accepts "Abcdefg1", rejects "abcdefgh" (no
    uppercase letter) and "short1A" (seven characters); it returns its
    argument unchanged when it accepts, and it accepts exactly the passwords
    of at least 8 characters that contain an uppercase letter, a lowercase
    letter and a digit.  Characters are code points, and the letters and
    digits are those of [str.isupper], [str.islower] and [str.isdigit]. *)
Theorem password_policy `{UnicodeData} :
  Schemas.validate_password "Abcdefg1" = Ok "Abcdefg1"
  /\ Schemas.validate_password "abcdefgh"
     = Raise (Schemas.ValueError
                "Password must contain at least one uppercase letter")
  /\ Schemas.validate_password "short1A"
     = Raise (Schemas.ValueError "Password must be at least 8 characters long")
  /\ (forall v r, Schemas.validate_password v = Ok r -> r = v)
  /\ (forall v, Schemas.validate_password v = Ok v <-> meets_policy v).
Proof.
  split; [reflexivity|]. split; [reflexivity|]. split; [reflexivity|].
  split.
  - intros v r Hr. by apply validate_password_Ok in Hr as [-> _].
  - exact validate_password_accepts.
Qed.

(** Beyond ASCII, with the properties of the Latin-1 code points: the
    eight characters of "Ébcdefg1" are accepted, É being an uppercase
    letter, and the seven characters of "Abcdé1x" are too few, although
    their encoding has eight bytes. *)
Lemma password_policy_counts_characters :
  @Schemas.validate_password latin1_data "Ébcdefg1" = Ok "Ébcdefg1"
  /\ @Schemas.validate_password latin1_data "Abcdé1x"
     = Raise (Schemas.ValueError "Password must be at least 8 characters long")
  /\ String.length "Abcdé1x" = 8%nat.
Proof. repeat split. Qed.

(** ** Login *)

Section LoginProperties.
Context `{Settings} `{Primitives}.

Import Session Orm Schemas.

Lemma select_users_run (p : User.t -> bool) s :
  select_users p s = (Ok (filter (λ u, p u = true) (users (working s))), s).
Proof. reflexivity. Qed.

Lemma select_by_username name s :
  select_users (λ u, String.eqb (User.username u) name) s
  = (Ok (users_named name s), s).
Proof.
  rewrite select_users_run. unfold users_named. f_equal. f_equal.
  apply list_filter_iff. intros u. apply String.eqb_eq.
Qed.

Lemma login_fails now request login_data s :
  login_failure s login_data ->
  Auth.login now request login_data s
  = (Raise incorrect_username_or_password, s).
Proof.
  intros Hf. unfold Auth.login.
  unfold mbind, session_bind, Session.bind.
  rewrite select_by_username.
  destruct Hf as [Hn|u Hn Hi|u Hn Hi Hp]; rewrite Hn; simpl.
  - reflexivity.
  - rewrite Hi. reflexivity.
  - rewrite Hi. simpl. unfold lift. rewrite Hp. reflexivity.
Qed.

End LoginProperties.

(** C4, as stated, fails.  [login] calls [verify_password] outside any
    [try], and [verify_password] raises for a stored digest it cannot check
    (C8).  On a store that holds an active account with such a digest, an
    attempt under that name does not answer 401: the exception of the
    password library escapes, while an attempt under a name nobody has
    answers the generic 401.  The two failing attempts are told apart. *)
Lemma login_failure_reveals_unverifiable_account :
  @Auth.login default_settings reference_primitives 1000 browser
    (Schemas.LoginRequest.mk "legacy" "guess") (Session.open legacy_db)
  = (Raise (PyExc "UnknownHashError" "hash could not be identified"),
     Session.open legacy_db)
  /\ @Auth.login default_settings reference_primitives 1000 browser
       (Schemas.LoginRequest.mk "mallory" "guess") (Session.open legacy_db)
     = (Raise (HTTPException 401 "Incorrect username or password" []),
        Session.open legacy_db).
Proof. split; reflexivity. Qed.

(** C4, amended. A login attempt that fails because the username is
    unknown, the account is inactive, or the password library compares the
    password with the stored digest and finds it wrong, raises the same
    HTTPException: status 401, detail "Incorrect username or password", no
    headers; it leaves the session as it was (no audit row), so any number
    of attempts in a row return the same response.  An attempt in which the
    comparison itself raises is not among them. *)
Theorem login_failures_indistinguishable `{Settings} `{Primitives}
        (now : Z) (request : Request.t)
        (login_data : Schemas.LoginRequest.t) (s : Session.t) :
  login_failure s login_data ->
  Auth.login now request login_data s
  = (Raise (HTTPException 401 "Incorrect username or password" []), s)
  /\ forall n,
       login_attempts n now request login_data s
       = (repeat (Raise (HTTPException 401 "Incorrect username or password" [])) n, s).
Proof.
  intros Hf. split; [by apply login_fails|].
  induction n as [|n IH]; simpl; [reflexivity|].
  rewrite (login_fails _ _ _ _ Hf), IH. reflexivity.
Qed.

(** Three attempts for alice with a wrong password, one for an unknown name
    and one for the deactivated bob with his right password. *)
Lemma login_failures_indistinguishable_witness :
  @login_attempts default_settings reference_primitives 3 1000 browser
     (Schemas.LoginRequest.mk "alice" "guess") (Session.open sample_db)
  = (repeat (Raise (HTTPException 401 "Incorrect username or password" [])) 3,
     Session.open sample_db)
  /\ @Auth.login default_settings reference_primitives 1000 browser
       (Schemas.LoginRequest.mk "mallory" "guess") (Session.open sample_db)
     = (Raise (HTTPException 401 "Incorrect username or password" []),
        Session.open sample_db)
  /\ @Auth.login default_settings reference_primitives 1000 browser
       (Schemas.LoginRequest.mk "bob" "Bob-pw-1") (Session.open sample_db)
     = (Raise (HTTPException 401 "Incorrect username or password" []),
        Session.open sample_db).
Proof.
  split; [|split].
  - apply (@login_failures_indistinguishable default_settings
             reference_primitives 1000 browser
             (Schemas.LoginRequest.mk "alice" "guess") (Session.open sample_db)).
    apply (wrong_password _ _ alice); reflexivity.
  - apply (@login_failures_indistinguishable default_settings
             reference_primitives 1000 browser
             (Schemas.LoginRequest.mk "mallory" "guess") (Session.open sample_db)).
    apply unknown_username; reflexivity.
  - apply (@login_failures_indistinguishable default_settings
             reference_primitives 1000 browser
             (Schemas.LoginRequest.mk "bob" "Bob-pw-1") (Session.open sample_db)).
    apply (inactive_account _ _ bob); reflexivity.
Defined.

Section AuditProperties.

Import Session Orm.

Lemma refresh_audit_log_appended (k : Z) (l : list AuditLog.t) (a : AuditLog.t) :
  AuditLog.id a = k ->
  exists (r : AuditLog.t) rest,
    filter (λ x, (AuditLog.id x =? k) = true) (l ++ [a])%list = r :: rest
    /\ AuditLog.id r = k /\ r ∈ (l ++ [a])%list.
Proof.
  intros Hk.
  destruct (filter (λ x, (AuditLog.id x =? k) = true) (l ++ [a])%list)
    as [|r rest] eqn:E.
  - exfalso.
    assert (Hin : a ∈ filter (λ x, (AuditLog.id x =? k) = true) (l ++ [a])%list).
    { apply list_elem_of_filter. split; [by apply Z.eqb_eq|].
      apply elem_of_app. right. by apply list_elem_of_singleton. }
    rewrite E in Hin. by apply not_elem_of_nil in Hin.
  - exists r, rest. split; [reflexivity|].
    assert (Hin : r ∈ filter (λ x, (AuditLog.id x =? k) = true) (l ++ [a])%list).
    { rewrite E. apply list_elem_of_here. }
    apply list_elem_of_filter in Hin as [Hid Hin].
    split; [by apply Z.eqb_eq|]. exact Hin.
Qed.

Lemma log_action_run now uid act tbl rid ov nv ip ua s :
  let a := AuditLog.mk (audit_logs_seq (working s) + 1) uid act tbl rid ov nv
                       ip ua now in
  exists r,
    AuditService.log_action now uid act tbl rid ov nv ip ua s
    = (Ok r, committed s (append_audit (working s) a)).
Proof.
  intros a.
  destruct (refresh_audit_log_appended (audit_logs_seq (working s) + 1)
              (audit_logs (working s)) a eq_refl) as (r & rest & E & _).
  exists r. unfold AuditService.log_action, add_audit_log, refresh_audit_log.
  unfold mbind, session_bind, Session.bind, get_working, set_working, commit,
    mret, session_ret, ret. simpl.
  fold a. rewrite E. reflexivity.
Qed.

Lemma log_audit_run now uid (action : ActionType) tbl rid ov nv ip ua s :
  let a := AuditLog.mk (audit_logs_seq (working s) + 1) uid
                       (ActionType_value action) tbl rid ov nv ip ua now in
  exists r,
    AuditService.log_audit now uid (ActionType_value action) tbl rid ov nv ip ua s
    = (Ok r, committed s (append_audit (working s) a)).
Proof.
  intros a.
  destruct (refresh_audit_log_appended (audit_logs_seq (working s) + 1)
              (audit_logs (working s)) a eq_refl) as (r & rest & E & _).
  exists r. unfold AuditService.log_audit, add_audit_log, refresh_audit_log.
  unfold mbind, session_bind, Session.bind, get_working, set_working, commit,
    mret, session_ret, ret, lift.
  replace (ActionType_of_value (ActionType_value action)) with (Ok action)
    by (by destruct action).
  simpl. fold a. rewrite E. reflexivity.
Qed.

End AuditProperties.

Section LoginSuccess.
Context `{Settings} `{Primitives}.

Import Session Orm Schemas.

Lemma login_data_registered_ok now u :
  registered_claims_ok now (login_data_of u) = true.
Proof.
  unfold registered_claims_ok, login_data_of, Jose.validate_iat,
    Jose.validate_nbf, Jose.validate_aud, Jose.validate_str,
    Jose.validate_at_hash, Jose.claim_int.
  rewrite !lookup_insert_ne by done. rewrite !lookup_empty.
  rewrite lookup_insert_eq. reflexivity.
Qed.

Lemma login_succeeds now request login_data s u :
  Jose.is_hmac_alg ALGORITHM = true ->
  users_named (LoginRequest.username login_data) s = [u] ->
  User.is_active u = true ->
  Security.verify_password (LoginRequest.password login_data)
                           (User.password_hash u) = Ok true ->
  exists access refresh s',
    Security.create_access_token now (login_data_of u) None = Ok access
    /\ Security.create_refresh_token now (login_data_of u) = Ok refresh
    /\ Auth.login now request login_data s
       = (Ok (Auth.LoginResponse.mk access refresh "bearer" 1800
                (list_to_map
                   [("id", JInt (User.id u));
                    ("username", JStr (User.username u));
                    ("email", JStr (User.email u));
                    ("full_name", JStr (User.full_name u));
                    ("role", JStr (role_str (User.role u)));
                    ("is_active", JBool (User.is_active u));
                    ("created_at", JInt (User.created_at u));
                    ("updated_at", JInt (User.updated_at u))])), s').
Proof.
  intros Halg Hn Hi Hp.
  unfold Auth.login, mbind, session_bind, Session.bind.
  rewrite select_by_username, Hn. simpl. rewrite Hi. simpl.
  unfold lift. rewrite Hp. simpl. fold (login_data_of u).
  unfold Security.create_access_token, Security.create_refresh_token,
    Jose.encode. rewrite Halg.
  match goal with
  | |- context [AuditService.log_action ?n ?a ?b ?c ?d ?e ?f ?g ?h s] =>
      destruct (log_action_run n a b c d e f g h s) as [r ->]
  end.
  eexists _, _, _. split; [reflexivity|]. split; [reflexivity|]. reflexivity.
Qed.

End LoginSuccess.

(** C5. Under the default lifetimes (30 minutes, 7 days) and a shared-secret
    algorithm, a login with the username of exactly one user, who is active
    and whose stored digest matches the password, succeeds: the response
    carries [expires_in = 1800] and token type "bearer"; its access token
    verifies as "access" at every instant up to 1800 seconds after the
    login and no longer, its refresh token verifies as "refresh" up to
    604800 seconds (7 days) after the login and no longer, and both name the
    user as subject. *)
Theorem login_issues_tokens `{Settings} `{Primitives}
        (now : Z) (request : Request.t)
        (login_data : Schemas.LoginRequest.t) (s : Session.t) (u : User.t) :
  ACCESS_TOKEN_EXPIRE_MINUTES = 30 ->
  REFRESH_TOKEN_EXPIRE_DAYS = 7 ->
  Jose.is_hmac_alg ALGORITHM = true ->
  users_named (Schemas.LoginRequest.username login_data) s = [u] ->
  User.is_active u = true ->
  Security.verify_password (Schemas.LoginRequest.password login_data)
                           (User.password_hash u) = Ok true ->
  exists resp s',
    Auth.login now request login_data s = (Ok resp, s')
    /\ Auth.LoginResponse.expires_in resp = 1800
    /\ Auth.LoginResponse.token_type resp = "bearer"
    /\ (forall later, later <= now + 1800 ->
          exists payload,
            Security.verify_token later (Auth.LoginResponse.access_token resp)
                                  "access" = Some payload
            /\ payload !! "exp" = Some (JInt (now + 1800))
            /\ payload !! "sub" = Some (JStr (Py.str_of_int (User.id u))))
    /\ (forall later ty, now + 1800 < later ->
          Security.verify_token later (Auth.LoginResponse.access_token resp) ty
          = None)
    /\ (forall later, later <= now + 604800 ->
          exists payload,
            Security.verify_token later (Auth.LoginResponse.refresh_token resp)
                                  "refresh" = Some payload
            /\ payload !! "exp" = Some (JInt (now + 604800))
            /\ payload !! "sub" = Some (JStr (Py.str_of_int (User.id u))))
    /\ (forall later ty, now + 604800 < later ->
          Security.verify_token later (Auth.LoginResponse.refresh_token resp) ty
          = None).
Proof.
  intros Ha Hr Halg Hn Hi Hp.
  destruct (login_succeeds now request login_data s u Halg Hn Hi Hp)
    as (access & refresh & s' & Eacc & Eref & Elogin).
  exists (Auth.LoginResponse.mk access refresh "bearer" 1800
            (list_to_map
               [("id", JInt (User.id u));
                ("username", JStr (User.username u));
                ("email", JStr (User.email u));
                ("full_name", JStr (User.full_name u));
                ("role", JStr (role_str (User.role u)));
                ("is_active", JBool (User.is_active u));
                ("created_at", JInt (User.created_at u));
                ("updated_at", JInt (User.updated_at u))])), s'.
  split; [exact Elogin|]. split; [reflexivity|]. split; [reflexivity|].
  simpl.
  assert (Hsub : forall (ty : string) (e : Z),
             (<["type" := JStr ty]> (<["exp" := JInt e]> (login_data_of u)))
               !! "sub" = Some (JStr (Py.str_of_int (User.id u)))).
  { intros ty e. rewrite !lookup_insert_ne by done. unfold login_data_of.
    rewrite lookup_insert_ne by done. by rewrite lookup_insert_eq. }
  assert (Hexp : forall (ty : string) (e : Z),
             (<["type" := JStr ty]> (<["exp" := JInt e]> (login_data_of u)))
               !! "exp" = Some (JInt e)).
  { intros ty e. rewrite lookup_insert_ne by done. by rewrite lookup_insert_eq. }
  repeat split.
  - intros later Hl.
    apply encode_Ok in Eacc as [-> _].
    exists (<["type" := JStr "access"]>
              (<["exp" := JInt (now + ACCESS_TOKEN_EXPIRE_MINUTES * 60)]>
                 (login_data_of u))).
    split; [apply verify_issued; [done|apply login_data_registered_ok|lia]|].
    rewrite Hexp, Hsub, Ha. split; [do 2 f_equal; lia|done].
  - intros later ty Hl.
    apply encode_Ok in Eacc as [-> _].
    eapply verify_token_expired; [apply Hexp|reflexivity|lia].
  - intros later Hl.
    apply encode_Ok in Eref as [-> _].
    exists (<["type" := JStr "refresh"]>
              (<["exp" := JInt (now + REFRESH_TOKEN_EXPIRE_DAYS * 86400)]>
                 (login_data_of u))).
    split; [apply verify_issued; [done|apply login_data_registered_ok|lia]|].
    rewrite Hexp, Hsub, Hr. split; [do 2 f_equal; lia|done].
  - intros later ty Hl.
    apply encode_Ok in Eref as [-> _].
    eapply verify_token_expired; [apply Hexp|reflexivity|lia].
Qed.

(** Alice logs in with her password at instant 1000 under the default
    settings. *)
Lemma login_issues_tokens_witness :
  exists resp s',
    @Auth.login default_settings reference_primitives 1000 browser
       (Schemas.LoginRequest.mk "alice" "Alice-pw-1") (Session.open sample_db)
    = (Ok resp, s')
    /\ Auth.LoginResponse.expires_in resp = 1800
    /\ @Security.verify_token default_settings reference_primitives 2800
         (Auth.LoginResponse.access_token resp) "access"
       = Some (<["type" := JStr "access"]>
                 (<["exp" := JInt 2800]> (login_data_of alice)))
    /\ @Security.verify_token default_settings reference_primitives 2801
         (Auth.LoginResponse.access_token resp) "access" = None
    /\ @Security.verify_token default_settings reference_primitives 605800
         (Auth.LoginResponse.refresh_token resp) "refresh"
       = Some (<["type" := JStr "refresh"]>
                 (<["exp" := JInt 605800]> (login_data_of alice))).
Proof.
  destruct (@login_issues_tokens default_settings reference_primitives 1000
              browser (Schemas.LoginRequest.mk "alice" "Alice-pw-1")
              (Session.open sample_db) alice)
    as (resp & s' & E & Hexp & _ & _ & Hlate & _);
    [reflexivity|reflexivity|reflexivity|reflexivity|reflexivity|reflexivity|].
  exists resp, s'. split; [exact E|]. split; [exact Hexp|].
  vm_compute in E. injection E as <- _.
  split; [vm_compute; reflexivity|].
  split; [apply Hlate; lia|].
  vm_compute. reflexivity.
Defined.

(** ** The two [get_current_user] dependencies *)

Section CurrentUser.
Context `{Settings} `{Primitives}.

Import Session Orm.

Lemma int_raises v e :
  Py.int v = Raise e ->
  e = PyExc "ValueError" "invalid literal for int() with base 10".
Proof.
  destruct v as [str|z|b]; simpl; try discriminate.
  destruct (Py.int_of_str str); [discriminate|]. by intros [= <-].
Qed.

Lemma get_current_user_cases now credentials s :
  exists r1 r2,
    Security.get_current_user now credentials s = (r1, s)
    /\ Auth.get_current_user now credentials s = (r2, s)
    /\ lookup_case now credentials s r1 r2.
Proof.
  unfold Security.get_current_user, Auth.get_current_user, try_except.
  destruct (Security.verify_token now credentials "access") as [payload|] eqn:Ev.
  2:{ eexists _, _. split; [reflexivity|]. split; [reflexivity|].
      by apply bad_token. }
  destruct (payload !! "sub") as [v|] eqn:Es.
  2:{ eexists _, _. split; [reflexivity|]. split; [reflexivity|].
      by eapply no_subject. }
  unfold mbind, session_bind, Session.bind, try_except, lift.
  destruct (Py.int v) as [k|e] eqn:Ei.
  2:{ rewrite (int_raises v e Ei). simpl.
      eexists _, _. split; [reflexivity|]. split; [reflexivity|].
      rewrite <- (int_raises v e Ei). by eapply subject_not_a_number. }
  rewrite !select_users_run. fold (users_with_id k s).
  destruct (users_with_id k s) as [|u [|u2 rest]] eqn:Eu; simpl.
  - eexists _, _. split; [reflexivity|]. split; [reflexivity|].
    by eapply no_such_user.
  - destruct (User.is_active u) eqn:Ea; simpl.
    + eexists _, _. split; [reflexivity|]. split; [reflexivity|].
      by eapply active_user.
    + eexists _, _. split; [reflexivity|]. split; [reflexivity|].
      by eapply inactive_user.
  - eexists _, _. split; [reflexivity|]. split; [reflexivity|].
    by eapply several_users.
Qed.

End CurrentUser.

(** C10, as stated, fails: for the deactivated user bob presenting a valid
    access token, the dependency in app/core/security.py answers 401 "Could
    not validate credentials" (with a WWW-Authenticate header) while the one
    in app/routers/auth.py answers 401 "User not found or inactive"; for a
    validly signed token whose subject is "abc", the first answers the same
    401 and the second lets the ValueError of [int] escape. *)
Lemma current_user_errors_differ :
  @Security.get_current_user default_settings reference_primitives 1000
     (sample_token bob) (Session.open sample_db)
  = (Raise (HTTPException 401 "Could not validate credentials"
                          [("WWW-Authenticate", "Bearer")]),
     Session.open sample_db)
  /\ @Auth.get_current_user default_settings reference_primitives 1000
       (sample_token bob) (Session.open sample_db)
     = (Raise (HTTPException 401 "User not found or inactive" []),
        Session.open sample_db)
  /\ (let c : gmap string jvalue :=
        <["type" := JStr "access"]>
          (<["exp" := JInt 2700]> (<["sub" := JStr "abc"]> ∅)) in
      let t := Jose.Jws "HS256" c
                 (@hmac reference_primitives "HS256"
                        (@SECRET_KEY default_settings) c) in
      @Security.get_current_user default_settings reference_primitives 1000 t
         (Session.open sample_db)
      = (Raise (HTTPException 401 "Could not validate credentials"
                              [("WWW-Authenticate", "Bearer")]),
         Session.open sample_db)
      /\ @Auth.get_current_user default_settings reference_primitives 1000 t
           (Session.open sample_db)
         = (Raise (PyExc "ValueError" "invalid literal for int() with base 10"),
            Session.open sample_db)).
Proof. repeat split; vm_compute; reflexivity. Qed.

(** C10, amended. The two [get_current_user] dependencies accept exactly the
    same bearer credentials in every database state and return the same user
    when they accept; neither changes the session; and when one fails so
    does the other, the one in app/core/security.py always with 401 "Could
    not validate credentials", the one in app/routers/auth.py with 401
    "Invalid or expired token" for a token that does not verify as an access
    token, 401 "Invalid token payload" for a verified token without subject
    and 401 "User not found or inactive" when the subject's row is missing or
    inactive. *)
Theorem current_user_dependencies_agree_on_success `{Settings} `{Primitives}
        (now : Z) (credentials : Jose.token) (s : Session.t) :
  (forall u,
      Security.get_current_user now credentials s = (Ok u, s)
      <-> Auth.get_current_user now credentials s = (Ok u, s))
  /\ snd (Security.get_current_user now credentials s) = s
  /\ snd (Auth.get_current_user now credentials s) = s
  /\ (forall e,
         fst (Security.get_current_user now credentials s) = Raise e ->
         e = Security.credentials_exception)
  /\ (forall e,
         fst (Auth.get_current_user now credentials s) = Raise e ->
         fst (Security.get_current_user now credentials s)
         = Raise Security.credentials_exception)
  /\ (Security.verify_token now credentials "access" = None ->
      fst (Auth.get_current_user now credentials s)
      = Raise (HTTPException 401 "Invalid or expired token"
                             [("WWW-Authenticate", "Bearer")]))
  /\ (forall payload,
         Security.verify_token now credentials "access" = Some payload ->
         payload !! "sub" = None ->
         fst (Auth.get_current_user now credentials s)
         = Raise (HTTPException 401 "Invalid token payload" []))
  /\ (forall payload v k,
         Security.verify_token now credentials "access" = Some payload ->
         payload !! "sub" = Some v -> Py.int v = Ok k ->
         users_with_id k s = []
         \/ (exists u, users_with_id k s = [u] /\ User.is_active u = false) ->
         fst (Auth.get_current_user now credentials s)
         = Raise (HTTPException 401 "User not found or inactive" [])).
Proof.
  destruct (get_current_user_cases now credentials s)
    as (r1 & r2 & E1 & E2 & Hc).
  rewrite E1, E2. simpl.
  split; [|split; [reflexivity|split; [reflexivity|]]].
  { intros u. destruct Hc; split; intros [= <-]; reflexivity || discriminate. }
  split. { intros e. destruct Hc; intros [= <-]; reflexivity. }
  split. { intros e. destruct Hc; intros [= <-]; reflexivity. }
  split. { intros Hv. destruct Hc; congruence. }
  split. { intros payload Hv Hs. destruct Hc; congruence. }
  intros payload v k Hv Hs Hi Hrows.
  destruct Hc as [?|? ? ?|? ? ? ? ? ?|? ? ? ? ? ? ?|? ? ? ? ? ? ? ? ? ?
                 |? ? ? ? ? ? ? ? ?|? ? ? ? ? ? ? ? ?];
    try congruence; try reflexivity.
  - assert (k0 = k) as -> by congruence.
    destruct Hrows as [Hr|(u & Hr & _)]; congruence.
  - assert (k0 = k) as -> by congruence.
    destruct Hrows as [Hr|(u' & Hr & Ha)]; [congruence|].
    assert (u' = u) as -> by congruence. congruence.
Qed.

(** Alice's valid access token is accepted by both dependencies, which
    return her row. *)
Lemma current_user_dependencies_agree_witness :
  @Security.get_current_user default_settings reference_primitives 1000
     (sample_token alice) (Session.open sample_db)
  = (Ok alice, Session.open sample_db)
  /\ @Auth.get_current_user default_settings reference_primitives 1000
       (sample_token alice) (Session.open sample_db)
     = (Ok alice, Session.open sample_db).
Proof.
  assert (E : @Security.get_current_user default_settings reference_primitives
                1000 (sample_token alice) (Session.open sample_db)
              = (Ok alice, Session.open sample_db))
    by (vm_compute; reflexivity).
  split; [exact E|].
  apply (@current_user_dependencies_agree_on_success default_settings
           reference_primitives 1000 (sample_token alice)
           (Session.open sample_db)).
  exact E.
Defined.

(** ** Self-deletion *)

(** C6, as stated, fails: the administrator with id 1 who asks to delete
    user 1 gets an HTTPException of status 400 (a validation error), not
    403; nothing is written. *)
Lemma self_deletion_is_a_bad_request :
  @Endpoints.serve default_settings reference_primitives
     (Endpoints.DeleteUser 1 browser) 1000 (sample_token root_user) sample_db
  = (Raise (HTTPException 400 "Cannot delete your own account" []),
     Session.open sample_db).
Proof. vm_compute. reflexivity. Qed.

Section SelfDeletion.
Context `{Settings} `{Primitives}.

Import Session.

Lemma delete_own_account now request current_user s :
  Users.delete_user now (User.id current_user) request current_user s
  = (Raise (HTTPException 400 "Cannot delete your own account" []), s).
Proof.
  unfold Users.delete_user, try_except. rewrite Z.eqb_refl. reflexivity.
Qed.

End SelfDeletion.

(** C6, amended. When an administrator asks to delete the user with the
    administrator's own id, [delete_user] raises an HTTPException of status
    400 (the validation-error class, not 403) with detail "Cannot delete
    your own account"; the session it leaves is the session it found: no
    commit, no audit row, no change to any table.  This holds of the handler
    for every caller, and of the whole route once the dependencies have
    admitted the caller. *)
Theorem self_deletion_rejected `{Settings} `{Primitives}
        (now : Z) (request : Request.t) (admin : User.t) :
  (forall s,
      Users.delete_user now (User.id admin) request admin s
      = (Raise (HTTPException 400 "Cannot delete your own account" []), s))
  /\ (forall credentials db,
         Endpoints.authenticate (Endpoints.DeleteUser (User.id admin) request)
           now credentials (Session.open db) = (Ok admin, Session.open db) ->
         Endpoints.serve (Endpoints.DeleteUser (User.id admin) request)
           now credentials db
         = (Raise (HTTPException 400 "Cannot delete your own account" []),
            Session.open db)).
Proof.
  split.
  - intros s. apply delete_own_account.
  - intros credentials db Hauth. unfold Endpoints.serve.
    unfold mbind at 1. unfold session_bind, Session.bind.
    rewrite Hauth. simpl. unfold mbind, session_bind, Session.bind.
    rewrite delete_own_account. reflexivity.
Qed.

(** The administrator root (id 1) asks to delete user 1. *)
Lemma self_deletion_rejected_witness :
  @Endpoints.serve default_settings reference_primitives
     (Endpoints.DeleteUser (User.id root_user) browser) 1000
     (sample_token root_user) sample_db
  = (Raise (HTTPException 400 "Cannot delete your own account" []),
     Session.open sample_db).
Proof.
  apply (@self_deletion_rejected default_settings reference_primitives 1000
           browser root_user).
  vm_compute. reflexivity.
Defined.

(** ** Every committed mutation is audited once *)

Section SessionSteps.

Import Session Orm.

Lemma bind_Ok {A B} (m : M A) (k : A -> M B) s b s' :
  (m ≫= k) s = (Ok b, s') ->
  exists a s1, m s = (Ok a, s1) /\ k a s1 = (Ok b, s').
Proof.
  unfold mbind, session_bind, Session.bind.
  destruct (m s) as [[a|e] s1]; [eauto|discriminate].
Qed.

Lemma try_except_Ok {A} (body : M A) (handler : exn -> M A) s a s' :
  (forall e s1, exists e' s2, handler e s1 = (Raise e', s2)) ->
  try_except body handler s = (Ok a, s') -> body s = (Ok a, s').
Proof.
  intros Hh. unfold try_except.
  destruct (body s) as [[a0|e] s1]; [done|].
  destruct (Hh e s1) as (e' & s2 & ->). discriminate.
Qed.

Lemma users_on_error_raises {A} prefix e s :
  exists e' s2, @Users.on_error A prefix e s = (Raise e', s2).
Proof. destruct e; simpl; eauto. Qed.

Lemma transactions_on_error_raises {A} detail e s :
  exists e' s2, @Transactions.on_error A detail e s = (Raise e', s2).
Proof. destruct e; simpl; eauto. Qed.

Lemma fail_500_raises {A} detail e s :
  exists e' s2, @Transactions.fail_500 A detail e s = (Raise e', s2).
Proof. simpl; eauto. Qed.

Lemma select_users_Ok p s rows s1 :
  select_users p s = (Ok rows, s1) ->
  rows = filter (λ u, p u = true) (users (working s)) /\ s1 = s.
Proof. rewrite select_users_run. by intros [= <- <-]. Qed.

Lemma select_records_Ok p s rows s1 :
  select_records p s = (Ok rows, s1) ->
  rows = filter (λ r, p r = true) (financial_records (working s)) /\ s1 = s.
Proof. unfold select_records. simpl. by intros [= <- <-]. Qed.

Lemma scalar_one_or_none_Ok {A} (rows : list A) s o s1 :
  scalar_one_or_none rows s = (Ok o, s1) ->
  s1 = s /\ (rows = [] /\ o = None \/ exists x, rows = [x] /\ o = Some x).
Proof.
  destruct rows as [|x [|y rest]]; simpl; intros [= <- <-]; eauto.
Qed.

Lemma scalar_one_Ok {A} (rows : list A) s x s1 :
  scalar_one rows s = (Ok x, s1) -> s1 = s /\ rows = [x].
Proof.
  destruct rows as [|y [|z rest]]; simpl; intros [= <- <-]; eauto.
Qed.

Lemma lift_Ok {A} (r : result A) s a s1 :
  lift r s = (Ok a, s1) -> r = Ok a /\ s1 = s.
Proof. unfold lift. by intros [= -> <-]. Qed.

Lemma store_user_run u s :
  store_user u s
  = (Ok tt, with_working s (put_users (working s)
                                      (replace_user u (users (working s))))).
Proof. reflexivity. Qed.

Lemma store_record_run x s :
  store_record x s
  = (Ok tt, with_working s (put_records (working s)
                              (replace_record x (financial_records (working s))))).
Proof. reflexivity. Qed.

Lemma commit_run s : commit s = (Ok tt, committed s (working s)).
Proof. reflexivity. Qed.

Lemma refresh_user_Ok k s u s1 :
  refresh_user k s = (Ok u, s1) ->
  s1 = s
  /\ exists row rest,
       filter (λ x, (User.id x =? k) = true) (users (working s)) = row :: rest
       /\ u = reloaded row.
Proof.
  unfold refresh_user, mbind, session_bind, Session.bind, get_working.
  destruct (filter _ _) as [|x rest]; simpl; [discriminate|].
  intros [= <- <-]. eauto.
Qed.

Lemma refresh_record_Ok k s r s1 :
  refresh_record k s = (Ok r, s1) ->
  s1 = s
  /\ exists rest,
       filter (λ x, (FinancialRecord.id x =? k) = true)
              (financial_records (working s)) = r :: rest.
Proof.
  unfold refresh_record, mbind, session_bind, Session.bind, get_working.
  destruct (filter _ _) as [|x rest]; simpl; [discriminate|].
  intros [= <- <-]. eauto.
Qed.

Lemma log_action_Ok now uid act tbl rid ov nv ip ua s r s1 :
  AuditService.log_action now uid act tbl rid ov nv ip ua s = (Ok r, s1) ->
  s1 = committed s
         (append_audit (working s)
            (AuditLog.mk (audit_logs_seq (working s) + 1) uid act tbl rid ov
                         nv ip ua now)).
Proof.
  destruct (log_action_run now uid act tbl rid ov nv ip ua s) as [r' ->].
  by intros [= _ <-].
Qed.

Lemma log_audit_Ok now uid act tbl rid ov nv ip ua s r s1 :
  AuditService.log_audit now uid act tbl rid ov nv ip ua s = (Ok r, s1) ->
  exists action,
    act = ActionType_value action
    /\ s1 = committed s
              (append_audit (working s)
                 (AuditLog.mk (audit_logs_seq (working s) + 1) uid act tbl rid
                              ov nv ip ua now)).
Proof.
  intros E.
  assert (exists action, act = ActionType_value action) as [action ->].
  { unfold AuditService.log_audit in E. apply bind_Ok in E as (a & s2 & E & _).
    apply lift_Ok in E as [E _]. exists a.
    unfold ActionType_of_value in E.
    repeat match type of E with
           | context [String.eqb act ?x] =>
               destruct (String.eqb_spec act x) as [->|];
               [injection E as <-; reflexivity|]
           end.
    discriminate. }
  exists action. split; [reflexivity|].
  destruct (log_audit_run now uid action tbl rid ov nv ip ua s) as [r' Hr].
  rewrite Hr in E. by injection E as _ <-.
Qed.

End SessionSteps.

Section HandlerSteps.
Context `{Settings} `{Primitives}.

Import Session Orm.

Lemma replace_user_elem u rows y :
  y ∈ replace_user u rows -> User.id y = User.id u -> y = u.
Proof.
  unfold replace_user. intros (r & -> & Hin)%list_elem_of_fmap.
  destruct (Z.eqb_spec (User.id r) (User.id u)); [done|]. intros E. done.
Qed.

Lemma filter_head_elem {A} (P : A -> Prop) `{!∀ x, Decision (P x)}
      (l : list A) x rest :
  filter P l = x :: rest -> x ∈ l /\ P x.
Proof.
  intros E. assert (Hin : x ∈ filter P l) by (rewrite E; apply list_elem_of_here).
  apply list_elem_of_filter in Hin. tauto.
Qed.

End HandlerSteps.

Section UsersAudit.
Context `{Settings} `{Primitives}.

Import Session Orm Schemas.

Lemma update_user_fails now salt user_id user_data request current_user s r s' :
  Users.update_user now salt user_id user_data request current_user s
  = (r, s') -> exists e, r = Raise e.
Proof.
  destruct r as [resp|e]; [|eauto]. intros E. exfalso.
  unfold Users.update_user in E.
  apply try_except_Ok in E; [|apply users_on_error_raises].
  apply bind_Ok in E as (rows & s1 & E1 & E).
  apply select_users_Ok in E1 as [-> ->].
  apply bind_Ok in E as (user & s1 & E1 & E).
  apply scalar_one_or_none_Ok in E1 as [-> [[_ ->]|(u & _ & ->)]];
    [discriminate|].
  apply bind_Ok in E as ([] & s1 & _ & E).
  apply bind_Ok in E as (old_role & s2 & _ & E).
  apply bind_Ok in E as ([] & s3 & _ & E).
  apply bind_Ok in E as (password & s4 & E1 & E).
  apply lift_Ok in E1 as [E1 _]. discriminate.
Qed.

End UsersAudit.

Section AuthAudit.
Context `{Settings} `{Primitives}.

Import Session Orm Schemas.

Lemma committed_twice s0 s db1 db2 :
  commits s0 = commits s ->
  committed (committed s0 db1) db2 = committed (committed s db1) db2.
Proof. unfold committed. simpl. by intros ->. Qed.

Lemma change_password_audited now salt request password_data current_user s m s' :
  Auth.change_password now salt request password_data current_user s
  = (Ok m, s') ->
  audited_once s s' (User.id current_user) UPDATE "users"
    (User.id current_user)
    (password_rotated
       (Security.get_password_hash salt
          (PasswordChangeRequest.new_password password_data))
       (User.id current_user)).
Proof.
  unfold Auth.change_password. intros E.
  apply bind_Ok in E as (ok & s1 & E1 & E). apply lift_Ok in E1 as [_ ->].
  destruct (negb ok); [discriminate|].
  apply bind_Ok in E as ([] & s1 & E1 & E).
  rewrite store_user_run in E1. injection E1 as <-.
  apply bind_Ok in E as ([] & s2 & E1 & E).
  rewrite commit_run in E1. injection E1 as <-.
  apply bind_Ok in E as (cu & s3 & E1 & E).
  apply refresh_user_Ok in E1 as [-> (row & rest & Hrows & ->)].
  apply filter_head_elem in Hrows as [Hin Hid]. apply Z.eqb_eq in Hid.
  simpl in Hin, Hid.
  assert (row = Auth.set_password_hash current_user
                  (Security.get_password_hash salt
                     (PasswordChangeRequest.new_password password_data)) now)
    as -> by (by apply (replace_user_elem _ _ _ Hin)).
  apply bind_Ok in E as (a & s3 & E1 & E). apply log_action_Ok in E1 as ->.
  injection E as _ <-.
  eexists _, _, _. split; [reflexivity|].
  repeat split; simpl; try reflexivity.
  eexists. split; [exact Hin|]. by split.
Qed.

Lemma profile_values_subseteq u : Auth.profile_values u ⊆ user_snapshot u.
Proof.
  unfold Auth.profile_values, user_snapshot, Users.user_values. simpl.
  do 3 apply insert_mono. apply map_empty_subseteq.
Qed.

Lemma update_profile_audited now request profile_data current_user s resp s' :
  Auth.update_profile now request profile_data current_user s = (Ok resp, s') ->
  audited_once s s' (User.id current_user) UPDATE "users"
    (User.id current_user) (user_reflected (User.id current_user)).
Proof.
  unfold Auth.update_profile. intros E.
  apply bind_Ok in E as (cu1 & s1 & E1 & E).
  assert (H1 : profile_step_ok current_user s cu1 s1).
  { destruct (UserUpdate.username profile_data) as [name|].
    - apply bind_Ok in E1 as (rows & s0 & E0 & E1).
      apply select_users_Ok in E0 as [-> ->].
      apply bind_Ok in E1 as (ex & s0 & E0 & E1).
      apply scalar_one_or_none_Ok in E0 as [-> [[_ ->]|(u & _ & ->)]];
        [|discriminate].
      apply bind_Ok in E1 as ([] & s0 & E0 & E1).
      rewrite store_user_run in E0. injection E0 as <-.
      injection E1 as <- <-. by repeat split.
    - injection E1 as <- <-. by repeat split. }
  apply bind_Ok in E as (cu2 & s2 & E2 & E).
  assert (H2 : profile_step_ok cu1 s1 cu2 s2).
  { destruct (UserUpdate.email profile_data) as [addr|].
    - apply bind_Ok in E2 as (rows & s0 & E0 & E2).
      apply select_users_Ok in E0 as [-> ->].
      apply bind_Ok in E2 as (ex & s0 & E0 & E2).
      apply scalar_one_or_none_Ok in E0 as [-> [[_ ->]|(u & _ & ->)]];
        [|discriminate].
      apply bind_Ok in E2 as ([] & s0 & E0 & E2).
      rewrite store_user_run in E0. injection E0 as <-.
      injection E2 as <- <-. by repeat split.
    - injection E2 as <- <-. by repeat split. }
  destruct H1 as (Hid1 & Hc1 & Ha1). destruct H2 as (Hid2 & Hc2 & Ha2).
  set (cu3 := Auth.set_updated_at
                (match UserUpdate.full_name profile_data with
                 | Some v => Auth.set_full_name cu2 v
                 | None => cu2
                 end) now) in *.
  assert (Hid3 : User.id cu3 = User.id current_user).
  { unfold cu3. destruct (UserUpdate.full_name profile_data); simpl; congruence. }
  apply bind_Ok in E as ([] & s3 & E3 & E).
  rewrite store_user_run in E3. injection E3 as <-.
  apply bind_Ok in E as ([] & s4 & E4 & E).
  rewrite commit_run in E4. injection E4 as <-.
  apply bind_Ok in E as (cu4 & s5 & E5 & E).
  apply refresh_user_Ok in E5 as [-> (row & rest & Hrows & ->)].
  apply filter_head_elem in Hrows as [Hin Hid]. apply Z.eqb_eq in Hid.
  simpl in Hin, Hid.
  assert (row = cu3) as -> by (by apply (replace_user_elem _ _ _ Hin)).
  apply bind_Ok in E as (a & s5 & E5 & E). apply log_action_Ok in E5 as ->.
  apply lift_Ok in E as [_ ->].
  rewrite (committed_twice _ s) by (simpl; congruence).
  eexists _, _, _. split; [reflexivity|].
  repeat split; simpl; try reflexivity; try congruence.
  exists cu3. split; [exact Hin|]. split; [done|].
  exact (profile_values_subseteq cu3).
Qed.

End AuthAudit.

Section TransactionsAudit.
Context `{Settings} `{Primitives}.

Import Session Orm Schemas.

Lemma replace_record_elem x rows y :
  y ∈ replace_record x rows -> FinancialRecord.id y = FinancialRecord.id x ->
  y = x.
Proof.
  unfold replace_record. intros (r & -> & Hin)%list_elem_of_fmap.
  destruct (Z.eqb_spec (FinancialRecord.id r) (FinancialRecord.id x)); done.
Qed.

Lemma replace_record_present x r rows :
  r ∈ rows -> FinancialRecord.id r = FinancialRecord.id x ->
  x ∈ replace_record x rows.
Proof.
  intros Hin Hid. unfold replace_record. apply list_elem_of_fmap.
  exists r. split; [|done]. by rewrite Hid, Z.eqb_refl.
Qed.

Lemma record_response_id r owner resp :
  FinancialRecordResponse.model_validate r owner = Ok resp ->
  FinancialRecordResponse.id resp = FinancialRecord.id r.
Proof.
  unfold FinancialRecordResponse.model_validate.
  destruct (negb _); [discriminate|].
  destruct (constrained_str 1 500 _); [|discriminate].
  destruct (FinancialRecordResponse.type_of_text _); [|discriminate].
  destruct owner as [u|]; [|discriminate]. simpl.
  destruct (UserResponse.model_validate u); [|discriminate].
  simpl. by intros [= <-].
Qed.

Lemma values_subseteq_snapshot r : Transactions.values_of r ⊆ record_snapshot r.
Proof.
  unfold record_snapshot. apply insert_subseteq.
  unfold Transactions.values_of, Transactions.record_values. simpl.
  by rewrite !lookup_insert_ne, lookup_empty.
Qed.

Lemma is_deleted_subseteq r :
  FinancialRecord.is_deleted r = true ->
  (<["is_deleted" := JBool true]> ∅ : gmap string jvalue) ⊆ record_snapshot r.
Proof.
  intros Hd. unfold record_snapshot. rewrite Hd.
  apply insert_mono, map_empty_subseteq.
Qed.

Lemma created_by_user_Ok r s o s1 :
  Transactions.created_by_user r s = (Ok o, s1) -> s1 = s.
Proof.
  unfold Transactions.created_by_user. intros E.
  apply bind_Ok in E as (rows & s0 & E0 & E).
  apply select_users_Ok in E0 as [-> ->]. by injection E as _ <-.
Qed.

Lemma add_record_Ok now x s k s1 :
  add_record now x s = (Ok k, s1) ->
  k = financial_records_seq (working s) + 1
  /\ s1 = with_working s
            (Session.mkDb (users (working s))
               (financial_records (working s)
                ++ [FinancialRecord.mk k (FinancialRecord.amount x)
                      (FinancialRecord.description x)
                      (FinancialRecord.transaction_type x)
                      (FinancialRecord.created_by x) now now
                      (FinancialRecord.is_deleted x)])
               (audit_logs (working s)) (users_seq (working s)) k
               (audit_logs_seq (working s))).
Proof.
  unfold add_record, mbind, session_bind, Session.bind, get_working, set_working.
  simpl. by intros [= <- <-].
Qed.

Lemma create_transaction_audited now transaction current_user s resp s' :
  Transactions.create_transaction now transaction current_user s
  = (Ok resp, s') ->
  audited_once s s' (User.id current_user) CREATE "financial_records"
    (FinancialRecordResponse.id resp)
    (request_recorded transaction (FinancialRecordResponse.id resp)).
Proof.
  unfold Transactions.create_transaction. intros E.
  destruct (negb (Transactions.is_admin current_user)); [discriminate|].
  apply try_except_Ok in E; [|apply fail_500_raises].
  apply bind_Ok in E as (k & s1 & E1 & E).
  apply add_record_Ok in E1 as [Hk ->].
  apply bind_Ok in E as ([] & s2 & E1 & E).
  rewrite commit_run in E1. injection E1 as <-.
  apply bind_Ok in E as (r0 & s3 & E1 & E).
  apply refresh_record_Ok in E1 as [-> (rest & Hrows)].
  pose proof (filter_head_elem _ _ _ _ Hrows) as [_ Hid0].
  apply Z.eqb_eq in Hid0.
  apply bind_Ok in E as (rows & s3 & E1 & E).
  apply select_records_Ok in E1 as [-> ->].
  apply bind_Ok in E as (db_record & s3 & E1 & E).
  apply scalar_one_Ok in E1 as [-> Hone].
  rewrite Hid0 in Hone. simpl in Hone, Hrows.
  set (row := FinancialRecord.mk k (FinancialRecordCreate.amount transaction)
                (FinancialRecordCreate.description transaction)
                (TransactionType_value
                   (FinancialRecordCreate.transaction_type transaction))
                (User.id current_user) now now false) in *.
  assert (Hrow : row ∈ filter (λ r, (FinancialRecord.id r =? k) = true)
                   (financial_records (working s) ++ [row])%list).
  { apply list_elem_of_filter. split; [apply Z.eqb_refl|].
    apply elem_of_app. right. apply list_elem_of_singleton. reflexivity. }
  rewrite Hone in Hrow. apply list_elem_of_singleton in Hrow. subst db_record.
  apply bind_Ok in E as (owner & s3 & E1 & E).
  apply created_by_user_Ok in E1 as ->.
  apply bind_Ok in E as (a & s3 & E1 & E).
  apply log_audit_Ok in E1 as (action & Hact & ->).
  apply lift_Ok in E as [Hresp ->]. apply record_response_id in Hresp.
  assert (action = CREATE) as -> by (by destruct action).
  eexists _, _, _. split; [reflexivity|].
  repeat split; simpl; try reflexivity.
  - by rewrite Hresp.
  - exists row. rewrite Hresp. split; [|done].
    apply elem_of_app. right. apply list_elem_of_singleton. reflexivity.
Qed.

Lemma update_transaction_audited now record_id transaction current_user s resp s' :
  Transactions.update_transaction now record_id transaction current_user s
  = (Ok resp, s') ->
  audited_once s s' (User.id current_user) UPDATE "financial_records"
    record_id (record_reflected record_id).
Proof.
  unfold Transactions.update_transaction. intros E.
  destruct (negb (Transactions.is_admin current_user)); [discriminate|].
  apply try_except_Ok in E; [|apply transactions_on_error_raises].
  apply bind_Ok in E as (rows & s1 & E1 & E).
  apply select_records_Ok in E1 as [-> ->].
  apply bind_Ok in E as (found & s1 & E1 & E).
  apply scalar_one_or_none_Ok in E1 as [-> [[_ ->]|(r & Hrows & ->)]];
    [discriminate|].
  apply filter_head_elem in Hrows as [Hin Hid].
  apply andb_true_iff in Hid as [Hid _]. apply Z.eqb_eq in Hid.
  apply bind_Ok in E as (owner & s1 & E1 & E).
  apply created_by_user_Ok in E1 as ->.
  match type of E with
  | context [store_record ?x] => set (r' := x) in *
  end.
  assert (Hid' : FinancialRecord.id r' = record_id).
  { unfold r'. destruct (FinancialRecordUpdate.amount transaction),
      (FinancialRecordUpdate.description transaction),
      (FinancialRecordUpdate.transaction_type transaction); simpl; exact Hid. }
  apply bind_Ok in E as ([] & s1 & E1 & E).
  rewrite store_record_run in E1. injection E1 as <-.
  apply bind_Ok in E as ([] & s2 & E1 & E).
  rewrite commit_run in E1. injection E1 as <-.
  apply bind_Ok in E as (r2 & s3 & E1 & E).
  apply refresh_record_Ok in E1 as [-> (rest & Hrows)].
  apply filter_head_elem in Hrows as [Hin2 Hid2]. apply Z.eqb_eq in Hid2.
  simpl in Hin2.
  apply bind_Ok in E as (a & s3 & E1 & E).
  apply log_audit_Ok in E1 as (action & Hact & ->).
  apply lift_Ok in E as [_ ->].
  assert (action = UPDATE) as -> by (by destruct action).
  eexists _, _, _. split; [reflexivity|].
  repeat split; simpl; try reflexivity.
  - congruence.
  - exists r2. split; [exact Hin2|]. split; [congruence|].
    apply values_subseteq_snapshot.
Qed.

Lemma delete_transaction_audited now record_id current_user s m s' :
  Transactions.delete_transaction now record_id current_user s = (Ok m, s') ->
  audited_once s s' (User.id current_user) DELETE "financial_records"
    record_id (record_reflected record_id).
Proof.
  unfold Transactions.delete_transaction. intros E.
  destruct (negb (Transactions.is_admin current_user)); [discriminate|].
  apply try_except_Ok in E; [|apply transactions_on_error_raises].
  apply bind_Ok in E as (rows & s1 & E1 & E).
  apply select_records_Ok in E1 as [-> ->].
  apply bind_Ok in E as (found & s1 & E1 & E).
  apply scalar_one_or_none_Ok in E1 as [-> [[_ ->]|(r & Hrows & ->)]];
    [discriminate|].
  apply filter_head_elem in Hrows as [Hin Hid].
  apply andb_true_iff in Hid as [Hid _]. apply Z.eqb_eq in Hid.
  apply bind_Ok in E as ([] & s1 & E1 & E).
  rewrite store_record_run in E1. injection E1 as <-.
  apply bind_Ok in E as ([] & s2 & E1 & E).
  rewrite commit_run in E1. injection E1 as <-.
  apply bind_Ok in E as (a & s3 & E1 & E).
  apply log_audit_Ok in E1 as (action & Hact & ->).
  injection E as _ <-.
  assert (action = DELETE) as -> by (by destruct action).
  eexists _, _, _. split; [reflexivity|].
  repeat split; simpl; try reflexivity.
  - by rewrite Hid.
  - exists (Transactions.set_updated_at (Transactions.set_is_deleted r true) now).
    split; [|split; [done|by apply is_deleted_subseteq]].
    by apply (replace_record_present _ r).
Qed.

End TransactionsAudit.

Section EndpointAudit.
Context `{Settings} `{Primitives}.

Import Session Orm Schemas.

Lemma get_admin_user_run u s r s1 :
  Auth.get_admin_user u s = (r, s1) -> s1 = s /\ (r = Ok u \/ exists e, r = Raise e).
Proof.
  unfold Auth.get_admin_user.
  destruct (negb _); intros [= <- <-]; eauto.
Qed.

Lemma authenticate_keeps_session op now credentials s r s1 :
  Endpoints.authenticate op now credentials s = (r, s1) -> s1 = s.
Proof.
  destruct (get_current_user_cases now credentials s)
    as (r1 & r2 & E1 & E2 & _).
  destruct op; simpl; unfold mbind, session_bind, Session.bind;
    rewrite ?E1, ?E2;
    try (by intros [= _ <-]);
    (destruct r2 as [u|e]; [|by intros [= _ <-]];
     intros E; by apply get_admin_user_run in E as [-> _]).
Qed.

Lemma handle_audited op now caller s resp s' :
  users_router op = false ->
  Endpoints.handle op now caller s = (Ok resp, s') ->
  exists target,
    target_of op caller resp = Some target
    /\ audited_once s s' (User.id caller) (action_of op) (table_of op) target
                    (post_of op target).
Proof.
  destruct op; simpl; intros Hop E; try discriminate Hop;
    apply bind_Ok in E as (r & s1 & E & Er); injection Er as <- <-;
    eexists; (split; [reflexivity|]).
  - by eapply change_password_audited.
  - by eapply update_profile_audited.
  - by eapply create_transaction_audited.
  - by eapply update_transaction_audited.
  - by eapply delete_transaction_audited.
Qed.

Lemma serve_audited op now credentials db resp s' :
  users_router op = false ->
  Endpoints.serve op now credentials db = (Ok resp, s') ->
  exists caller target,
    Endpoints.authenticate op now credentials (Session.open db)
    = (Ok caller, Session.open db)
    /\ target_of op caller resp = Some target
    /\ audited_once (Session.open db) s' (User.id caller) (action_of op)
                    (table_of op) target (post_of op target).
Proof.
  unfold Endpoints.serve. intros Hop E.
  apply bind_Ok in E as (caller & s1 & Ea & E).
  pose proof (authenticate_keeps_session _ _ _ _ _ _ Ea) as ->.
  apply handle_audited in E as (target & Ht & Haud); [|exact Hop].
  eauto.
Qed.

End EndpointAudit.

(** X25. A password change, a profile update, or a creation, update or
    deletion of a financial record that answers with a response, run as one
    request against a store [db], commits twice: first a store [db1] with the
    business change and no new audit row, then [db1] with exactly one audit
    row appended and nothing else changed.  That row names the caller the
    route's dependencies authenticated as actor, the operation's action and
    table, and as target the key of the row the operation created or changed.
    Its new values are taken from the row as it stands in the committed store
    [db1] for an update or a deletion; for a password change they are a
    marker only, while [db1] holds the new digest; for the creation of a
    record they are the values of the request, and [db1] holds the new row.
    The routes of the users router are left out: they never answer with a
    response on a stored row. *)
Theorem answered_mutation_is_audited_once `{Settings} `{Primitives}
        (op : Endpoints.operation) (now : Z) (credentials : Jose.token)
        (db : Session.Db) (resp : Endpoints.response) (s' : Session.t) :
  users_router op = false ->
  Endpoints.serve op now credentials db = (Ok resp, s') ->
  exists (caller : User.t) (db1 : Session.Db) (a : AuditLog.t) (target : Z)
         (nv : gmap string jvalue),
    Endpoints.authenticate op now credentials (Session.open db)
    = (Ok caller, Session.open db)
    /\ Session.commits s' = [db1; Session.durable s']
    /\ Session.audit_logs db1 = Session.audit_logs db
    /\ Session.users (Session.durable s') = Session.users db1
    /\ Session.financial_records (Session.durable s')
       = Session.financial_records db1
    /\ Session.audit_logs (Session.durable s')
       = (Session.audit_logs db ++ [a])%list
    /\ AuditLog.user_id a = User.id caller
    /\ AuditLog.action_type a = ActionType_value (action_of op)
    /\ AuditLog.table_name a = table_of op
    /\ target_of op caller resp = Some target
    /\ AuditLog.record_id a = Some target
    /\ AuditLog.new_values a = Some nv
    /\ post_of op target db1 nv.
Proof.
  intros Hop E.
  apply serve_audited in E
    as (caller & target & Ha & Ht & db1 & a & nv & -> & Hlog & Hu & Hact & Htbl
        & Hrid & Hnv & Hpost); [|exact Hop].
  exists caller, db1, a, target, nv. simpl in *.
  rewrite Hlog. by repeat split.
Qed.

(** The administrator root records a credit of 1500 at instant 1000: the
    store, which held no audit row, holds exactly one afterwards, written by
    user 1 as a CREATE on financial_records for the new record's key. *)
Lemma answered_mutation_is_audited_once_witness :
  exists resp s' a,
    @Endpoints.serve default_settings reference_primitives
       (Endpoints.CreateTransaction
          (Schemas.FinancialRecordCreate.mk 1500 "Bake sale" credit))
       1000 (sample_token root_user) sample_db = (Ok resp, s')
    /\ Session.audit_logs (Session.durable s') = [a]
    /\ List.length (Session.commits s') = 2%nat
    /\ AuditLog.user_id a = 1
    /\ AuditLog.action_type a = "CREATE"
    /\ AuditLog.table_name a = "financial_records"
    /\ AuditLog.record_id a = target_of
         (Endpoints.CreateTransaction
            (Schemas.FinancialRecordCreate.mk 1500 "Bake sale" credit))
         root_user resp.
Proof.
  assert (E : exists resp s',
             @Endpoints.serve default_settings reference_primitives
               (Endpoints.CreateTransaction
                  (Schemas.FinancialRecordCreate.mk 1500 "Bake sale" credit))
               1000 (sample_token root_user) sample_db = (Ok resp, s'))
    by (vm_compute; eauto).
  destruct E as (resp & s' & E).
  destruct (@answered_mutation_is_audited_once default_settings
              reference_primitives
              (Endpoints.CreateTransaction
                 (Schemas.FinancialRecordCreate.mk 1500 "Bake sale" credit))
              1000 (sample_token root_user) sample_db resp s' eq_refl E)
    as (caller & db1 & a & target & nv & Hauth & Hc & _ & _ & _ & Hlog & Hu
        & Hact & Htbl & Ht & Hrid & _).
  vm_compute in Hauth. injection Hauth as <-.
  exists resp, s', a. split; [exact E|].
  split; [exact Hlog|]. split; [by rewrite Hc|].
  split; [exact Hu|]. split; [exact Hact|]. split; [exact Htbl|].
  rewrite Hrid. symmetry. exact Ht.
Defined.

(** ** Further properties of the handlers *)

Lemma constrained_str_Ok lo hi v r :
  Schemas.constrained_str lo hi v = Ok r ->
  r = v /\ lo <= Schemas.len v <= hi.
Proof.
  unfold Schemas.constrained_str.
  destruct (Z.ltb_spec (Schemas.len v) lo); [discriminate|].
  destruct (Z.ltb_spec hi (Schemas.len v)); [discriminate|].
  intros [= <-]. split; [reflexivity|lia].
Qed.

(** X2. The [password] field of [UserCreate] as a whole, that is the
    field's length bounds followed by the validator, accepts exactly the
    passwords that meet the policy and are at most 100 characters long,
    characters being code points. *)
Theorem password_field_accepts `{UnicodeData} (v : string) :
  Schemas.UserCreate_password v = Ok v
  <-> meets_policy v /\ (characters v <= 100)%nat.
Proof.
  unfold Schemas.UserCreate_password. split.
  - destruct (Schemas.constrained_str 8 100 v) as [r|e] eqn:E; [|discriminate].
    apply constrained_str_Ok in E as [-> Hlen]. simpl.
    destruct (Schemas.validate_password v) as [r|e] eqn:Ev.
    + simpl. intros [= ->]. split; [by apply validate_password_accepts|].
      rewrite len_characters in Hlen. lia.
    + destruct e; discriminate.
  - intros [Hp Hlen]. pose proof Hp as (Hl & _).
    unfold Schemas.constrained_str.
    destruct (Z.ltb_spec (Schemas.len v) 8) as [Hlt|_];
      [rewrite len_characters in Hlt; lia|].
    destruct (Z.ltb_spec 100 (Schemas.len v)) as [Hlt|_];
      [rewrite len_characters in Hlt; lia|].
    simpl. apply validate_password_accepts in Hp. rewrite Hp. reflexivity.
Qed.

(** ** Rows are only ever added *)

Section Growth.

Import Session Orm.

Lemma grows_refl db : grows db db.
Proof. by repeat split. Qed.

Lemma grows_trans db1 db2 db3 : grows db1 db2 -> grows db2 db3 -> grows db1 db3.
Proof.
  intros (A1 & U1 & R1) (A2 & U2 & R2).
  repeat split; etrans; eassumption.
Qed.

Lemma keeps_open db : keeps db (Session.open db).
Proof. split; apply grows_refl. Qed.

Lemma preserves_ret {A} (a : A) : preserves (mret a).
Proof. intros db0 s r s' Hk [= <- <-]. exact Hk. Qed.

Lemma preserves_raise {A} e : preserves (@raise A e).
Proof. intros db0 s r s' Hk [= <- <-]. exact Hk. Qed.

Lemma preserves_lift {A} (x : result A) : preserves (lift x).
Proof. intros db0 s r s' Hk [= <- <-]. exact Hk. Qed.

Lemma preserves_bind {A B} (m : M A) (k : A -> M B) :
  preserves m -> (forall a, preserves (k a)) -> preserves (m ≫= k).
Proof.
  intros Hm Hk db0 s r s' Hs. unfold mbind, session_bind, Session.bind.
  destruct (m s) as [[a|e] s1] eqn:E.
  - intros E2. eapply Hk; [|exact E2]. eapply Hm; eassumption.
  - intros [= <- <-]. eapply Hm; eassumption.
Qed.

Lemma preserves_try_except {A} (body : M A) (handler : exn -> M A) :
  preserves body -> (forall e, preserves (handler e)) ->
  preserves (try_except body handler).
Proof.
  intros Hb Hh db0 s r s' Hs. unfold try_except.
  destruct (body s) as [[a|e] s1] eqn:E.
  - intros [= <- <-]. eapply Hb; eassumption.
  - intros E2. eapply Hh; [|exact E2]. eapply Hb; eassumption.
Qed.

Lemma preserves_get_working : preserves get_working.
Proof. intros db0 s r s' Hk [= <- <-]. exact Hk. Qed.

Lemma preserves_set_working (f : Db -> Db) :
  (forall db, grows db (f db)) ->
  preserves (db ← get_working; set_working (f db)).
Proof.
  intros Hf db0 s r s' [Hd Hw]. simpl. intros [= <- <-]. split; simpl.
  - exact Hd.
  - eapply grows_trans; [exact Hw|apply Hf].
Qed.

Lemma preserves_commit : preserves commit.
Proof. intros db0 s r s' [Hd Hw] [= <- <-]. by split. Qed.

Lemma preserves_rollback : preserves rollback.
Proof. intros db0 s r s' [Hd Hw] [= <- <-]. by split. Qed.

Lemma preserves_select_users p : preserves (select_users p).
Proof. intros db0 s r s' Hk [= <- <-]. exact Hk. Qed.

Lemma preserves_select_records p : preserves (select_records p).
Proof. intros db0 s r s' Hk [= <- <-]. exact Hk. Qed.

Lemma preserves_scalar_one_or_none {A} (rows : list A) :
  preserves (scalar_one_or_none rows).
Proof.
  destruct rows as [|x [|y l]]; intros db0 s r s' Hk [= <- <-]; exact Hk.
Qed.

Lemma preserves_scalar_one {A} (rows : list A) : preserves (scalar_one rows).
Proof.
  destruct rows as [|x [|y l]]; intros db0 s r s' Hk [= <- <-]; exact Hk.
Qed.

Lemma replace_user_keys u rows :
  User.id <$> replace_user u rows = User.id <$> rows.
Proof.
  unfold replace_user. induction rows as [|r rows IH]; [reflexivity|].
  simpl. f_equal; [|exact IH].
  destruct (Z.eqb_spec (User.id r) (User.id u)); congruence.
Qed.

Lemma replace_record_keys x rows :
  FinancialRecord.id <$> replace_record x rows = FinancialRecord.id <$> rows.
Proof.
  unfold replace_record. induction rows as [|r rows IH]; [reflexivity|].
  simpl. f_equal; [|exact IH].
  destruct (Z.eqb_spec (FinancialRecord.id r) (FinancialRecord.id x));
    congruence.
Qed.

Lemma preserves_store_user u : preserves (store_user u).
Proof.
  apply (preserves_set_working
           (λ db, mkDb (replace_user u (users db)) (financial_records db)
                       (audit_logs db) (users_seq db)
                       (financial_records_seq db) (audit_logs_seq db))).
  intros db. repeat split; simpl; [done| |done].
  by rewrite replace_user_keys.
Qed.

Lemma preserves_store_record x : preserves (store_record x).
Proof.
  apply (preserves_set_working
           (λ db, mkDb (users db) (replace_record x (financial_records db))
                       (audit_logs db) (users_seq db)
                       (financial_records_seq db) (audit_logs_seq db))).
  intros db. repeat split; simpl; [done|done|].
  by rewrite replace_record_keys.
Qed.

Lemma preserves_add_user now u : preserves (add_user now u).
Proof.
  intros db0 s r s' [Hd Hw]. unfold add_user. simpl. intros [= <- <-].
  split; simpl; [exact Hd|].
  eapply grows_trans; [exact Hw|].
  repeat split; simpl; [done| |done].
  rewrite fmap_app. by apply prefix_app_r.
Qed.

Lemma preserves_add_record now x : preserves (add_record now x).
Proof.
  intros db0 s r s' [Hd Hw]. unfold add_record. simpl. intros [= <- <-].
  split; simpl; [exact Hd|].
  eapply grows_trans; [exact Hw|].
  repeat split; simpl; [done|done|].
  rewrite fmap_app. by apply prefix_app_r.
Qed.

Lemma preserves_add_audit_log now a : preserves (add_audit_log now a).
Proof.
  intros db0 s r s' [Hd Hw]. unfold add_audit_log. simpl. intros [= <- <-].
  split; simpl; [exact Hd|].
  eapply grows_trans; [exact Hw|].
  repeat split; simpl; [|done|done].
  by apply prefix_app_r.
Qed.

Lemma preserves_refresh_user k : preserves (refresh_user k).
Proof.
  intros db0 s r s' Hk.
  unfold refresh_user, mbind, session_bind, Session.bind, get_working.
  match goal with |- context [filter ?P ?l] => destruct (filter P l) end;
    intros [= <- <-]; exact Hk.
Qed.

Lemma preserves_refresh_record k : preserves (refresh_record k).
Proof.
  intros db0 s r s' Hk.
  unfold refresh_record, mbind, session_bind, Session.bind, get_working.
  match goal with |- context [filter ?P ?l] => destruct (filter P l) end;
    intros [= <- <-]; exact Hk.
Qed.

Lemma preserves_refresh_audit_log k : preserves (refresh_audit_log k).
Proof.
  intros db0 s r s' Hk.
  unfold refresh_audit_log, mbind, session_bind, Session.bind, get_working.
  match goal with |- context [filter ?P ?l] => destruct (filter P l) end;
    intros [= <- <-]; exact Hk.
Qed.

End Growth.

Ltac preserve_step :=
  first
    [ apply preserves_ret
    | apply preserves_raise
    | apply preserves_lift
    | apply preserves_commit
    | apply preserves_rollback
    | apply preserves_select_users
    | apply preserves_select_records
    | apply preserves_scalar_one_or_none
    | apply preserves_scalar_one
    | apply preserves_store_user
    | apply preserves_store_record
    | apply preserves_add_user
    | apply preserves_add_record
    | apply preserves_add_audit_log
    | apply preserves_refresh_user
    | apply preserves_refresh_record
    | apply preserves_refresh_audit_log
    | apply preserves_bind; [|intros ?]
    | apply preserves_try_except; [|intros ?]
    | match goal with
      | |- preserves (match ?x with _ => _ end) => destruct x
      | |- preserves (if ?b then _ else _) => destruct b
      end
    | progress cbv zeta ].

Ltac preserve := repeat preserve_step.

Lemma preserves_log_action now uid act tbl rid ov nv ip ua :
  preserves (AuditService.log_action now uid act tbl rid ov nv ip ua).
Proof. unfold AuditService.log_action. preserve. Qed.

Lemma preserves_log_audit now uid act tbl rid ov nv ip ua :
  preserves (AuditService.log_audit now uid act tbl rid ov nv ip ua).
Proof. unfold AuditService.log_audit. preserve. Qed.

Ltac handler :=
  repeat first
    [ apply preserves_log_action
    | apply preserves_log_audit
    | preserve_step ].

Section HandlersGrow.
Context `{Settings} `{Primitives}.

Import Session Orm.


Lemma preserves_users_on_error {A} prefix e :
  preserves (@Users.on_error A prefix e).
Proof. unfold Users.on_error. handler. Qed.

Lemma preserves_transactions_on_error {A} detail e :
  preserves (@Transactions.on_error A detail e).
Proof. unfold Transactions.on_error. handler. Qed.

Lemma preserves_fail_500 {A} detail e :
  preserves (@Transactions.fail_500 A detail e).
Proof. unfold Transactions.fail_500. handler. Qed.

Lemma preserves_security_get_current_user now credentials :
  preserves (Security.get_current_user now credentials).
Proof. unfold Security.get_current_user. handler. Qed.

Lemma preserves_auth_get_current_user now credentials :
  preserves (Auth.get_current_user now credentials).
Proof. unfold Auth.get_current_user. handler. Qed.

Lemma preserves_get_admin_user u : preserves (Auth.get_admin_user u).
Proof. unfold Auth.get_admin_user. handler. Qed.

Lemma preserves_login now request login_data :
  preserves (Auth.login now request login_data).
Proof. unfold Auth.login. handler. Qed.

Lemma preserves_refresh_token now refresh_data :
  preserves (Auth.refresh_token now refresh_data).
Proof. unfold Auth.refresh_token. handler. Qed.

Lemma preserves_logout now request u : preserves (Auth.logout now request u).
Proof. unfold Auth.logout. handler. Qed.

Lemma preserves_change_password now salt request password_data u :
  preserves (Auth.change_password now salt request password_data u).
Proof. unfold Auth.change_password. handler. Qed.

Lemma preserves_update_profile now request profile_data u :
  preserves (Auth.update_profile now request profile_data u).
Proof. unfold Auth.update_profile. handler. Qed.

Lemma preserves_create_user now salt user_data request u :
  preserves (Users.create_user now salt user_data request u).
Proof.
  unfold Users.create_user. handler; apply preserves_users_on_error.
Qed.

Lemma preserves_update_user now salt user_id user_data request u :
  preserves (Users.update_user now salt user_id user_data request u).
Proof.
  unfold Users.update_user. handler; apply preserves_users_on_error.
Qed.

Lemma preserves_delete_user now user_id request u :
  preserves (Users.delete_user now user_id request u).
Proof.
  unfold Users.delete_user. handler; apply preserves_users_on_error.
Qed.

Lemma preserves_created_by_user r : preserves (Transactions.created_by_user r).
Proof. unfold Transactions.created_by_user. handler. Qed.

Lemma preserves_sum_amounts p : preserves (Transactions.sum_amounts p).
Proof. unfold Transactions.sum_amounts. handler. Qed.

Ltac transactions :=
  repeat first
    [ apply preserves_created_by_user
    | apply preserves_sum_amounts
    | apply preserves_fail_500
    | apply preserves_transactions_on_error
    | apply preserves_log_action
    | apply preserves_log_audit
    | preserve_step ].

Lemma preserves_create_transaction now transaction u :
  preserves (Transactions.create_transaction now transaction u).
Proof. unfold Transactions.create_transaction. transactions. Qed.

Lemma preserves_update_transaction now record_id transaction u :
  preserves (Transactions.update_transaction now record_id transaction u).
Proof. unfold Transactions.update_transaction. transactions. Qed.

Lemma preserves_delete_transaction now record_id u :
  preserves (Transactions.delete_transaction now record_id u).
Proof. unfold Transactions.delete_transaction. transactions. Qed.

Lemma preserves_get_balance u : preserves (Transactions.get_balance u).
Proof. unfold Transactions.get_balance. transactions. Qed.

Lemma preserves_get_public_balance : preserves Public.get_public_balance.
Proof. unfold Public.get_public_balance. transactions. Qed.

Lemma preserves_get_users u : preserves (Users.get_users u).
Proof. unfold Users.get_users. handler. Qed.

Lemma preserves_get_user user_id u : preserves (Users.get_user user_id u).
Proof. unfold Users.get_user. handler. Qed.

Lemma preserves_get_current_user_info u :
  preserves (Auth.get_current_user_info u).
Proof. unfold Auth.get_current_user_info. handler. Qed.

Lemma preserves_authenticate op now credentials :
  preserves (Endpoints.authenticate op now credentials).
Proof.
  destruct op; simpl;
    repeat first
      [ apply preserves_auth_get_current_user
      | apply preserves_security_get_current_user
      | apply preserves_get_admin_user
      | apply preserves_bind; [|intros ?] ].
Qed.

Lemma preserves_handle op now u : preserves (Endpoints.handle op now u).
Proof.
  destruct op; simpl; (apply preserves_bind; [|intros ?; apply preserves_ret]).
  - apply preserves_create_user.
  - apply preserves_update_user.
  - apply preserves_delete_user.
  - apply preserves_change_password.
  - apply preserves_update_profile.
  - apply preserves_create_transaction.
  - apply preserves_update_transaction.
  - apply preserves_delete_transaction.
Qed.

Lemma preserves_dispatch r now credentials :
  preserves (Main.dispatch r now credentials).
Proof.
  destruct r; simpl;
    repeat first
      [ apply preserves_ret
      | apply preserves_login
      | apply preserves_refresh_token
      | apply preserves_logout
      | apply preserves_get_current_user_info
      | apply preserves_get_users
      | apply preserves_get_user
      | apply preserves_get_balance
      | apply preserves_get_public_balance
      | apply preserves_authenticate
      | apply preserves_handle
      | apply preserves_auth_get_current_user
      | apply preserves_security_get_current_user
      | apply preserves_get_admin_user
      | apply preserves_bind; [|intros ?] ].
Qed.

End HandlersGrow.

(** X3. Whatever a request does and however it ends, with a response or with
    an error, the committed store it leaves has grown out of the store it
    found: every audit row is still there, unchanged and in place, and so is
    the key of every user and of every financial record.  No route deletes
    or rewrites an audit row, and no route removes a user or a record. *)
Theorem requests_only_add_rows `{Settings} `{Primitives}
        (r : Main.route) (now : Z) (credentials : Jose.token)
        (db : Session.Db) :
  grows db (Session.durable (snd (Main.call r now credentials db))).
Proof.
  destruct (Main.call r now credentials db) as [out s'] eqn:E.
  unfold Main.call in E.
  eapply preserves_dispatch in E; [|apply keeps_open]. apply E.
Qed.

(** ** Printing and reading back a key *)

Section Decimal.

Lemma lstrip_no_space s : no_space s = true -> Py.lstrip s = s.
Proof.
  destruct s as [|c s]; [reflexivity|]. simpl.
  destruct (Py.is_space c); [discriminate|reflexivity].
Qed.

Lemma rev_onto_no_space s acc :
  no_space s = true -> no_space acc = true ->
  no_space (Py.string_rev_onto s acc) = true.
Proof.
  revert acc. induction s as [|c s IH]; intros acc Hs Ha; [exact Ha|].
  simpl in *. apply andb_true_iff in Hs as [Hc Hs].
  apply IH; [exact Hs|]. simpl. by rewrite Hc, Ha.
Qed.

Lemma rev_onto_rev_onto s acc acc' :
  Py.string_rev_onto (Py.string_rev_onto s acc) acc'
  = Py.string_rev_onto acc (s ++ acc').
Proof.
  revert acc acc'. induction s as [|c s IH]; intros acc acc'; [reflexivity|].
  simpl. rewrite IH. reflexivity.
Qed.

Lemma strip_no_space s : no_space s = true -> Py.strip s = s.
Proof.
  intros Hs. unfold Py.strip. rewrite (lstrip_no_space s Hs).
  rewrite lstrip_no_space by (by apply rev_onto_no_space).
  rewrite rev_onto_rev_onto. simpl. clear Hs.
  induction s as [|c s IH]; [reflexivity|].
  change (String c (s ++ "") = String c s). by rewrite IH.
Qed.

Lemma digits_no_space d : no_space (NilEmpty.string_of_uint d) = true.
Proof. induction d; simpl; try reflexivity; exact IHd. Qed.

Lemma digits_from_digit c s acc prev :
  Py.is_digit c = true ->
  Py.digits_from (String c s) acc prev
  = Py.digits_from s (10 * acc + Py.digit_val c) true.
Proof. intros Hc. simpl. by rewrite Hc. Qed.

Lemma digits_from_acc d (acc : positive) :
  Py.digits_from (NilEmpty.string_of_uint d) (Z.pos acc) true
  = Some (Z.pos (Pos.of_uint_acc d acc)).
Proof.
  revert acc. induction d; intros acc; [reflexivity|..];
    simpl NilEmpty.string_of_uint;
    rewrite digits_from_digit by reflexivity;
    cbn [Pos.of_uint_acc]; rewrite <- IHd; f_equal;
    unfold Py.digit_val;
    match goal with
    | |- context [Z.of_nat ?n] =>
        let v := eval vm_compute in (Z.of_nat n) in
        change (Z.of_nat n) with v
    end; lia.
Qed.

Lemma digits_from_zero d prev :
  d ≠ Decimal.Nil \/ prev = true ->
  Py.digits_from (NilEmpty.string_of_uint d) 0 prev
  = Some (Z.of_N (Pos.of_uint d)).
Proof.
  revert prev. induction d; intros prev Hd;
    [destruct Hd as [Hd| ->]; [done|reflexivity]|..];
    simpl NilEmpty.string_of_uint;
    rewrite digits_from_digit by reflexivity.
  - apply IHd. by right.
  - apply (digits_from_acc d 1).
  - apply (digits_from_acc d 2).
  - apply (digits_from_acc d 3).
  - apply (digits_from_acc d 4).
  - apply (digits_from_acc d 5).
  - apply (digits_from_acc d 6).
  - apply (digits_from_acc d 7).
  - apply (digits_from_acc d 8).
  - apply (digits_from_acc d 9).
Qed.

Lemma string_of_uint_nonnil d :
  d ≠ Decimal.Nil -> NilZero.string_of_uint d = NilEmpty.string_of_uint d.
Proof. by destruct d. Qed.

Lemma int_of_digits d :
  d ≠ Decimal.Nil ->
  Py.int_of_str (NilEmpty.string_of_uint d) = Some (Z.of_N (Pos.of_uint d)).
Proof.
  intros Hd. unfold Py.int_of_str.
  rewrite strip_no_space by apply digits_no_space.
  pose proof (digits_from_zero d false (or_introl Hd)) as E.
  destruct d; try done; exact E.
Qed.

Lemma int_of_str_of_int n : Py.int_of_str (Py.str_of_int n) = Some n.
Proof.
  unfold Py.str_of_int. destruct n as [|p|p]; simpl Z.to_int.
  - reflexivity.
  - simpl NilZero.string_of_int.
    rewrite string_of_uint_nonnil by apply DecimalPos.Unsigned.to_uint_nonnil.
    rewrite int_of_digits by apply DecimalPos.Unsigned.to_uint_nonnil.
    by rewrite DecimalPos.Unsigned.of_to.
  - simpl NilZero.string_of_int.
    rewrite string_of_uint_nonnil by apply DecimalPos.Unsigned.to_uint_nonnil.
    unfold Py.int_of_str.
    rewrite strip_no_space by (simpl; apply digits_no_space).
    rewrite digits_from_zero
      by (left; apply DecimalPos.Unsigned.to_uint_nonnil).
    by rewrite DecimalPos.Unsigned.of_to.
Qed.

End Decimal.

(** ** Login, then requests with its tokens *)

Section LoginThenRequest.
Context `{Settings} `{Primitives}.

Import Session Orm Schemas.

Lemma int_of_key n : Py.int (JStr (Py.str_of_int n)) = Ok n.
Proof. simpl. by rewrite int_of_str_of_int. Qed.

Lemma log_action_result now uid act tbl rid ov nv ip ua s :
  snd (AuditService.log_action now uid act tbl rid ov nv ip ua s)
  = committed s
      (append_audit (working s)
         (AuditLog.mk (audit_logs_seq (working s) + 1) uid act tbl rid ov nv
                      ip ua now)).
Proof.
  destruct (log_action_run now uid act tbl rid ov nv ip ua s) as [r ->].
  reflexivity.
Qed.

Lemma login_outcome now request login_data s u :
  Jose.is_hmac_alg ALGORITHM = true ->
  users_named (LoginRequest.username login_data) s = [u] ->
  User.is_active u = true ->
  Security.verify_password (LoginRequest.password login_data)
                           (User.password_hash u) = Ok true ->
  exists resp,
    Auth.login now request login_data s
    = (Ok resp,
       committed s
         (append_audit (working s)
            (login_row now request u (audit_logs_seq (working s)))))
    /\ Security.create_access_token now (login_data_of u) None
       = Ok (Auth.LoginResponse.access_token resp)
    /\ Security.create_refresh_token now (login_data_of u)
       = Ok (Auth.LoginResponse.refresh_token resp).
Proof.
  intros Halg Hn Hi Hp.
  unfold Auth.login, mbind, session_bind, Session.bind.
  rewrite select_by_username, Hn. simpl. rewrite Hi. simpl.
  unfold lift. rewrite Hp. simpl. fold (login_data_of u).
  unfold Security.create_access_token, Security.create_refresh_token,
    Jose.encode. rewrite Halg.
  match goal with
  | |- context [AuditService.log_action ?n ?a ?b ?c ?d ?e ?f ?g ?h s] =>
      destruct (log_action_run n a b c d e f g h s) as [r ->]
  end.
  eexists. split; [reflexivity|]. split; reflexivity.
Qed.

Lemma users_with_id_ext k s1 s2 :
  users (working s1) = users (working s2) ->
  users_with_id k s1 = users_with_id k s2.
Proof. unfold users_with_id. by intros ->. Qed.

Lemma accepted_by_both now credentials s payload u :
  Security.verify_token now credentials "access" = Some payload ->
  payload !! "sub" = Some (JStr (Py.str_of_int (User.id u))) ->
  users_with_id (User.id u) s = [u] ->
  User.is_active u = true ->
  Auth.get_current_user now credentials s = (Ok u, s)
  /\ Security.get_current_user now credentials s = (Ok u, s).
Proof.
  intros Hv Hs Hu Ha.
  unfold Auth.get_current_user, Security.get_current_user, try_except.
  rewrite Hv, Hs.
  unfold mbind, session_bind, Session.bind, try_except, lift.
  rewrite int_of_key, !select_users_run.
  fold (users_with_id (User.id u) s). rewrite Hu. simpl. rewrite Ha.
  split; reflexivity.
Qed.

End LoginThenRequest.

Section ReadOnly.

Import Session Orm.

Lemma read_only_ret {A} (a : A) : read_only (mret a).
Proof. by intros s. Qed.

Lemma read_only_raise {A} e : read_only (@raise A e).
Proof. by intros s. Qed.

Lemma read_only_lift {A} (x : result A) : read_only (lift x).
Proof. by intros s. Qed.

Lemma read_only_bind {A B} (m : M A) (k : A -> M B) :
  read_only m -> (forall a, read_only (k a)) -> read_only (m ≫= k).
Proof.
  intros Hm Hk s. unfold mbind, session_bind, Session.bind.
  specialize (Hm s). destruct (m s) as [[a|e] s1]; simpl in Hm; subst s1.
  - apply Hk.
  - reflexivity.
Qed.

Lemma read_only_try_except {A} (body : M A) (handler : exn -> M A) :
  read_only body -> (forall e, read_only (handler e)) ->
  read_only (try_except body handler).
Proof.
  intros Hb Hh s. unfold try_except.
  specialize (Hb s). destruct (body s) as [[a|e] s1]; simpl in Hb; subst s1.
  - reflexivity.
  - apply Hh.
Qed.

Lemma read_only_select_users p : read_only (select_users p).
Proof. by intros s. Qed.

Lemma read_only_select_records p : read_only (select_records p).
Proof. by intros s. Qed.

Lemma read_only_scalar_one_or_none {A} (rows : list A) :
  read_only (scalar_one_or_none rows).
Proof. by destruct rows as [|x [|y l]]; intros s. Qed.

End ReadOnly.

Ltac read_only_step :=
  first
    [ apply read_only_ret
    | apply read_only_raise
    | apply read_only_lift
    | apply read_only_select_users
    | apply read_only_select_records
    | apply read_only_scalar_one_or_none
    | apply read_only_bind; [|intros ?]
    | apply read_only_try_except; [|intros ?]
    | match goal with
      | |- read_only (match ?x with _ => _ end) => destruct x
      | |- read_only (if ?b then _ else _) => destruct b
      end
    | progress cbv zeta ].

Section ReadOnlyRoutes.
Context `{Settings} `{Primitives}.

Import Session Orm Schemas.

Lemma read_only_auth_get_current_user now credentials :
  read_only (Auth.get_current_user now credentials).
Proof. unfold Auth.get_current_user. repeat read_only_step. Qed.

Lemma read_only_security_get_current_user now credentials :
  read_only (Security.get_current_user now credentials).
Proof. unfold Security.get_current_user. repeat read_only_step. Qed.

Lemma read_only_get_admin_user u : read_only (Auth.get_admin_user u).
Proof. unfold Auth.get_admin_user. repeat read_only_step. Qed.

Lemma read_only_refresh_token now t : read_only (Auth.refresh_token now t).
Proof. unfold Auth.refresh_token. repeat read_only_step. Qed.

Lemma read_only_get_current_user_info u :
  read_only (Auth.get_current_user_info u).
Proof. unfold Auth.get_current_user_info. repeat read_only_step. Qed.

Lemma read_only_get_users u : read_only (Users.get_users u).
Proof. unfold Users.get_users. repeat read_only_step. Qed.

Lemma read_only_get_user k u : read_only (Users.get_user k u).
Proof. unfold Users.get_user. repeat read_only_step. Qed.

Lemma read_only_sum_amounts p : read_only (Transactions.sum_amounts p).
Proof. unfold Transactions.sum_amounts. repeat read_only_step. Qed.

Lemma read_only_get_balance u : read_only (Transactions.get_balance u).
Proof.
  unfold Transactions.get_balance.
  repeat first [apply read_only_sum_amounts | read_only_step].
Qed.

Lemma read_only_get_public_balance : read_only Public.get_public_balance.
Proof.
  unfold Public.get_public_balance.
  repeat first [apply read_only_sum_amounts | read_only_step].
Qed.

Lemma read_only_authenticate op now credentials :
  read_only (Endpoints.authenticate op now credentials).
Proof.
  destruct op; simpl;
    repeat first
      [ apply read_only_auth_get_current_user
      | apply read_only_security_get_current_user
      | apply read_only_get_admin_user
      | apply read_only_bind; [|intros ?] ].
Qed.

End ReadOnlyRoutes.

Section IssuedTokens.
Context `{Settings} `{Primitives}.

Import Session Orm Schemas.

Lemma issued_access_verifies now later u t :
  Security.create_access_token now (login_data_of u) None = Ok t ->
  later <= now + ACCESS_TOKEN_EXPIRE_MINUTES * 60 ->
  exists payload,
    Security.verify_token later t "access" = Some payload
    /\ payload !! "sub" = Some (JStr (Py.str_of_int (User.id u))).
Proof.
  intros E Hle. unfold Security.create_access_token in E.
  apply encode_Ok in E as [-> Halg].
  eexists. split.
  - apply verify_issued; [exact Halg|apply login_data_registered_ok|exact Hle].
  - unfold login_data_of. rewrite !lookup_insert_ne by done.
    by rewrite lookup_insert_eq.
Qed.

Lemma issued_refresh_verifies now later u t :
  Security.create_refresh_token now (login_data_of u) = Ok t ->
  later <= now + REFRESH_TOKEN_EXPIRE_DAYS * 86400 ->
  exists payload,
    Security.verify_token later t "refresh" = Some payload
    /\ payload !! "sub" = Some (JStr (Py.str_of_int (User.id u))).
Proof.
  intros E Hle. unfold Security.create_refresh_token in E.
  apply encode_Ok in E as [-> Halg].
  eexists. split.
  - apply verify_issued; [exact Halg|apply login_data_registered_ok|exact Hle].
  - unfold login_data_of. rewrite !lookup_insert_ne by done.
    by rewrite lookup_insert_eq.
Qed.

Lemma issued_access_type now d delta t :
  Security.create_access_token now d delta = Ok t ->
  type_claim t = Some (JStr "access").
Proof.
  intros E. apply access_token_claims in E as [e E].
  unfold type_claim. rewrite E. simpl. by rewrite lookup_insert_eq.
Qed.

Lemma issued_refresh_type now d t :
  Security.create_refresh_token now d = Ok t ->
  type_claim t = Some (JStr "refresh").
Proof.
  intros E. apply refresh_token_claims in E.
  unfold type_claim. rewrite E. simpl. by rewrite lookup_insert_eq.
Qed.

Lemma refresh_token_run now t s payload u :
  Security.verify_token now t "refresh" = Some payload ->
  payload !! "sub" = Some (JStr (Py.str_of_int (User.id u))) ->
  users_with_id (User.id u) s = [u] ->
  User.is_active u = true ->
  Auth.refresh_token now t s
  = (Py.rbind (Security.create_access_token now (login_data_of u) None)
       (λ access_token,
          Py.rbind (Security.create_refresh_token now (login_data_of u))
            (λ new_refresh_token,
               Py.rbind (UserResponse.model_validate u)
                 (λ user, Ok (Token.mk access_token new_refresh_token
                                       "bearer" 1800 user)))), s).
Proof.
  intros Hv Hs Hu Ha. unfold Auth.refresh_token.
  rewrite Hv, Hs.
  unfold mbind at 1 2 3 4 5 6, session_bind, Session.bind, lift.
  rewrite int_of_key, select_users_run.
  fold (users_with_id (User.id u) s). rewrite Hu. simpl. rewrite Ha. simpl.
  fold (login_data_of u).
  destruct (Security.create_access_token now (login_data_of u) None);
    [|reflexivity].
  destruct (Security.create_refresh_token now (login_data_of u));
    [|reflexivity].
  destruct (UserResponse.model_validate u); reflexivity.
Qed.

End IssuedTokens.

(** X4. A login that succeeds commits exactly one thing: a [LOGIN] audit row
    naming the user who logged in, with the client's address and user agent
    and the instant of the call. Users and financial records of the store
    are what they were, and the session committed once. *)
Theorem login_writes_one_login_row `{Settings} `{Primitives}
        (now : Z) (request : Request.t) (login_data : Schemas.LoginRequest.t)
        (credentials : Jose.token) (db : Session.Db) (u : User.t) :
  Jose.is_hmac_alg ALGORITHM = true ->
  users_named (Schemas.LoginRequest.username login_data) (Session.open db)
  = [u] ->
  User.is_active u = true ->
  Security.verify_password (Schemas.LoginRequest.password login_data)
                           (User.password_hash u) = Ok true ->
  exists resp s',
    Main.call (Main.PostLogin request login_data) now credentials db
    = (Ok (Main.LoginBody resp), s')
    /\ Session.durable s'
       = append_audit db (login_row now request u (Session.audit_logs_seq db))
    /\ Session.commits s' = [Session.durable s'].
Proof.
  intros Halg Hn Ha Hp.
  destruct (login_outcome now request login_data (Session.open db) u
              Halg Hn Ha Hp) as (resp & E & _).
  unfold Main.call, Main.dispatch, mbind, session_bind, Session.bind.
  rewrite E. simpl. eauto.
Qed.

(** Alice logs in on the sample store. *)
Lemma login_writes_one_login_row_witness :
  exists resp s',
    @Main.call default_settings reference_primitives
      (Main.PostLogin browser (Schemas.LoginRequest.mk "alice" "Alice-pw-1"))
      1000 (Jose.Garbage "") sample_db
    = (Ok (Main.LoginBody resp), s')
    /\ Session.durable s'
       = append_audit sample_db (login_row 1000 browser alice 0)
    /\ Session.commits s' = [Session.durable s'].
Proof.
  apply (@login_writes_one_login_row default_settings reference_primitives
           1000 browser (Schemas.LoginRequest.mk "alice" "Alice-pw-1")
           (Jose.Garbage "") sample_db alice); reflexivity.
Defined.

(** X5. The access token a successful login returns is accepted by both
    [get_current_user] dependencies, on the store the login left behind, as
    the user who logged in, at every instant up to the configured access
    lifetime after the login. *)
Theorem login_access_token_authenticates `{Settings} `{Primitives}
        (now later : Z) (request : Request.t)
        (login_data : Schemas.LoginRequest.t) (credentials : Jose.token)
        (db : Session.Db) (u : User.t) :
  Jose.is_hmac_alg ALGORITHM = true ->
  users_named (Schemas.LoginRequest.username login_data) (Session.open db)
  = [u] ->
  users_with_id (User.id u) (Session.open db) = [u] ->
  User.is_active u = true ->
  Security.verify_password (Schemas.LoginRequest.password login_data)
                           (User.password_hash u) = Ok true ->
  later <= now + ACCESS_TOKEN_EXPIRE_MINUTES * 60 ->
  exists resp s',
    Main.call (Main.PostLogin request login_data) now credentials db
    = (Ok (Main.LoginBody resp), s')
    /\ Auth.get_current_user later (Auth.LoginResponse.access_token resp)
         (Session.open (Session.durable s'))
       = (Ok u, Session.open (Session.durable s'))
    /\ Security.get_current_user later (Auth.LoginResponse.access_token resp)
         (Session.open (Session.durable s'))
       = (Ok u, Session.open (Session.durable s')).
Proof.
  intros Halg Hn Hk Ha Hp Hle.
  destruct (login_outcome now request login_data (Session.open db) u
              Halg Hn Ha Hp) as (resp & E & Hacc & _).
  destruct (issued_access_verifies now later u _ Hacc Hle)
    as (payload & Hv & Hsub).
  unfold Main.call, Main.dispatch, mbind, session_bind, Session.bind.
  rewrite E. simpl. eexists _, _. split; [reflexivity|]. simpl.
  apply (accepted_by_both later _ _ payload u Hv Hsub); [|exact Ha].
  rewrite <- Hk. by apply users_with_id_ext.
Qed.

(** Alice logs in at instant 1000 and calls at instant 2800, the last
    instant of her token. *)
Lemma login_access_token_authenticates_witness :
  exists resp s',
    @Main.call default_settings reference_primitives
      (Main.PostLogin browser (Schemas.LoginRequest.mk "alice" "Alice-pw-1"))
      1000 (Jose.Garbage "") sample_db
    = (Ok (Main.LoginBody resp), s')
    /\ @Auth.get_current_user default_settings reference_primitives 2800
         (Auth.LoginResponse.access_token resp)
         (Session.open (Session.durable s'))
       = (Ok alice, Session.open (Session.durable s'))
    /\ @Security.get_current_user default_settings reference_primitives 2800
         (Auth.LoginResponse.access_token resp)
         (Session.open (Session.durable s'))
       = (Ok alice, Session.open (Session.durable s')).
Proof.
  apply (@login_access_token_authenticates default_settings
           reference_primitives 1000 2800 browser
           (Schemas.LoginRequest.mk "alice" "Alice-pw-1")
           (Jose.Garbage "") sample_db alice);
    [reflexivity|reflexivity|reflexivity|reflexivity|reflexivity|].
  vm_compute. discriminate.
Defined.

(** X6. A refresh token issued for an active user is exchanged, at any
    instant up to the configured refresh lifetime after its issue, for a new
    pair of tokens carrying the user's public fields; the store is not
    touched, the new access token authenticates as that user for the access
    lifetime counted from the refresh, and the new refresh token is the one
    [create_refresh_token] issues for the user at the instant of the
    refresh. *)
Theorem refresh_renews_tokens `{Settings} `{Primitives}
        (issued now later : Z) (refresh_data credentials : Jose.token)
        (db : Session.Db) (u : User.t) (public : Schemas.UserResponse.t) :
  Security.create_refresh_token issued (login_data_of u) = Ok refresh_data ->
  now <= issued + REFRESH_TOKEN_EXPIRE_DAYS * 86400 ->
  users_with_id (User.id u) (Session.open db) = [u] ->
  User.is_active u = true ->
  Schemas.UserResponse.model_validate u = Ok public ->
  later <= now + ACCESS_TOKEN_EXPIRE_MINUTES * 60 ->
  exists tok,
    Main.call (Main.PostRefresh refresh_data) now credentials db
    = (Ok (Main.TokenBody tok), Session.open db)
    /\ Schemas.Token.user tok = public
    /\ Schemas.Token.expires_in tok = 1800
    /\ Security.create_refresh_token now (login_data_of u)
       = Ok (Schemas.Token.refresh_token tok)
    /\ Auth.get_current_user later (Schemas.Token.access_token tok)
         (Session.open db)
       = (Ok u, Session.open db)
    /\ Security.get_current_user later (Schemas.Token.access_token tok)
         (Session.open db)
       = (Ok u, Session.open db).
Proof.
  intros Hissued Hle Hk Ha Hpub Hlater.
  destruct (issued_refresh_verifies issued now u _ Hissued Hle)
    as (payload & Hv & Hsub).
  pose proof (refresh_token_run now refresh_data (Session.open db) payload u
                Hv Hsub Hk Ha) as E.
  assert (Halg : Jose.is_hmac_alg ALGORITHM = true).
  { unfold Security.create_refresh_token in Hissued.
    by apply encode_Ok in Hissued as [_ ?]. }
  destruct (Security.create_access_token now (login_data_of u) None)
    as [access|e] eqn:Eacc.
  2:{ unfold Security.create_access_token, Jose.encode in Eacc.
      rewrite Halg in Eacc. discriminate. }
  destruct (Security.create_refresh_token now (login_data_of u))
    as [refresh|e] eqn:Eref.
  2:{ unfold Security.create_refresh_token, Jose.encode in Eref.
      rewrite Halg in Eref. discriminate. }
  rewrite Hpub in E. simpl in E.
  destruct (issued_access_verifies now later u _ Eacc Hlater)
    as (payload' & Hv' & Hsub').
  unfold Main.call, Main.dispatch, mbind, session_bind, Session.bind.
  rewrite E. simpl. eexists. split; [reflexivity|]. simpl.
  split; [reflexivity|]. split; [reflexivity|]. split; [reflexivity|].
  exact (accepted_by_both later _ _ payload' u Hv' Hsub' Hk Ha).
Qed.

(** The refresh token of the sample store's administrator, issued at instant
    1000 and used on the last instant of its seven days. *)
Lemma refresh_renews_tokens_witness :
  exists rt tok,
    @Security.create_refresh_token default_settings reference_primitives
      1000 (login_data_of root_user) = Ok rt
    /\ @Main.call default_settings reference_primitives
         (Main.PostRefresh rt) 605800 (Jose.Garbage "") sample_db
       = (Ok (Main.TokenBody tok), Session.open sample_db)
    /\ Schemas.Token.expires_in tok = 1800
    /\ @Auth.get_current_user default_settings reference_primitives 607600
         (Schemas.Token.access_token tok) (Session.open sample_db)
       = (Ok root_user, Session.open sample_db).
Proof.
  eexists. 
  destruct (@refresh_renews_tokens default_settings reference_primitives
              1000 605800 607600
              (Jose.Jws "HS256"
                 (<["type" := JStr "refresh"]>
                    (<["exp" := JInt 605800]> (login_data_of root_user)))
                 (@hmac reference_primitives "HS256"
                    (@SECRET_KEY default_settings)
                    (<["type" := JStr "refresh"]>
                       (<["exp" := JInt 605800]> (login_data_of root_user)))))
              (Jose.Garbage "") sample_db root_user
              (Schemas.UserResponse.mk 1 "root" "root@example.org"
                 "Root Admin" ADMIN true 10 10))
    as (tok & E & _ & Hexp & _ & Hauth & _);
    [reflexivity|vm_compute; discriminate|reflexivity|reflexivity|reflexivity
    |vm_compute; discriminate|].
  exists tok. split; [reflexivity|]. split; [exact E|].
  split; [exact Hexp|exact Hauth].
Defined.

(** X7. The refresh route answers 401 "Invalid or expired refresh token",
    and touches nothing, when it is given an access token (whatever its
    claims and lifetime) or a refresh token whose lifetime has passed. *)
Theorem refresh_refuses_access_and_expired_tokens `{Settings} `{Primitives}
        (issued now : Z) (data : gmap string jvalue) (delta : option Z)
        (refresh_data credentials : Jose.token) (db : Session.Db) :
  Security.create_access_token issued data delta = Ok refresh_data
  \/ (Security.create_refresh_token issued data = Ok refresh_data
      /\ issued + REFRESH_TOKEN_EXPIRE_DAYS * 86400 < now) ->
  Main.call (Main.PostRefresh refresh_data) now credentials db
  = (Raise invalid_refresh_token, Session.open db).
Proof.
  intros Hcase.
  assert (Hv : Security.verify_token now refresh_data "refresh" = None).
  { destruct Hcase as [Hacc|[Href Hlate]].
    - apply verify_token_wrong_type.
      rewrite (issued_access_type _ _ _ _ Hacc). discriminate.
    - unfold Security.create_refresh_token in Href.
      apply encode_Ok in Href as [-> _].
      apply (verify_token_expired now _ _ _
               (JInt (issued + REFRESH_TOKEN_EXPIRE_DAYS * 86400))
               (issued + REFRESH_TOKEN_EXPIRE_DAYS * 86400));
        [|reflexivity|exact Hlate].
      rewrite lookup_insert_ne by done. by rewrite lookup_insert_eq. }
  unfold Main.call, Main.dispatch, Auth.refresh_token,
    mbind, session_bind, Session.bind.
  rewrite Hv. reflexivity.
Qed.

(** Alice's access token, issued at instant 900, offered for a refresh. *)
Lemma refresh_refuses_access_and_expired_tokens_witness :
  @Main.call default_settings reference_primitives
    (Main.PostRefresh (sample_token alice)) 1000 (Jose.Garbage "") sample_db
  = (Raise invalid_refresh_token, Session.open sample_db).
Proof.
  apply (@refresh_refuses_access_and_expired_tokens default_settings
           reference_primitives 900 1000 (login_data_of alice) None).
  left. reflexivity.
Defined.

(** X8. The routes that only query (token refresh, /me, the user list and a
    single user, both balances) leave the session as it was opened, whatever
    the credentials and whether they answer or raise: nothing is written and
    nothing is committed. *)
Theorem query_routes_change_nothing `{Settings} `{Primitives}
        (r : Main.route) (now : Z) (credentials : Jose.token)
        (db : Session.Db) :
  queries_only r = true ->
  snd (Main.call r now credentials db) = Session.open db.
Proof.
  intros Hr. unfold Main.call.
  assert (Hro : read_only (Main.dispatch r now credentials));
    [|apply Hro].
  destruct r; try discriminate Hr; unfold Main.dispatch;
    repeat first
      [ apply read_only_auth_get_current_user
      | apply read_only_security_get_current_user
      | apply read_only_get_admin_user
      | apply read_only_refresh_token
      | apply read_only_get_current_user_info
      | apply read_only_get_users
      | apply read_only_get_user
      | apply read_only_get_balance
      | apply read_only_get_public_balance
      | apply read_only_ret
      | apply read_only_bind; [|intros ?] ].
Qed.

(** The administrator of the sample store lists the users. *)
Lemma query_routes_change_nothing_witness :
  snd (@Main.call default_settings reference_primitives Main.GetUsers 1000
         (sample_token root_user) sample_db)
  = Session.open sample_db.
Proof.
  apply (@query_routes_change_nothing default_settings reference_primitives
           Main.GetUsers 1000 (sample_token root_user) sample_db).
  reflexivity.
Defined.

(** X9. Logging out writes one [LOGOUT] audit row for the caller and nothing
    else; it does not revoke the token: at every later instant at which the
    token still verifies, it is accepted on the store the logout left behind,
    as the same user. *)
Theorem logout_does_not_revoke `{Settings} `{Primitives}
        (now : Z) (request : Request.t) (credentials : Jose.token)
        (db : Session.Db) (payload : gmap string jvalue) (u : User.t) :
  Security.verify_token now credentials "access" = Some payload ->
  payload !! "sub" = Some (JStr (Py.str_of_int (User.id u))) ->
  users_with_id (User.id u) (Session.open db) = [u] ->
  User.is_active u = true ->
  exists s',
    Main.call (Main.PostLogout request) now credentials db
    = (Ok (Main.MessageBody "Successfully logged out"), s')
    /\ Session.durable s'
       = append_audit db (logout_row now request u (Session.audit_logs_seq db))
    /\ forall later,
         Security.verify_token later credentials "access" = Some payload ->
         Auth.get_current_user later credentials
           (Session.open (Session.durable s'))
         = (Ok u, Session.open (Session.durable s')).
Proof.
  intros Hv Hsub Hk Ha.
  destruct (accepted_by_both now credentials (Session.open db) payload u
              Hv Hsub Hk Ha) as [E _].
  unfold Main.call, Main.dispatch, Auth.logout,
    mbind, session_bind, Session.bind.
  rewrite E.
  match goal with
  | |- context [AuditService.log_action ?n ?a ?b ?c ?d ?e ?f ?g ?h ?s] =>
      destruct (log_action_run n a b c d e f g h s) as [r ->]
  end.
  simpl. eexists. split; [reflexivity|]. split; [reflexivity|].
  intros later Hv'. simpl.
  apply (accepted_by_both later _ _ payload u Hv' Hsub); [|exact Ha].
  rewrite <- Hk. by apply users_with_id_ext.
Qed.

(** Alice logs out at instant 1000 with the token issued at 900, and uses it
    again at 2000. *)
Lemma logout_does_not_revoke_witness :
  exists s',
    @Main.call default_settings reference_primitives
      (Main.PostLogout browser) 1000 (sample_token alice) sample_db
    = (Ok (Main.MessageBody "Successfully logged out"), s')
    /\ Session.durable s'
       = append_audit sample_db (logout_row 1000 browser alice 0)
    /\ @Auth.get_current_user default_settings reference_primitives 2000
         (sample_token alice) (Session.open (Session.durable s'))
       = (Ok alice, Session.open (Session.durable s')).
Proof.
  destruct (@logout_does_not_revoke default_settings reference_primitives
              1000 browser (sample_token alice) sample_db
              (<["type" := JStr "access"]>
                 (<["exp" := JInt 2700]> (login_data_of alice))) alice)
    as (s' & E & Hd & Hlater);
    [reflexivity|reflexivity|reflexivity|reflexivity|].
  exists s'. split; [exact E|]. split; [exact Hd|].
  apply Hlater. reflexivity.
Defined.

Section Balance.

Import Session Orm Schemas.

Lemma select_records_run (p : FinancialRecord.t -> bool) s :
  select_records p s
  = (Ok (filter (λ r, p r = true) (financial_records (working s))), s).
Proof. reflexivity. Qed.

Lemma sum_amounts_run p s :
  Transactions.sum_amounts p s
  = (Ok (foldr (λ r acc, FinancialRecord.amount r + acc) 0
           (filter (λ r, p r = true) (financial_records (working s)))), s).
Proof. reflexivity. Qed.

Lemma get_balance_run u s :
  let rows := financial_records (working s) in
  Transactions.get_balance u s
  = (Ok (BalanceResponse.mk (total credit rows - total debit rows)
           (total credit rows) (total debit rows)), s).
Proof. reflexivity. Qed.

Lemma total_app ty l1 l2 : total ty (l1 ++ l2) = total ty l1 + total ty l2.
Proof.
  unfold total. rewrite filter_app, foldr_app.
  induction (filter (λ r, counts_as ty r = true) l1) as [|x l IH]; simpl.
  - reflexivity.
  - rewrite IH. lia.
Qed.

Lemma total_singleton ty r : total ty [r] = share ty r.
Proof.
  unfold total, share. rewrite filter_cons, filter_nil.
  destruct (decide (counts_as ty r = true)) as [->|Hn]; simpl; [lia|].
  by apply not_true_is_false in Hn as ->.
Qed.

Lemma total_cons ty r l : total ty (r :: l) = share ty r + total ty l.
Proof. change (r :: l) with ([r] ++ l)%list. by rewrite total_app, total_singleton. Qed.

Lemma share_deleted ty r : FinancialRecord.is_deleted r = true -> share ty r = 0.
Proof.
  intros Hd. unfold share, counts_as. rewrite Hd.
  by rewrite andb_false_r.
Qed.

Lemma replace_record_none k x rows :
  FinancialRecord.id x = k ->
  filter (λ r, live k r = true) rows = [] ->
  FinancialRecord.is_deleted x = true ->
  forall ty, total ty (replace_record x rows) = total ty rows.
Proof.
  intros Hk Hnone Hd ty. induction rows as [|r rows IH]; [reflexivity|].
  rewrite filter_cons in Hnone.
  destruct (decide (live k r = true)) as [Hl|Hl]; [discriminate|].
  apply not_true_is_false in Hl.
  unfold replace_record in *. simpl. rewrite !total_cons, (IH Hnone).
  f_equal. rewrite Hk.
  destruct (FinancialRecord.id r =? k) eqn:Hid; [|reflexivity].
  unfold live in Hl. rewrite Hid in Hl. simpl in Hl.
  apply negb_false_iff in Hl.
  by rewrite (share_deleted ty x Hd), (share_deleted ty r Hl).
Qed.

Lemma replace_record_one k x r rows :
  FinancialRecord.id x = k ->
  filter (λ r, live k r = true) rows = [r] ->
  FinancialRecord.is_deleted x = true ->
  forall ty, total ty (replace_record x rows) = total ty rows - share ty r.
Proof.
  intros Hk Hone Hd ty. induction rows as [|r0 rows IH]; [discriminate|].
  rewrite filter_cons in Hone.
  destruct (decide (live k r0 = true)) as [Hl|Hl].
  - injection Hone as -> Hnone.
    pose proof (replace_record_none k x rows Hk Hnone Hd ty) as Hrest.
    unfold replace_record in *. simpl. rewrite !total_cons, Hrest.
    unfold live in Hl. apply andb_true_iff in Hl as [Hid _].
    rewrite Hk, Hid. rewrite (share_deleted ty x Hd). lia.
  - apply not_true_is_false in Hl.
    unfold replace_record in *. simpl. rewrite !total_cons, (IH Hone).
    rewrite Hk.
    destruct (FinancialRecord.id r0 =? k) eqn:Hid; [|lia].
    unfold live in Hl. rewrite Hid in Hl. simpl in Hl.
    apply negb_false_iff in Hl.
    rewrite (share_deleted ty x Hd), (share_deleted ty r0 Hl). lia.
Qed.

Lemma replace_record_gone k x rows :
  FinancialRecord.id x = k ->
  FinancialRecord.is_deleted x = true ->
  filter (λ r, live k r = true) (replace_record x rows) = [].
Proof.
  intros Hk Hd. induction rows as [|r rows IH]; [reflexivity|].
  unfold replace_record in *. simpl. rewrite filter_cons, IH.
  destruct (decide _) as [Hl|Hl]; [|reflexivity].
  exfalso. rewrite Hk in Hl.
  destruct (FinancialRecord.id r =? k) eqn:Hid; unfold live in Hl.
  - rewrite Hd in Hl. by rewrite andb_false_r in Hl.
  - by rewrite Hid in Hl.
Qed.

Lemma record_response_fields r owner resp :
  FinancialRecordResponse.model_validate r owner = Ok resp ->
  FinancialRecordResponse.amount resp = FinancialRecord.amount r
  /\ FinancialRecordResponse.type_of_text (FinancialRecord.transaction_type r)
     = Ok (FinancialRecordResponse.transaction_type resp).
Proof.
  unfold FinancialRecordResponse.model_validate.
  destruct (negb _); [discriminate|].
  destruct (constrained_str 1 500 _); [|discriminate].
  destruct (FinancialRecordResponse.type_of_text _) as [ty|]; [|discriminate].
  destruct owner as [u|]; [|discriminate]. simpl.
  destruct (UserResponse.model_validate u); [|discriminate].
  simpl. by intros [= <-].
Qed.

Lemma create_transaction_Ok now transaction current_user s resp s' :
  Transactions.create_transaction now transaction current_user s
  = (Ok resp, s') ->
  exists row,
    financial_records (durable s')
    = (financial_records (working s) ++ [row])%list
    /\ FinancialRecord.is_deleted row = false
    /\ FinancialRecord.amount row = FinancialRecordResponse.amount resp
    /\ FinancialRecord.transaction_type row
       = TransactionType_value (FinancialRecordResponse.transaction_type resp).
Proof.
  unfold Transactions.create_transaction. intros E.
  destruct (Transactions.is_admin current_user); [|discriminate].
  simpl in E.
  apply try_except_Ok in E; [|apply fail_500_raises].
  apply bind_Ok in E as (k & s1 & E1 & E).
  apply add_record_Ok in E1 as [Hk ->].
  apply bind_Ok in E as ([] & s2 & E1 & E).
  rewrite commit_run in E1. injection E1 as <-.
  apply bind_Ok in E as (r0 & s3 & E1 & E).
  apply refresh_record_Ok in E1 as [-> (rest & Hrows)].
  pose proof (filter_head_elem _ _ _ _ Hrows) as [_ Hid0].
  apply Z.eqb_eq in Hid0.
  apply bind_Ok in E as (rows & s3 & E1 & E).
  apply select_records_Ok in E1 as [-> ->].
  apply bind_Ok in E as (db_record & s3 & E1 & E).
  apply scalar_one_Ok in E1 as [-> Hone].
  rewrite Hid0 in Hone. simpl in Hone, Hrows.
  set (row := FinancialRecord.mk k (FinancialRecordCreate.amount transaction)
                (FinancialRecordCreate.description transaction)
                (TransactionType_value
                   (FinancialRecordCreate.transaction_type transaction))
                (User.id current_user) now now false) in *.
  assert (Hrow : row ∈ filter (λ r, (FinancialRecord.id r =? k) = true)
                   (financial_records (working s) ++ [row])%list).
  { apply list_elem_of_filter. split; [apply Z.eqb_refl|].
    apply elem_of_app. right. apply list_elem_of_singleton. reflexivity. }
  rewrite Hone in Hrow. apply list_elem_of_singleton in Hrow. subst db_record.
  apply bind_Ok in E as (owner & s3 & E1 & E).
  apply created_by_user_Ok in E1 as ->.
  apply bind_Ok in E as (a & s3 & E1 & E).
  apply log_audit_Ok in E1 as (action & Hact & ->).
  apply lift_Ok in E as [Hresp ->].
  apply record_response_fields in Hresp as [Hamount Htype].
  exists row. split; [reflexivity|]. split; [reflexivity|].
  split; [by rewrite Hamount|].
  unfold row in Htype |- *. simpl in Htype |- *.
  remember (FinancialRecordResponse.transaction_type resp) as ty eqn:Hty.
  clear Hty.
  destruct (FinancialRecordCreate.transaction_type transaction);
    cbv in Htype; injection Htype as <-; reflexivity.
Qed.

Lemma delete_transaction_Ok now record_id current_user s m s' :
  Transactions.delete_transaction now record_id current_user s = (Ok m, s') ->
  exists r,
    filter (λ r, live record_id r = true) (financial_records (working s)) = [r]
    /\ financial_records (durable s')
       = replace_record
           (Transactions.set_updated_at
              (Transactions.set_is_deleted r true) now)
           (financial_records (working s))
    /\ Transactions.is_admin current_user = true.
Proof.
  unfold Transactions.delete_transaction. intros E.
  destruct (Transactions.is_admin current_user); [|discriminate].
  simpl in E.
  apply try_except_Ok in E; [|apply transactions_on_error_raises].
  apply bind_Ok in E as (rows & s1 & E1 & E).
  apply select_records_Ok in E1 as [-> ->].
  apply bind_Ok in E as (found & s1 & E1 & E).
  apply scalar_one_or_none_Ok in E1 as [-> [[_ ->]|(r & Hrows & ->)]];
    [discriminate|].
  exists r. split; [exact Hrows|]. split; [|reflexivity].
  apply bind_Ok in E as ([] & s1 & E1 & E).
  rewrite store_record_run in E1. injection E1 as <-.
  apply bind_Ok in E as ([] & s2 & E1 & E).
  rewrite commit_run in E1. injection E1 as <-.
  apply bind_Ok in E as (a & s3 & E1 & E).
  apply log_audit_Ok in E1 as (action & Hact & ->).
  injection E as _ <-. reflexivity.
Qed.

End Balance.

(** X10. A transaction that [create_transaction] reports as created counts
    in the balance from then on, with the amount and the type its response
    reports, which are those of the stored row: read on the store the request
    left behind, the total of that type has grown by that amount, the other
    total is what it was, and the balance has moved by the amount, up for a
    credit and down for a debit. *)
Theorem created_transaction_enters_balance
        (now : Z) (transaction : Schemas.FinancialRecordCreate.t)
        (admin viewer : User.t) (db : Session.Db)
        (resp : Schemas.FinancialRecordResponse.t) (s' : Session.t) :
  Transactions.create_transaction now transaction admin (Session.open db)
  = (Ok resp, s') ->
  exists b b',
    Transactions.get_balance viewer (Session.open db)
    = (Ok b, Session.open db)
    /\ Transactions.get_balance viewer (Session.open (Session.durable s'))
       = (Ok b', Session.open (Session.durable s'))
    /\ let a := Schemas.FinancialRecordResponse.amount resp in
       match Schemas.FinancialRecordResponse.transaction_type resp with
       | credit =>
           Schemas.BalanceResponse.total_credits b'
           = Schemas.BalanceResponse.total_credits b + a
           /\ Schemas.BalanceResponse.total_debits b'
              = Schemas.BalanceResponse.total_debits b
           /\ Schemas.BalanceResponse.balance b'
              = Schemas.BalanceResponse.balance b + a
       | debit =>
           Schemas.BalanceResponse.total_credits b'
           = Schemas.BalanceResponse.total_credits b
           /\ Schemas.BalanceResponse.total_debits b'
              = Schemas.BalanceResponse.total_debits b + a
           /\ Schemas.BalanceResponse.balance b'
              = Schemas.BalanceResponse.balance b - a
       end.
Proof.
  intros E.
  apply create_transaction_Ok in E as (row & Hrows & Hdel & Hamount & Htype).
  eexists _, _. split; [apply get_balance_run|].
  split; [apply get_balance_run|].
  simpl in *. rewrite Hrows, !total_app, !total_singleton.
  unfold share, counts_as. rewrite Hdel, Htype, Hamount. simpl.
  destruct (Schemas.FinancialRecordResponse.transaction_type resp);
    simpl; repeat split; lia.
Qed.

(** The administrator of the sample store books a credit of 1500; a viewer
    reads the balance before and after. *)
Lemma created_transaction_enters_balance_witness :
  exists resp s',
    Transactions.create_transaction
      1000 (Schemas.FinancialRecordCreate.mk 1500 "Bake sale" credit)
      root_user (Session.open sample_db) = (Ok resp, s')
    /\ Schemas.FinancialRecordResponse.amount resp = 1500
    /\ Schemas.FinancialRecordResponse.transaction_type resp = credit
    /\ exists b',
         Transactions.get_balance alice (Session.open (Session.durable s'))
         = (Ok b', Session.open (Session.durable s'))
         /\ Schemas.BalanceResponse.total_credits b' = 0 + 1500
         /\ Schemas.BalanceResponse.total_debits b' = 0
         /\ Schemas.BalanceResponse.balance b' = 0 + 1500.
Proof.
  assert (E : exists resp s',
             Transactions.create_transaction 1000
               (Schemas.FinancialRecordCreate.mk 1500 "Bake sale" credit)
               root_user (Session.open sample_db) = (Ok resp, s')
             /\ Schemas.FinancialRecordResponse.amount resp = 1500
             /\ Schemas.FinancialRecordResponse.transaction_type resp = credit)
    by (vm_compute; eauto).
  destruct E as (resp & s' & E & Hamount & Htype).
  exists resp, s'. split; [exact E|]. split; [exact Hamount|].
  split; [exact Htype|].
  destruct (created_transaction_enters_balance 1000
              (Schemas.FinancialRecordCreate.mk 1500 "Bake sale" credit)
              root_user alice sample_db resp s' E)
    as (b & b' & Eb & Eb' & Hc).
  injection Eb as <-. exists b'. split; [exact Eb'|].
  simpl in Hc. rewrite Htype, Hamount in Hc. exact Hc.
Defined.

(** X11. A transaction that [delete_transaction] reports as deleted was a
    live row of the store under the given key, and no longer counts: read on
    the store the request left behind, each total has dropped by what that row
    contributed to it, and the balance accordingly. *)
Theorem deleted_transaction_leaves_balance
        (now : Z) (record_id : Z) (admin viewer : User.t) (db : Session.Db)
        (m : string) (s' : Session.t) :
  Transactions.delete_transaction now record_id admin (Session.open db)
  = (Ok m, s') ->
  exists r b b',
    r ∈ Session.financial_records db
    /\ FinancialRecord.id r = record_id
    /\ FinancialRecord.is_deleted r = false
    /\ Transactions.get_balance viewer (Session.open db)
       = (Ok b, Session.open db)
    /\ Transactions.get_balance viewer (Session.open (Session.durable s'))
       = (Ok b', Session.open (Session.durable s'))
    /\ Schemas.BalanceResponse.total_credits b'
       = Schemas.BalanceResponse.total_credits b - share credit r
    /\ Schemas.BalanceResponse.total_debits b'
       = Schemas.BalanceResponse.total_debits b - share debit r
    /\ Schemas.BalanceResponse.balance b'
       = Schemas.BalanceResponse.balance b - share credit r + share debit r.
Proof.
  intros E. apply delete_transaction_Ok in E as (r & Hone & Hrows & _).
  simpl in Hone, Hrows.
  pose proof (filter_head_elem _ _ _ _ Hone) as [Hin Hlive].
  unfold live in Hlive. apply andb_true_iff in Hlive as [Hid Hdel].
  apply Z.eqb_eq in Hid. apply negb_true_iff in Hdel.
  exists r. eexists _, _. split; [exact Hin|]. split; [exact Hid|].
  split; [exact Hdel|].
  split; [apply get_balance_run|]. split; [apply get_balance_run|].
  simpl. rewrite Hrows.
  rewrite !(replace_record_one record_id
              (Transactions.set_updated_at
                 (Transactions.set_is_deleted r true) now)
              r _ Hid Hone eq_refl).
  repeat split; lia.
Qed.

(** The administrator deletes the bake sale of the sample ledger. *)
Lemma deleted_transaction_leaves_balance_witness :
  exists m s' b b',
    Transactions.delete_transaction
      1000 1 root_user (Session.open ledger_db) = (Ok m, s')
    /\ Transactions.get_balance alice (Session.open ledger_db)
       = (Ok b, Session.open ledger_db)
    /\ Transactions.get_balance alice (Session.open (Session.durable s'))
       = (Ok b', Session.open (Session.durable s'))
    /\ Schemas.BalanceResponse.balance b = 1100
    /\ Schemas.BalanceResponse.balance b' = -400.
Proof.
  assert (E : exists m s',
             Transactions.delete_transaction 1000 1 root_user (Session.open ledger_db)
             = (Ok m, s'))
    by (vm_compute; eauto).
  destruct E as (m & s' & E).
  destruct (deleted_transaction_leaves_balance 1000 1 root_user alice ledger_db m s' E)
    as (r & b & b' & Hin & Hid & Hdel & Eb & Eb' & _ & _ & Hbal).
  exists m, s', b, b'. split; [exact E|]. split; [exact Eb|].
  split; [exact Eb'|].
  injection Eb as <-. split; [reflexivity|].
  rewrite Hbal.
  assert (r = bake_sale) as ->.
  { apply elem_of_cons in Hin as [->|Hin]; [reflexivity|].
    apply elem_of_cons in Hin as [->|Hin]; [discriminate Hid|].
    apply list_elem_of_singleton in Hin as ->. discriminate Hid. }
  reflexivity.
Defined.

(** X12. Deletion is soft and final: once [delete_transaction] has reported
    a key as deleted, a further deletion or an update under that key, by any
    administrator at any later instant, answers 404 "Transaction not found"
    on the store the request left behind, and changes nothing. *)
Theorem deleted_transaction_is_not_found
        (now later : Z) (record_id : Z) (admin admin' : User.t)
        (transaction : Schemas.FinancialRecordUpdate.t) (db : Session.Db)
        (m : string) (s' : Session.t) :
  Transactions.delete_transaction now record_id admin (Session.open db)
  = (Ok m, s') ->
  Transactions.is_admin admin' = true ->
  Transactions.delete_transaction later record_id admin'
    (Session.open (Session.durable s'))
  = (Raise transaction_not_found, Session.open (Session.durable s'))
  /\ Transactions.update_transaction later record_id transaction admin'
       (Session.open (Session.durable s'))
     = (Raise transaction_not_found, Session.open (Session.durable s')).
Proof.
  intros E Hadmin. apply delete_transaction_Ok in E as (r & Hone & Hrows & _).
  simpl in Hone, Hrows.
  pose proof (filter_head_elem _ _ _ _ Hone) as [_ Hlive].
  unfold live in Hlive. apply andb_true_iff in Hlive as [Hid _].
  apply Z.eqb_eq in Hid.
  assert (Hgone : filter (λ r, live record_id r = true)
                    (Session.financial_records (Session.durable s')) = []).
  { rewrite Hrows. by apply replace_record_gone. }
  unfold Transactions.delete_transaction, Transactions.update_transaction.
  rewrite Hadmin. simpl.
  unfold Session.try_except, mbind, session_bind, Session.bind.
  rewrite !select_records_run. simpl.
  unfold live in Hgone. rewrite Hgone. split; reflexivity.
Qed.

(** The administrator deletes the bake sale, then tries again and tries to
    change its amount. *)
Lemma deleted_transaction_is_not_found_witness :
  exists m s',
    Transactions.delete_transaction
      1000 1 root_user (Session.open ledger_db) = (Ok m, s')
    /\ Transactions.delete_transaction
         2000 1 root_user (Session.open (Session.durable s'))
       = (Raise transaction_not_found, Session.open (Session.durable s'))
    /\ Transactions.update_transaction
         2000 1 (Schemas.FinancialRecordUpdate.mk (Some 99) None None)
         root_user (Session.open (Session.durable s'))
       = (Raise transaction_not_found, Session.open (Session.durable s')).
Proof.
  assert (E : exists m s',
             Transactions.delete_transaction 1000 1 root_user (Session.open ledger_db)
             = (Ok m, s'))
    by (vm_compute; eauto).
  destruct E as (m & s' & E). exists m, s'. split; [exact E|].
  apply (deleted_transaction_is_not_found 1000 2000 1 root_user root_user
           (Schemas.FinancialRecordUpdate.mk (Some 99) None None)
           ledger_db m s' E).
  reflexivity.
Defined.

(** X13. A caller whose token is good but whose role is not "admin" gets
    403 "Admin access required" from every route of the users router and
    from the creation, update and deletion of transactions; the session is
    left as it was opened. *)
Theorem admin_routes_refuse_other_roles `{Settings} `{Primitives}
        (r : Main.route) (now : Z) (credentials : Jose.token)
        (db : Session.Db) (payload : gmap string jvalue) (u : User.t) :
  admin_only r = true ->
  Security.verify_token now credentials "access" = Some payload ->
  payload !! "sub" = Some (JStr (Py.str_of_int (User.id u))) ->
  users_with_id (User.id u) (Session.open db) = [u] ->
  User.is_active u = true ->
  role_str (User.role u) <> "admin" ->
  Main.call r now credentials db
  = (Raise admin_access_required, Session.open db).
Proof.
  intros Hr Hv Hsub Hk Ha Hrole.
  destruct (accepted_by_both now credentials (Session.open db) payload u
              Hv Hsub Hk Ha) as [E1 E2].
  apply String.eqb_neq in Hrole.
  destruct r as [| | | |op| | | |]; try discriminate Hr;
    [destruct op; try discriminate Hr|..];
    unfold Main.call, Main.dispatch, Endpoints.authenticate, Endpoints.handle,
      Auth.get_admin_user, Transactions.create_transaction,
      Transactions.update_transaction, Transactions.delete_transaction,
      Transactions.is_admin, mbind, session_bind, Session.bind;
    rewrite ?E1, ?E2, ?Hrole; reflexivity.
Qed.

(** Alice, a viewer, asks for the list of users. *)
Lemma admin_routes_refuse_other_roles_witness :
  @Main.call default_settings reference_primitives Main.GetUsers 1000
    (sample_token alice) sample_db
  = (Raise admin_access_required, Session.open sample_db).
Proof.
  apply (@admin_routes_refuse_other_roles default_settings
           reference_primitives Main.GetUsers 1000 (sample_token alice)
           sample_db
           (<["type" := JStr "access"]>
              (<["exp" := JInt 2700]> (login_data_of alice))) alice);
    [reflexivity|reflexivity|reflexivity|reflexivity|reflexivity|].
  vm_compute. discriminate.
Defined.

Section UserRows.
Context `{Settings} `{Primitives}.

Import Session Orm Schemas.

Lemma replace_user_filter (P : User.t -> Prop) `{!∀ x, Decision (P x)}
      (u u' : User.t) (rows : list User.t) :
  filter (λ r, (User.id r =? User.id u') = true) rows = [u] ->
  (P u' <-> P u) ->
  filter P (replace_user u' rows)
  = replace_user u' (filter P rows).
Proof.
  intros Hone Hiff.
  assert (Hall : forall r, r ∈ rows -> (User.id r =? User.id u') = true -> r = u).
  { intros r Hin Hid.
    assert (Hr : r ∈ filter (λ r, (User.id r =? User.id u') = true) rows)
      by (apply list_elem_of_filter; auto).
    rewrite Hone in Hr. by apply list_elem_of_singleton in Hr. }
  clear Hone. induction rows as [|r rows IH]; [reflexivity|].
  assert (IH' : filter P (replace_user u' rows)
                = replace_user u' (filter P rows)).
  { apply IH. intros r0 Hin. apply Hall. by apply list_elem_of_further. }
  unfold replace_user in *. simpl. rewrite !filter_cons, IH'.
  destruct (User.id r =? User.id u') eqn:Hid.
  - assert (r = u) as -> by (apply Hall; [apply list_elem_of_here|done]).
    destruct (decide (P u')) as [Hp|Hp], (decide (P u)) as [Hq|Hq];
      simpl; rewrite ?Hid; tauto.
  - destruct (decide (P r)); simpl; rewrite ?Hid; reflexivity.
Qed.

Lemma replace_user_with_id (u u' : User.t) (rows : list User.t) :
  filter (λ r, (User.id r =? User.id u') = true) rows = [u] ->
  filter (λ r, (User.id r =? User.id u') = true) (replace_user u' rows) = [u'].
Proof.
  intros Hone.
  pose proof (filter_head_elem _ _ _ _ Hone) as [_ Hid].
  rewrite (replace_user_filter _ u u' rows Hone).
  - rewrite Hone. unfold replace_user. simpl. by rewrite Hid.
  - rewrite Z.eqb_refl. tauto.
Qed.

Lemma replace_user_named name (u u' : User.t) (rows : list User.t) :
  filter (λ r, (User.id r =? User.id u') = true) rows = [u] ->
  User.username u' = User.username u ->
  filter (λ r, User.username r = name) rows = [u] ->
  filter (λ r, User.username r = name) (replace_user u' rows) = [u'].
Proof.
  intros Hone Hname Hn.
  pose proof (filter_head_elem _ _ _ _ Hone) as [_ Hid].
  rewrite (replace_user_filter _ u u' rows Hone).
  - rewrite Hn. unfold replace_user. simpl. by rewrite Hid.
  - by rewrite Hname.
Qed.

Lemma inactive_refused now credentials s payload u :
  Security.verify_token now credentials "access" = Some payload ->
  payload !! "sub" = Some (JStr (Py.str_of_int (User.id u))) ->
  users_with_id (User.id u) s = [u] ->
  User.is_active u = false ->
  Auth.get_current_user now credentials s
  = (Raise user_not_found_or_inactive, s)
  /\ Security.get_current_user now credentials s
     = (Raise Security.credentials_exception, s).
Proof.
  intros Hv Hs Hu Ha.
  unfold Auth.get_current_user, Security.get_current_user, try_except.
  rewrite Hv, Hs.
  unfold mbind, session_bind, Session.bind, try_except, lift.
  rewrite int_of_key, !select_users_run.
  fold (users_with_id (User.id u) s). rewrite Hu. simpl. rewrite Ha.
  split; reflexivity.
Qed.

Lemma inactive_not_refreshed now t s payload u :
  Security.verify_token now t "refresh" = Some payload ->
  payload !! "sub" = Some (JStr (Py.str_of_int (User.id u))) ->
  users_with_id (User.id u) s = [u] ->
  User.is_active u = false ->
  Auth.refresh_token now t s = (Raise user_not_found_or_inactive, s).
Proof.
  intros Hv Hs Hu Ha. unfold Auth.refresh_token.
  rewrite Hv, Hs.
  unfold mbind, session_bind, Session.bind, lift.
  rewrite int_of_key, select_users_run.
  fold (users_with_id (User.id u) s). rewrite Hu. simpl. rewrite Ha.
  reflexivity.
Qed.

End UserRows.

(** X14. An account whose row is inactive is locked out of every way in,
    whatever it presents.  An access token of that user, however long it
    still has to run, is refused by both [get_current_user] dependencies
    (401); a refresh token of that user is refused by the refresh route
    (401); and a login under the user's name fails, whatever the password,
    with the same 401 as a wrong password.  Nothing is written. *)
Theorem inactive_user_is_locked_out `{Settings} `{Primitives}
        (later : Z) (db : Session.Db) (u : User.t) :
  users_with_id (User.id u) (Session.open db) = [u] ->
  users_named (User.username u) (Session.open db) = [u] ->
  User.is_active u = false ->
  let s := Session.open db in
  (forall credentials payload,
      Security.verify_token later credentials "access" = Some payload ->
      payload !! "sub" = Some (JStr (Py.str_of_int (User.id u))) ->
      Auth.get_current_user later credentials s
      = (Raise user_not_found_or_inactive, s)
      /\ Security.get_current_user later credentials s
         = (Raise Security.credentials_exception, s))
  /\ (forall refresh_data payload,
         Security.verify_token later refresh_data "refresh" = Some payload ->
         payload !! "sub" = Some (JStr (Py.str_of_int (User.id u))) ->
         Auth.refresh_token later refresh_data s
         = (Raise user_not_found_or_inactive, s))
  /\ (forall request password,
         Auth.login later request
           (Schemas.LoginRequest.mk (User.username u) password) s
         = (Raise incorrect_username_or_password, s)).
Proof.
  intros Hk Hn Ha s. split; [|split].
  - intros credentials payload Hv Hsub.
    exact (inactive_refused later credentials s payload u Hv Hsub Hk Ha).
  - intros refresh_data payload Hv Hsub.
    exact (inactive_not_refreshed later refresh_data s payload u Hv Hsub Hk Ha).
  - intros request password. apply login_fails.
    exact (inactive_account s
             (Schemas.LoginRequest.mk (User.username u) password) u Hn Ha).
Qed.

(** Bob, whose row in the sample store is inactive, presents at instant
    1100 an access token and a refresh token issued at instant 900, and his
    password. *)
Lemma inactive_user_is_locked_out_witness :
  @Auth.get_current_user default_settings reference_primitives 1100
    (sample_token bob) (Session.open sample_db)
  = (Raise user_not_found_or_inactive, Session.open sample_db)
  /\ @Security.get_current_user default_settings reference_primitives 1100
       (sample_token bob) (Session.open sample_db)
     = (Raise Security.credentials_exception, Session.open sample_db)
  /\ @Auth.refresh_token default_settings reference_primitives 1100
       (Jose.Jws "HS256"
          (<["type" := JStr "refresh"]>
             (<["exp" := JInt 605700]> (login_data_of bob)))
          (@hmac reference_primitives "HS256" (@SECRET_KEY default_settings)
             (<["type" := JStr "refresh"]>
                (<["exp" := JInt 605700]> (login_data_of bob)))))
       (Session.open sample_db)
     = (Raise user_not_found_or_inactive, Session.open sample_db)
  /\ @Auth.login default_settings reference_primitives 1100 browser
       (Schemas.LoginRequest.mk "bob" "Bob-pw-1") (Session.open sample_db)
     = (Raise incorrect_username_or_password, Session.open sample_db).
Proof.
  destruct (@inactive_user_is_locked_out default_settings reference_primitives
              1100 sample_db bob eq_refl eq_refl eq_refl)
    as (Htok & Href & Hlogin).
  destruct (Htok (sample_token bob)
              (<["type" := JStr "access"]>
                 (<["exp" := JInt 2700]> (login_data_of bob)))
              eq_refl eq_refl) as [Ha Hs].
  split; [exact Ha|]. split; [exact Hs|]. split.
  - apply (Href _ (<["type" := JStr "refresh"]>
                     (<["exp" := JInt 605700]> (login_data_of bob))));
      reflexivity.
  - exact (Hlogin browser "Bob-pw-1").
Defined.

(** X15. [delete_user] reads [user.role.value]. For a target whose role
    attribute is bare text, as a row read from the [String(20)] column
    carries it, the attribute access raises and the handler answers 500 with
    the exception's message; nothing is committed and the user stays
    active. *)
Theorem delete_user_fails_on_text_role
        (now : Z) (user_id : Z) (request : Request.t) (admin : User.t)
        (db : Session.Db) (u : User.t) (text : string) :
  user_id <> User.id admin ->
  users_with_id user_id (Session.open db) = [u] ->
  User.role u = RoleText text ->
  Users.delete_user now user_id request admin (Session.open db)
  = (Raise (HTTPException 500
              "Error deleting user: 'str' object has no attribute 'value'" []),
     Session.open db).
Proof.
  intros Hne Hone Hrole. apply Z.eqb_neq in Hne.
  unfold Users.delete_user, Session.try_except.
  rewrite Hne. unfold mbind, session_bind, Session.bind.
  rewrite select_users_run. fold (users_with_id user_id (Session.open db)).
  rewrite Hone. simpl. unfold Session.lift. rewrite Hrole. reflexivity.
Qed.

(** The administrator of the sample store tries to delete Alice. *)
Lemma delete_user_fails_on_text_role_witness :
  Users.delete_user 1000 2 browser root_user (Session.open sample_db)
  = (Raise (HTTPException 500
              "Error deleting user: 'str' object has no attribute 'value'" []),
     Session.open sample_db).
Proof.
  apply (delete_user_fails_on_text_role 1000 2 browser root_user sample_db
           alice "viewer"); [discriminate|reflexivity|reflexivity].
Defined.

Section Accounts.
Context `{Settings} `{Primitives}.

Import Session Orm Schemas.

Lemma replace_user_twice c c' rows :
  User.id c = User.id c' ->
  replace_user c (replace_user c' rows) = replace_user c rows.
Proof.
  intros Hid. unfold replace_user. rewrite map_map.
  apply map_ext. intros r. rewrite Hid.
  destruct (User.id r =? User.id c') eqn:E; [|by rewrite E].
  by rewrite Z.eqb_refl.
Qed.

Lemma change_password_Ok now salt request password_data current_user s m s' :
  Auth.change_password now salt request password_data current_user s
  = (Ok m, s') ->
  Security.verify_password
    (PasswordChangeRequest.current_password password_data)
    (User.password_hash current_user) = Ok true
  /\ users (durable s')
     = replace_user
         (Auth.set_password_hash current_user
            (Security.get_password_hash salt
               (PasswordChangeRequest.new_password password_data)) now)
         (users (working s)).
Proof.
  unfold Auth.change_password. intros E.
  apply bind_Ok in E as (ok & s1 & E1 & E). apply lift_Ok in E1 as [Hok ->].
  destruct ok; [|discriminate]. simpl in E. split; [exact Hok|].
  apply bind_Ok in E as ([] & s1 & E1 & E).
  rewrite store_user_run in E1. injection E1 as <-.
  apply bind_Ok in E as ([] & s2 & E1 & E).
  rewrite commit_run in E1. injection E1 as <-.
  apply bind_Ok in E as (cu & s3 & E1 & E).
  apply refresh_user_Ok in E1 as [-> _].
  apply bind_Ok in E as (a & s3 & E1 & E). apply log_action_Ok in E1 as ->.
  injection E as _ <-. reflexivity.
Qed.

Lemma create_user_run now salt user_data request current_user s :
  filter (λ u, name_or_email_taken user_data u = true) (users (working s)) = []
  ->
  Users.create_user now salt user_data request current_user s
  = (Raise (role_has_no_value "Error creating user: "),
     committed s
       (append_user (working s) (created_row now salt user_data (working s)))).
Proof.
  intros Hnone.
  unfold Users.create_user, try_except, mbind at 1 2, session_bind,
    Session.bind.
  rewrite select_users_run.
  unfold name_or_email_taken in Hnone. rewrite Hnone. simpl.
  unfold add_user, refresh_user, commit, get_working, set_working,
    mbind, session_bind, Session.bind, mret, session_ret, ret, lift.
  simpl. rewrite filter_app, filter_cons, filter_nil.
  destruct (decide _) as [_|Hne];
    [|exfalso; apply Hne; apply Z.eqb_refl].
  destruct (filter (λ u, (User.id u =? users_seq (working s) + 1) = true)
              (users (working s))) as [|x rest]; reflexivity.
Qed.

Lemma update_user_run now salt user_id user_data request current_user s u text :
  users_with_id user_id s = [u] ->
  User.role u = RoleText text ->
  filter (λ r, update_clashes user_id user_data r = true) (users (working s))
  = [] ->
  Users.update_user now salt user_id user_data request current_user s
  = (Raise (role_has_no_value "Error updating user: "),
     with_working s (durable s)).
Proof.
  intros Hone Hrole Hnone.
  unfold Users.update_user, try_except, mbind at 1 2, session_bind,
    Session.bind.
  rewrite select_users_run. fold (users_with_id user_id s). rewrite Hone.
  simpl. unfold mbind, session_bind, Session.bind.
  unfold update_clashes in Hnone.
  destruct (Users.truthy (UserUpdate.username user_data)
            || Users.truthy (UserUpdate.email user_data)).
  - rewrite select_users_run, Hnone. simpl. unfold lift. rewrite Hrole.
    reflexivity.
  - simpl. unfold lift. rewrite Hrole. reflexivity.
Qed.

Lemma update_profile_Ok now request profile_data current_user db resp s' :
  Auth.update_profile now request profile_data current_user (Session.open db)
  = (Ok resp, s') ->
  exists cu,
    same_standing current_user cu
    /\ users (durable s') = replace_user cu (users db).
Proof.
  unfold Auth.update_profile. intros E.
  apply bind_Ok in E as (cu1 & s1 & E1 & E).
  assert (H1 : same_standing current_user cu1
               /\ same_but_for current_user db s1).
  { destruct (UserUpdate.username profile_data) as [name|].
    - apply bind_Ok in E1 as (rows & s0 & E0 & E1).
      apply select_users_Ok in E0 as [-> ->].
      apply bind_Ok in E1 as (ex & s0 & E0 & E1).
      apply scalar_one_or_none_Ok in E0 as [-> [[_ ->]|(u & _ & ->)]];
        [|discriminate].
      apply bind_Ok in E1 as ([] & s0 & E0 & E1).
      rewrite store_user_run in E0. injection E0 as <-.
      injection E1 as <- <-. split; [by repeat split|].
      intros c Hc. simpl. by apply replace_user_twice.
    - injection E1 as <- <-. split; [by repeat split|]. by intros c Hc. }
  destruct H1 as [Hst1 Hrows1].
  apply bind_Ok in E as (cu2 & s2 & E2 & E).
  assert (H2 : same_standing current_user cu2
               /\ same_but_for current_user db s2).
  { destruct Hst1 as (Hi & Hr & Ha & Hp & Hc0).
    destruct (UserUpdate.email profile_data) as [addr|].
    - apply bind_Ok in E2 as (rows & s0 & E0 & E2).
      apply select_users_Ok in E0 as [-> ->].
      apply bind_Ok in E2 as (ex & s0 & E0 & E2).
      apply scalar_one_or_none_Ok in E0 as [-> [[_ ->]|(u & _ & ->)]];
        [|discriminate].
      apply bind_Ok in E2 as ([] & s0 & E0 & E2).
      rewrite store_user_run in E0. injection E0 as <-.
      injection E2 as <- <-. split; [by repeat split|].
      intros c Hc. simpl. rewrite replace_user_twice by (simpl; congruence).
      by apply Hrows1.
    - injection E2 as <- <-. split; [by repeat split|]. exact Hrows1. }
  destruct H2 as [Hst2 Hrows2].
  set (cu3 := Auth.set_updated_at
                (match UserUpdate.full_name profile_data with
                 | Some v => Auth.set_full_name cu2 v
                 | None => cu2
                 end) now) in *.
  assert (Hst3 : same_standing current_user cu3).
  { destruct Hst2 as (Hi & Hr & Ha & Hp & Hc0).
    unfold cu3. destruct (UserUpdate.full_name profile_data);
      by repeat split. }
  apply bind_Ok in E as ([] & s3 & E3 & E).
  rewrite store_user_run in E3. injection E3 as <-.
  apply bind_Ok in E as ([] & s4 & E4 & E).
  rewrite commit_run in E4. injection E4 as <-.
  apply bind_Ok in E as (cu4 & s5 & E5 & E).
  apply refresh_user_Ok in E5 as [-> _].
  apply bind_Ok in E as (a & s5 & E5 & E). apply log_action_Ok in E5 as ->.
  apply lift_Ok in E as [_ ->].
  exists cu3. split; [exact Hst3|]. simpl.
  apply Hrows2. by destruct Hst3.
Qed.

End Accounts.

(** X16. [change_password] with a current password that does not match the
    stored digest answers 400 "Current password is incorrect" and leaves the
    session as it found it: no digest is replaced, nothing is committed and
    no audit row is written. *)
Theorem wrong_current_password_changes_nothing `{Primitives}
        (now : Z) (salt : string) (request : Request.t)
        (password_data : Schemas.PasswordChangeRequest.t) (u : User.t)
        (s : Session.t) :
  Security.verify_password
    (Schemas.PasswordChangeRequest.current_password password_data)
    (User.password_hash u) = Ok false ->
  Auth.change_password now salt request password_data u s
  = (Raise current_password_is_incorrect, s).
Proof.
  intros Hv. unfold Auth.change_password, mbind, session_bind, Session.bind,
    Session.lift.
  rewrite Hv. reflexivity.
Qed.

(** Alice gives Bob's password as her current one. *)
Lemma wrong_current_password_changes_nothing_witness :
  @Auth.change_password reference_primitives 1000 "salt" browser
    (Schemas.PasswordChangeRequest.mk "Bob-pw-1" "Alice-pw-2") alice
    (Session.open sample_db)
  = (Raise current_password_is_incorrect, Session.open sample_db).
Proof.
  apply (@wrong_current_password_changes_nothing reference_primitives).
  reflexivity.
Defined.

(** X17. After a password change that [change_password] reports as done,
    on the store the request left behind, the user logs in with the new
    password, provided the digest the hashing produced verifies it; and a
    password that this digest does not verify, the old one included, is
    refused with 401. The caller is the one active row under its key and
    under its name, as the dependency loaded it. *)
Theorem changed_password_logs_in `{Settings} `{Primitives}
        (now later : Z) (salt : string) (request request' : Request.t)
        (password_data : Schemas.PasswordChangeRequest.t) (u : User.t)
        (db : Session.Db) (m : string) (s' : Session.t) :
  Auth.change_password now salt request password_data u (Session.open db)
  = (Ok m, s') ->
  Jose.is_hmac_alg ALGORITHM = true ->
  users_with_id (User.id u) (Session.open db) = [u] ->
  users_named (User.username u) (Session.open db) = [u] ->
  User.is_active u = true ->
  let new_password :=
    Schemas.PasswordChangeRequest.new_password password_data in
  let digest := Security.get_password_hash salt new_password in
  Security.verify_password new_password digest = Ok true ->
  (exists resp s'',
      Auth.login later request'
        (Schemas.LoginRequest.mk (User.username u) new_password)
        (Session.open (Session.durable s'))
      = (Ok resp, s''))
  /\ (forall other,
         Security.verify_password other digest = Ok false ->
         Auth.login later request'
           (Schemas.LoginRequest.mk (User.username u) other)
           (Session.open (Session.durable s'))
         = (Raise incorrect_username_or_password,
            Session.open (Session.durable s'))).
Proof.
  intros E Halg Hk Hn Ha new_password digest Hnew.
  apply change_password_Ok in E as [_ Hrows].
  set (u' := Auth.set_password_hash u digest now).
  assert (Hn' : forall pw,
             users_named
               (Schemas.LoginRequest.username
                  (Schemas.LoginRequest.mk (User.username u) pw))
               (Session.open (Session.durable s')) = [u']).
  { intros pw. unfold users_named. simpl. rewrite Hrows.
    exact (replace_user_named _ u u' _ Hk eq_refl Hn). }
  split.
  - destruct (login_outcome later request'
                (Schemas.LoginRequest.mk (User.username u) new_password)
                (Session.open (Session.durable s')) u' Halg
                (Hn' new_password) Ha Hnew) as (resp & E & _).
    eauto.
  - intros other Hother. apply login_fails.
    exact (wrong_password _ _ u' (Hn' other) Ha Hother).
Qed.

(** Alice changes her password at instant 1000 and logs in at 1100. *)
Lemma changed_password_logs_in_witness :
  exists m s',
    @Auth.change_password reference_primitives 1000 "salt" browser
      (Schemas.PasswordChangeRequest.mk "Alice-pw-1" "Alice-pw-2") alice
      (Session.open sample_db) = (Ok m, s')
    /\ (exists resp s'',
           @Auth.login default_settings reference_primitives 1100 browser
             (Schemas.LoginRequest.mk "alice" "Alice-pw-2")
             (Session.open (Session.durable s')) = (Ok resp, s''))
    /\ @Auth.login default_settings reference_primitives 1100 browser
         (Schemas.LoginRequest.mk "alice" "Alice-pw-1")
         (Session.open (Session.durable s'))
       = (Raise incorrect_username_or_password,
          Session.open (Session.durable s')).
Proof.
  assert (E : exists m s',
             @Auth.change_password reference_primitives 1000 "salt" browser
               (Schemas.PasswordChangeRequest.mk "Alice-pw-1" "Alice-pw-2")
               alice (Session.open sample_db) = (Ok m, s'))
    by (vm_compute; eauto).
  destruct E as (m & s' & E). exists m, s'. split; [exact E|].
  destruct (@changed_password_logs_in default_settings reference_primitives
              1000 1100 "salt" browser browser
              (Schemas.PasswordChangeRequest.mk "Alice-pw-1" "Alice-pw-2")
              alice sample_db m s' E)
    as [Hnew Hold];
    [reflexivity|reflexivity|reflexivity|reflexivity|reflexivity|].
  split; [exact Hnew|]. apply Hold. reflexivity.
Defined.

(** C1, the defect.  For a request whose name and e-mail no row of the
    store carries, [create_user] inserts the user and commits; it then reads
    [new_user.role.value] on the object it has just refreshed, whose role is
    the text of the column, and the AttributeError turns into a 500 after a
    rollback that has nothing left to undo.  The user is in the committed
    store, the session has committed once, and there is no audit row: the
    call that would write it is never reached. *)
Theorem create_user_commits_without_audit `{Primitives}
        (now : Z) (salt : string) (user_data : Schemas.UserCreate.t)
        (request : Request.t) (admin : User.t) (db : Session.Db) :
  filter (λ u, name_or_email_taken user_data u = true) (Session.users db) = []
  ->
  exists s',
    Users.create_user now salt user_data request admin (Session.open db)
    = (Raise (HTTPException 500
                "Error creating user: 'str' object has no attribute 'value'"
                []), s')
    /\ Session.users (Session.durable s')
       = (Session.users db ++ [created_row now salt user_data db])%list
    /\ Session.audit_logs (Session.durable s') = Session.audit_logs db
    /\ Session.commits s' = [Session.durable s'].
Proof.
  intros Hnone. eexists. split.
  - exact (create_user_run now salt user_data request admin (Session.open db)
             Hnone).
  - repeat split.
Qed.

(** The administrator of the sample store creates Dave at instant 1000:
    the answer is a 500, Dave is the fourth user of the committed store, and
    the audit table is as empty as it was. *)
Lemma create_user_commits_without_audit_witness :
  exists s',
    @Endpoints.serve default_settings reference_primitives
      (Endpoints.CreateUser "salt"
         (Schemas.UserCreate.mk "dave" "dave@example.org" "Dave" VIEWER true
                                "Dave-pw-1")
         browser)
      1000 (sample_token root_user) sample_db
    = (Raise (HTTPException 500
                "Error creating user: 'str' object has no attribute 'value'"
                []), s')
    /\ Session.users (Session.durable s')
       = [root_user; alice; bob;
          User.mk 4 "dave" "dave@example.org" "$2b$Dave-pw-1" "Dave"
                  (RoleText "viewer") true 1000 1000]
    /\ Session.audit_logs (Session.durable s') = []
    /\ Session.commits s' = [Session.durable s'].
Proof.
  destruct (@create_user_commits_without_audit reference_primitives 1000
              "salt"
              (Schemas.UserCreate.mk "dave" "dave@example.org" "Dave" VIEWER
                                     true "Dave-pw-1")
              browser root_user sample_db eq_refl)
    as (s' & E & Hu & Ha & Hc).
  exists s'. split; [|auto].
  unfold Endpoints.serve, mbind, session_bind, Session.bind.
  change (@Endpoints.authenticate default_settings reference_primitives
            (Endpoints.CreateUser "salt"
               (Schemas.UserCreate.mk "dave" "dave@example.org" "Dave" VIEWER
                                      true "Dave-pw-1") browser)
            1000 (sample_token root_user) (Session.open sample_db))
    with (Ok root_user, Session.open sample_db).
  unfold Endpoints.handle, mbind, session_bind, Session.bind.
  rewrite E. reflexivity.
Defined.

(** X18. The account [create_user] commits before it fails is live.  For a
    request with the active flag set, whose name and e-mail no row of the
    store carries, the handler answers 500, and on the store it left behind
    the new user logs in at once with the password of the request, provided
    the digest the hashing produced verifies that password. *)
Theorem created_user_logs_in `{Settings} `{Primitives}
        (now later : Z) (salt : string) (user_data : Schemas.UserCreate.t)
        (request request' : Request.t) (admin : User.t) (db : Session.Db) :
  filter (λ u, name_or_email_taken user_data u = true) (Session.users db) = []
  ->
  Jose.is_hmac_alg ALGORITHM = true ->
  Schemas.UserCreate.is_active user_data = true ->
  Security.verify_password (Schemas.UserCreate.password user_data)
    (Security.get_password_hash salt (Schemas.UserCreate.password user_data))
  = Ok true ->
  exists s' resp' s'',
    Users.create_user now salt user_data request admin (Session.open db)
    = (Raise (HTTPException 500
                "Error creating user: 'str' object has no attribute 'value'"
                []), s')
    /\ Auth.login later request'
         (Schemas.LoginRequest.mk (Schemas.UserCreate.username user_data)
                                  (Schemas.UserCreate.password user_data))
         (Session.open (Session.durable s'))
       = (Ok resp', s'').
Proof.
  intros Hnone Halg Ha Hp.
  pose proof (create_user_run now salt user_data request admin
                (Session.open db) Hnone) as E.
  simpl in E. set (u := created_row now salt user_data db) in *.
  assert (Hn : users_named (Schemas.UserCreate.username user_data)
                 (Session.open (append_user db u)) = [u]).
  { unfold users_named. simpl. rewrite filter_app.
    assert (Hold : filter (λ r, User.username r
                                = Schemas.UserCreate.username user_data)
                     (Session.users db) = []).
    { destruct (filter (λ r, User.username r
                             = Schemas.UserCreate.username user_data)
                  (Session.users db)) as [|r rest] eqn:Ef;
        [reflexivity|exfalso].
      apply filter_head_elem in Ef as [Hin Hname].
      assert (Hr : r ∈ filter (λ u, name_or_email_taken user_data u = true)
                     (Session.users db)).
      { apply list_elem_of_filter. split; [|exact Hin].
        unfold name_or_email_taken. apply orb_true_iff. left.
        by apply String.eqb_eq. }
      rewrite Hnone in Hr. by apply elem_of_nil in Hr. }
    rewrite Hold. simpl. rewrite filter_cons, filter_nil.
    by destruct (decide _). }
  destruct (login_outcome later request'
              (Schemas.LoginRequest.mk (Schemas.UserCreate.username user_data)
                                       (Schemas.UserCreate.password user_data))
              (Session.open (append_user db u)) u Halg Hn Ha Hp)
    as (resp' & E' & _).
  eexists _, resp', _. split; [exact E|]. exact E'.
Qed.

(** The administrator of the sample store creates Dave, who logs in. *)
Lemma created_user_logs_in_witness :
  exists s' resp' s'',
    @Users.create_user reference_primitives 1000 "salt"
      (Schemas.UserCreate.mk "dave" "dave@example.org" "Dave" VIEWER true
                             "Dave-pw-1")
      browser root_user (Session.open sample_db)
    = (Raise (HTTPException 500
                "Error creating user: 'str' object has no attribute 'value'"
                []), s')
    /\ @Auth.login default_settings reference_primitives 1100 browser
         (Schemas.LoginRequest.mk "dave" "Dave-pw-1")
         (Session.open (Session.durable s')) = (Ok resp', s'').
Proof.
  apply (@created_user_logs_in default_settings reference_primitives
           1000 1100 "salt"
           (Schemas.UserCreate.mk "dave" "dave@example.org" "Dave" VIEWER
                                  true "Dave-pw-1")
           browser browser root_user sample_db); reflexivity.
Defined.

(** X1. [update_user] never returns a response: whatever the request and
    the store, it raises.  On a target whose role is text, as a row read from
    the [String(20)] column carries it, once the target is found and no other
    user has the requested name or e-mail, the handler fails where it reads
    [user.role.value] for the old values: it answers 500 with the
    AttributeError's message after a rollback, and nothing has been
    changed. *)
Theorem update_user_never_succeeds `{Settings} `{Primitives}
        (now : Z) (salt : string) (user_id : Z)
        (user_data : Schemas.UserUpdate.t) (request : Request.t)
        (current_user : User.t) (s : Session.t) :
  (exists e s',
      Users.update_user now salt user_id user_data request current_user s
      = (Raise e, s'))
  /\ (forall u text,
         users_with_id user_id s = [u] ->
         User.role u = RoleText text ->
         filter (λ r, update_clashes user_id user_data r = true)
                (Session.users (Session.working s)) = [] ->
         Users.update_user now salt user_id user_data request current_user s
         = (Raise (HTTPException 500
                     "Error updating user: 'str' object has no attribute 'value'"
                     []),
            with_working s (Session.durable s))).
Proof.
  split.
  - destruct (Users.update_user now salt user_id user_data request
                current_user s) as [r s'] eqn:E.
    destruct (update_user_fails _ _ _ _ _ _ _ _ _ E) as [e ->]. eauto.
  - intros u text Hone Hrole Hnone.
    exact (update_user_run now salt user_id user_data request current_user s
             u text Hone Hrole Hnone).
Qed.

(** The administrator of the sample store gives Alice a new full name. *)
Lemma update_user_never_succeeds_witness :
  @Users.update_user reference_primitives 1000 "salt" 2
    (Schemas.UserUpdate.mk None None (Some "Alice A.") None None)
    browser root_user (Session.open sample_db)
  = (Raise (HTTPException 500
              "Error updating user: 'str' object has no attribute 'value'"
              []),
     Session.open sample_db).
Proof.
  destruct (@update_user_never_succeeds default_settings reference_primitives
              1000 "salt" 2
              (Schemas.UserUpdate.mk None None (Some "Alice A.") None None)
              browser root_user (Session.open sample_db)) as [_ Hrun].
  exact (Hrun alice "viewer" eq_refl eq_refl eq_refl).
Defined.

(** X19. [update_profile] changes the caller's name, e-mail and full name
    at most. When it reports success, the rows under the caller's key have
    become one row with the caller's key, role, active flag, digest and
    creation instant, whatever [role] and [is_active] the request carried,
    and every other row of the users table is the row it was. *)
Theorem update_profile_keeps_standing
        (now : Z) (request : Request.t)
        (profile_data : Schemas.UserUpdate.t) (u : User.t) (db : Session.Db)
        (resp : Schemas.UserResponse.t) (s' : Session.t) :
  Auth.update_profile now request profile_data u (Session.open db)
  = (Ok resp, s') ->
  exists cu,
    same_standing u cu
    /\ Session.users (Session.durable s')
       = Orm.replace_user cu (Session.users db).
Proof. apply update_profile_Ok. Qed.

(** Alice, a viewer, sends a new full name together with the role of an
    administrator. *)
Lemma update_profile_keeps_standing_witness :
  exists resp s' cu,
    Auth.update_profile 1000 browser
      (Schemas.UserUpdate.mk None None (Some "Alice A.") (Some ADMIN) None)
      alice (Session.open sample_db) = (Ok resp, s')
    /\ same_standing alice cu
    /\ Session.users (Session.durable s')
       = Orm.replace_user cu (Session.users sample_db).
Proof.
  assert (E : exists resp s',
             Auth.update_profile 1000 browser
               (Schemas.UserUpdate.mk None None (Some "Alice A.") (Some ADMIN)
                                      None)
               alice (Session.open sample_db) = (Ok resp, s'))
    by (vm_compute; eauto).
  destruct E as (resp & s' & E).
  destruct (update_profile_keeps_standing 1000 browser
              (Schemas.UserUpdate.mk None None (Some "Alice A.") (Some ADMIN)
                                     None)
              alice sample_db resp s' E) as (cu & Hst & Hrows).
  exists resp, s', cu. auto.
Defined.

(** X20. [create_user] never adds a user whose name or e-mail a row of the
    store already carries: it answers 400, or 500 when the lookup finds more
    than one such row, and the session is left as it was opened. *)
Theorem create_user_refuses_taken_names `{Primitives}
        (now : Z) (salt : string) (user_data : Schemas.UserCreate.t)
        (request : Request.t) (admin : User.t) (db : Session.Db)
        (x : User.t) :
  x ∈ Session.users db ->
  name_or_email_taken user_data x = true ->
  exists status detail,
    Users.create_user now salt user_data request admin (Session.open db)
    = (Raise (HTTPException status detail []), Session.open db)
    /\ (status = 400 \/ status = 500).
Proof.
  intros Hin Htaken.
  assert (Hx : x ∈ filter (λ u, name_or_email_taken user_data u = true)
                 (Session.users db))
    by (apply list_elem_of_filter; auto).
  unfold Users.create_user, Session.try_except, mbind, session_bind,
    Session.bind.
  rewrite select_users_run. simpl.
  unfold name_or_email_taken in Hx.
  destruct (filter _ (Session.users db)) as [|y [|z rest]]; simpl.
  - by apply elem_of_nil in Hx.
  - destruct (String.eqb (User.username y) _); simpl; eauto.
  - eauto.
Qed.

(** A second account under Alice's name. *)
Lemma create_user_refuses_taken_names_witness :
  exists status detail,
    @Users.create_user reference_primitives 1000 "salt"
      (Schemas.UserCreate.mk "alice" "other@example.org" "Alice B." VIEWER true
                             "Alice-pw-9")
      browser root_user (Session.open sample_db)
    = (Raise (HTTPException status detail []), Session.open sample_db)
    /\ (status = 400 \/ status = 500).
Proof.
  apply (@create_user_refuses_taken_names reference_primitives 1000 "salt"
           (Schemas.UserCreate.mk "alice" "other@example.org" "Alice B."
                                  VIEWER true "Alice-pw-9")
           browser root_user sample_db alice).
  - apply list_elem_of_further, list_elem_of_here.
  - reflexivity.
Defined.

(** X21. The page count the listings report counts exactly the pages that
    hold a row: with [total] rows and a page size of at least one, the
    window of page [page] starts below [total] if and only if [page] is at
    most the count; and the guard of [get_transactions] against an empty
    result agrees with the unguarded formula of the other listings. *)
Theorem page_count_counts_the_pages_in_use
        (f : Schemas.Filters.t) (total : Z) :
  1 <= Schemas.Filters.page f ->
  1 <= Schemas.Filters.per_page f ->
  0 <= total ->
  (Schemas.Filters.skip f < total
   <-> Schemas.Filters.page f
       <= Schemas.page_count total (Schemas.Filters.limit f))
  /\ Schemas.page_count total (Schemas.Filters.limit f)
     = Schemas.page_count_unguarded total (Schemas.Filters.limit f).
Proof.
  intros Hp Hl Ht.
  unfold Schemas.Filters.skip, Schemas.Filters.limit, Schemas.page_count,
    Schemas.page_count_unguarded.
  set (p := Schemas.Filters.page f) in *.
  set (l := Schemas.Filters.per_page f) in *.
  assert (Hdiv : forall n, n <= (total + l - 1) / l <-> n * l <= total + l - 1).
  { intros n. split; intros Hn.
    - pose proof (Z.mul_div_le (total + l - 1) l ltac:(lia)). nia.
    - apply Z.div_le_lower_bound; lia. }
  destruct (0 <? total) eqn:Hpos.
  - apply Z.ltb_lt in Hpos. split; [|reflexivity].
    rewrite Hdiv. nia.
  - apply Z.ltb_ge in Hpos. assert (total = 0) as -> by lia.
    assert (H0 : (0 + l - 1) / l = 0) by (apply Z.div_small; lia).
    rewrite H0. split; [nia|reflexivity].
Qed.

(** Twenty-five rows in pages of ten: the third page is in use. *)
Lemma page_count_counts_the_pages_in_use_witness :
  (Schemas.Filters.skip (Schemas.Filters.mk 3 10 10) < 25
   <-> 3 <= Schemas.page_count 25 10)
  /\ Schemas.page_count 25 10 = Schemas.page_count_unguarded 25 10.
Proof.
  apply (page_count_counts_the_pages_in_use (Schemas.Filters.mk 3 10 10) 25);
    simpl; lia.
Defined.

(** X22. The public balance never answers. Its queries are built from
    [TransactionType.CREDIT] and [TransactionType.DEBIT], names the
    enumeration does not declare (its members are [debit] and [credit]), so
    on every store the handler raises an AttributeError before it reads a
    row, and the session is left as it was opened. *)
Theorem public_balance_never_answers `{Settings} `{Primitives}
        (now : Z) (credentials : Jose.token) (db : Session.Db) :
  exists msg,
    Main.call Main.GetPublicBalance now credentials db
    = (Raise (PyExc "AttributeError" msg), Session.open db).
Proof. eexists. reflexivity. Qed.

Section Soundness.
Context `{Settings} `{Primitives}.

Import Jose Session Orm Schemas.

Lemma decode_alg now alg c sig key algs payload :
  decode now (Jws alg c sig) key algs = Ok payload -> alg ∈ algs.
Proof.
  simpl. case_bool_decide as Halg; simpl; [by intros _|discriminate].
Qed.

Lemma validate_claims_Ok now c :
  validate_claims now c = Ok tt ->
  validate_exp now c = Ok tt
  /\ validate_str c "sub" "Subject must be a string." = Ok tt.
Proof.
  unfold validate_claims.
  destruct (validate_iat c) as [[]|]; simpl; [|discriminate].
  destruct (validate_nbf now c) as [[]|]; simpl; [|discriminate].
  destruct (validate_exp now c) as [[]|]; simpl; [|discriminate].
  destruct (validate_aud c) as [[]|]; simpl; [|discriminate].
  destruct (validate_str c "sub" _) as [[]|]; simpl; [|discriminate].
  auto.
Qed.

Lemma accepted_cases now credentials s u :
  Auth.get_current_user now credentials s = (Ok u, s)
  \/ Security.get_current_user now credentials s = (Ok u, s) ->
  exists payload v,
    Security.verify_token now credentials "access" = Some payload
    /\ payload !! "sub" = Some v
    /\ Py.int v = Ok (User.id u)
    /\ users_with_id (User.id u) s = [u]
    /\ User.is_active u = true.
Proof.
  intros Hok.
  destruct (get_current_user_cases now credentials s)
    as (r1 & r2 & E1 & E2 & Hcase).
  assert (Hr : r1 = Ok u \/ r2 = Ok u).
  { destruct Hok as [E|E]; [right|left]; congruence. }
  destruct Hcase as [ | | | | | |payload v k u0 Hv Hsub Hint Hrows Ha];
    try (destruct Hr; discriminate).
  assert (u0 = u) as -> by (destruct Hr; congruence).
  pose proof (filter_head_elem _ _ _ _ Hrows) as [_ Hid].
  apply Z.eqb_eq in Hid. subst k. eauto 10.
Qed.

End Soundness.

(** X23. Whoever the dependencies of a mutating route admit is the subject
    of the bearer token: the token verifies as an access token at the instant
    of the call, its [sub] claim reads as the key of the admitted user, that
    user is the one row of the store under the key, and it is active; on the
    routes of the users router its role is "admin" as well. The session is
    left as it was opened. *)
Theorem admitted_caller_is_the_token_subject `{Settings} `{Primitives}
        (op : Endpoints.operation) (now : Z) (credentials : Jose.token)
        (db : Session.Db) (u : User.t) (s' : Session.t) :
  Endpoints.authenticate op now credentials (Session.open db) = (Ok u, s') ->
  s' = Session.open db
  /\ (exists payload v,
         Security.verify_token now credentials "access" = Some payload
         /\ payload !! "sub" = Some v
         /\ Py.int v = Ok (User.id u)
         /\ users_with_id (User.id u) (Session.open db) = [u]
         /\ User.is_active u = true)
  /\ (users_router op = true -> role_str (User.role u) = "admin").
Proof.
  intros E.
  pose proof (authenticate_keeps_session _ _ _ _ _ _ E) as ->.
  split; [reflexivity|].
  assert (Hadmin : forall v,
             Auth.get_admin_user v (Session.open db) = (Ok u, Session.open db)
             -> v = u /\ role_str (User.role u) = "admin").
  { intros v. unfold Auth.get_admin_user.
    destruct (String.eqb_spec (role_str (User.role v)) "admin") as [Hr|];
      simpl; [|discriminate].
    intros [= <-]. auto. }
  destruct op; simpl in E |- *;
    try (split; [apply accepted_cases; auto|discriminate]);
    (apply bind_Ok in E as (v & s1 & E1 & E);
     pose proof (read_only_auth_get_current_user now credentials
                   (Session.open db)) as Hs;
     rewrite E1 in Hs; simpl in Hs; subst s1;
     apply Hadmin in E as [-> Hrole];
     split; [apply accepted_cases; auto|auto]).
Qed.

(** The administrator of the sample store is admitted to the creation of a
    user. *)
Lemma admitted_caller_is_the_token_subject_witness :
  exists payload v,
    @Security.verify_token default_settings reference_primitives 1000
      (sample_token root_user) "access" = Some payload
    /\ payload !! "sub" = Some v
    /\ Py.int v = Ok 1
    /\ role_str (User.role root_user) = "admin".
Proof.
  destruct (@admitted_caller_is_the_token_subject default_settings
              reference_primitives
              (Endpoints.DeleteUser 3 browser) 1000 (sample_token root_user)
              sample_db root_user (Session.open sample_db) eq_refl)
    as (_ & (payload & v & Hv & Hsub & Hint & _) & Hrole).
  exists payload, v. split; [exact Hv|]. split; [exact Hsub|].
  split; [exact Hint|]. by apply Hrole.
Defined.

(** X24. A token that [verify_token] accepts is signed under the
    configured key and algorithm: it is the token whose claims are the
    returned payload and whose signature is the keyed hash of that payload.
    The payload carries the expected type, an [exp] claim it carries does
    not lie before the instant of the check, and a [sub] claim it carries is
    a string. *)
Theorem accepted_token_is_signed `{Settings} `{Primitives}
        (now : Z) (t : Jose.token) (token_type : string)
        (payload : gmap string jvalue) :
  Security.verify_token now t token_type = Some payload ->
  t = Jose.Jws ALGORITHM payload (hmac ALGORITHM SECRET_KEY payload)
  /\ payload !! "type" = Some (JStr token_type)
  /\ (forall v e, payload !! "exp" = Some v -> Py.int v = Ok e -> now <= e)
  /\ (forall v, payload !! "sub" = Some v -> exists s, v = JStr s).
Proof.
  intros E. apply verify_token_Some in E as [Hd Hty].
  pose proof Hd as Hd'.
  apply decode_Ok in Hd as (alg & sig & -> & -> & Hval).
  apply decode_alg in Hd'. apply list_elem_of_singleton in Hd' as ->.
  split; [reflexivity|]. split; [exact Hty|].
  split.
  - intros v e Hv He.
    destruct (Z.le_gt_cases now e) as [Hle|Hlt]; [exact Hle|].
    destruct (validate_claims_past now payload v e Hv He) as [err Herr];
      [lia|congruence].
  - intros v Hv. apply validate_claims_Ok in Hval as [_ Hsub].
    unfold Jose.validate_str in Hsub. rewrite Hv in Hsub.
    destruct v as [s| |]; simpl in Hsub; try discriminate. eauto.
Qed.

(** Alice's token of instant 900, checked at instant 1000. *)
Lemma accepted_token_is_signed_witness :
  sample_token alice
  = Jose.Jws "HS256"
      (<["type" := JStr "access"]>
         (<["exp" := JInt 2700]> (login_data_of alice)))
      (@hmac reference_primitives "HS256" (@SECRET_KEY default_settings)
         (<["type" := JStr "access"]>
            (<["exp" := JInt 2700]> (login_data_of alice)))).
Proof.
  apply (@accepted_token_is_signed default_settings reference_primitives
           1000 (sample_token alice) "access"
           (<["type" := JStr "access"]>
              (<["exp" := JInt 2700]> (login_data_of alice)))).
  reflexivity.
Defined.
